(** * Manifest validation: [platformio/package/manifest/schema.py]

    A shallow embedding of the manifest schema of PlatformIO
    ([StrictSchema], [StrictListField], [AuthorSchema], [RepositorySchema],
    [ExportSchema], [ExampleSchema], [ManifestSchema]) together with the part
    of marshmallow 3 that these classes run on: [Field.deserialize],
    [Field._validate], [List._deserialize], [Nested._deserialize],
    [Schema._deserialize], [Schema._do_load], the error store and
    [merge_errors].  The source tests [marshmallow_version >= (3, )]
    everywhere; the embedding follows the branch for marshmallow 3.

    Documents are JSON values.  Python dictionaries keep insertion order, so
    they are association lists here, read with [dict_get]; numbers are
    integers (no floating point), strings are sequences of one-byte
    characters. *)

From Stdlib Require Import String Ascii List ZArith Bool Arith Lia.
From Stdlib Require Import DecimalString DecimalPos DecimalN.
Import ListNotations.
Open Scope string_scope.

Set Implicit Arguments.
Set Warnings "-register-all".

(** ** Documents *)

Inductive json : Type :=
| JNull
| JBool (b : bool)
| JNum (n : Z)
| JStr (s : string)
| JList (items : list json)
| JDict (members : list (string * json)).

Definition dict := list (string * json).

(** [d.get(k)]: the value of the first binding of [k]. *)
Fixpoint dict_get (k : string) (d : dict) : option json :=
  match d with
  | [] => None
  | (k', v) :: rest => if String.eqb k k' then Some v else dict_get k rest
  end.

(** [d[k] = v]: overwrite in place, or append a new binding. *)
Fixpoint set_value (d : dict) (k : string) (v : json) : dict :=
  match d with
  | [] => [(k, v)]
  | (k', v') :: rest =>
      if String.eqb k k' then (k, v) :: rest else (k', v') :: set_value rest k v
  end.

(** [d.pop(k, None)], result discarded. *)
Fixpoint dict_pop (k : string) (d : dict) : dict :=
  match d with
  | [] => []
  | (k', v) :: rest =>
      if String.eqb k k' then dict_pop k rest else (k', v) :: dict_pop k rest
  end.

(** Python truthiness, as used by [error.valid_data or missing]. *)
Definition truthy (v : json) : bool :=
  match v with
  | JNull => false
  | JBool b => b
  | JNum n => negb (Z.eqb n 0)
  | JStr s => negb (String.eqb s "")
  | JList l => match l with [] => false | _ => true end
  | JDict d => match d with [] => false | _ => true end
  end.

(** [utils.is_collection]: iterable, not a string, not a mapping. *)
Definition is_collection (v : json) : bool :=
  match v with JList _ => true | _ => false end.

(** ** Error messages

    [ValidationError.messages] is a list of texts or a dictionary keyed by
    field names and list indices. *)

Inductive key : Type :=
| Name (s : string)
| Index (i : nat).

Definition key_eqb (a b : key) : bool :=
  match a, b with
  | Name s, Name t => String.eqb s t
  | Index i, Index j => Nat.eqb i j
  | _, _ => false
  end.

Inductive msgs : Type :=
| MList (texts : list string)
| MDict (entries : list (key * msgs)).

Definition SCHEMA : string := "_schema".

Fixpoint msgs_get (k : key) (d : list (key * msgs)) : option msgs :=
  match d with
  | [] => None
  | (k', v) :: rest => if key_eqb k k' then Some v else msgs_get k rest
  end.

Fixpoint msgs_set (k : key) (v : msgs) (d : list (key * msgs)) : list (key * msgs) :=
  match d with
  | [] => [(k, v)]
  | (k', v') :: rest =>
      if key_eqb k k' then (k, v) :: rest else (k', v') :: msgs_set k v rest
  end.

(** [not errors] *)
Definition no_errors (m : msgs) : bool :=
  match m with
  | MList [] | MDict [] => true
  | _ => false
  end.

Definition is_dict (m : msgs) : bool :=
  match m with MDict _ => true | MList _ => false end.

(** [merge_errors(errors1, [t1, ..])] for a non-empty list on the right. *)
Fixpoint merge_list_right (e1 : msgs) (l2 : list string) : msgs :=
  match e1 with
  | MList l1 => MList (l1 ++ l2)%list
  | MDict [] => MList l2
  | MDict d1 =>
      MDict ((fix upd (d : list (key * msgs)) : list (key * msgs) :=
                match d with
                | [] => [(Name SCHEMA, MList l2)]
                | (k, v) :: rest =>
                    if key_eqb k (Name SCHEMA)
                    then (k, merge_list_right v l2) :: rest
                    else (k, v) :: upd rest
                end) d1)
  end.

(** [marshmallow.error_store.merge_errors] on lists and dictionaries. *)
Fixpoint merge_errors (e1 e2 : msgs) {struct e2} : msgs :=
  if no_errors e1 then e2
  else if no_errors e2 then e1
  else
    match e2 with
    | MList l2 => merge_list_right e1 l2
    | MDict d2 =>
        match e1 with
        | MList l1 =>
            MDict ((fix upd (d : list (key * msgs)) : list (key * msgs) :=
                      match d with
                      | [] => [(Name SCHEMA, MList l1)]
                      | (k, v) :: rest =>
                          if key_eqb k (Name SCHEMA)
                          then (k, merge_errors (MList l1) v) :: rest
                          else (k, v) :: upd rest
                      end) d2)
        | MDict d1 =>
            MDict ((fix go (acc d : list (key * msgs)) : list (key * msgs) :=
                      match d with
                      | [] => acc
                      | (k, v) :: rest =>
                          go (match msgs_get k acc with
                              | Some old => msgs_set k (merge_errors old v) acc
                              | None => (acc ++ [(k, v)])%list
                              end) rest
                      end) d1 d2)
        end
    end.

(** [ErrorStore.store_error]; the store's [errors] starts as [MDict []]. *)
Definition store_error (messages : msgs) (field_name : string)
    (index : option nat) (errors : msgs) : msgs :=
  let messages :=
    if negb (String.eqb field_name SCHEMA) || negb (is_dict messages)
    then MDict [(Name field_name, messages)]
    else messages in
  let messages :=
    match index with
    | Some i => MDict [(Index i, messages)]
    | None => messages
    end in
  merge_errors errors messages.

(** ** Exceptions *)

Record ValidationError : Type := mkValidationError {
  messages : msgs;
  data : option json;
  valid_data : option json
}.

(** [error.data], for code in which [data] is a local name. *)
Definition input_of (error : ValidationError) : option json := data error.

(** [ValidationError("text")]: a single text becomes a one-element list. *)
Definition ValidationError_text (t : string) : ValidationError :=
  mkValidationError (MList [t]) None None.

Inductive outcome (E A : Type) : Type :=
| Return (a : A)
| Raise (e : E).

Arguments Return {E A} a.
Arguments Raise {E A} e.

(** Field-level code raises [ValidationError] only. *)
Definition checked (A : Type) : Type := outcome ValidationError A.

(** The exceptions of Python that can come out of the registry lookup and
    that no handler of [schema.py] names. *)
Inductive exception : Type :=
| AttributeError
| TypeError
| JSONDecodeError.

(** What a [load] of the manifest schema can raise. *)
Inductive exn : Type :=
| EValidationError (e : ValidationError)
| EManifestValidationError (error : ValidationError) (data : json)
| EException (e : exception).

(** A hook that raises [ValidationError] only, among those that can raise
    more. *)
Definition raising {A : Type} (r : checked A) : outcome exn A :=
  match r with
  | Return a => Return a
  | Raise e => Raise (EValidationError e)
  end.

(** [except ValidationError] around a hook, in [Schema._call_and_store]:
    the error that is caught and stored. *)
Definition stored (r : outcome exn unit) : checked unit :=
  match r with
  | Raise (EValidationError e) => Raise e
  | _ => Return tt
  end.

(** The exception that the handler does not catch. *)
Definition goes_through (r : outcome exn unit) : option exn :=
  match r with
  | Return _ => None
  | Raise (EValidationError _) => None
  | Raise other => Some other
  end.

(** ** Validators ([marshmallow.validate]) *)

Definition string_of_nat (n : nat) : string :=
  NilEmpty.string_of_uint (Nat.to_uint n).

Module validate.

Definition validator := string -> checked unit.

Definition Length (min max : nat) : validator := fun value =>
  let length := String.length value in
  if (length <? min)%nat || (max <? length)%nat
  then Raise (ValidationError_text
                ("Length must be between " ++ string_of_nat min ++
                 " and " ++ string_of_nat max ++ "."))
  else Return tt.

Definition OneOf (choices : list string) (error : string) : validator :=
  fun value =>
    if existsb (String.eqb value) choices then Return tt
    else Raise (ValidationError_text error).

(** [Regexp(pattern, error)] calls [re.match]; [pattern] is given by its
    matcher. *)
Definition Regexp (regex_match : string -> bool) (error : string) : validator :=
  fun value =>
    if regex_match value then Return tt
    else Raise (ValidationError_text error).

(** [validate.Email] and [validate.URL] with the field's "invalid" text. *)
Definition Email (well_formed : string -> bool) : validator := fun value =>
  if well_formed value then Return tt
  else Raise (ValidationError_text "Not a valid email address.").

Definition URL (well_formed : string -> bool) : validator := fun value =>
  if well_formed value then Return tt
  else Raise (ValidationError_text "Not a valid URL.").

End validate.

(** ** Regular expressions of the schema

    Each pattern is one or more characters of a class between [^] and [$],
    the platform pattern with a lone star as an alternative.  Without
    [re.MULTILINE], [$] matches at the end of the string and also just
    before a newline that ends the string. *)

Definition newline : ascii := ascii_of_nat 10.

Definition in_range (lo hi c : ascii) : bool :=
  (nat_of_ascii lo <=? nat_of_ascii c)%nat && (nat_of_ascii c <=? nat_of_ascii hi)%nat.

Definition lower (c : ascii) : bool := in_range "a" "z" c.
Definition upper (c : ascii) : bool := in_range "A" "Z" c.
Definition digit (c : ascii) : bool := in_range "0" "9" c.

(** [class+$] from the current position. *)
Fixpoint plus_dollar (class : ascii -> bool) (s : string) : bool :=
  match s with
  | EmptyString => false
  | String c rest =>
      class c &&
      match rest with
      | EmptyString => true
      | String n EmptyString => Ascii.eqb n newline || (class n)
      | _ => plus_dollar class rest
      end
  end.

(** [r"^[a-zA-Z\d\-\_/]+$"] *)
Definition example_name_re : string -> bool :=
  plus_dollar (fun c => lower c || upper c || digit c ||
                        Ascii.eqb c "-" || Ascii.eqb c "_" || Ascii.eqb c "/").

(** [r"^[a-z\d\-\+\. ]+$"] *)
Definition keyword_re : string -> bool :=
  plus_dollar (fun c => lower c || digit c || Ascii.eqb c "-" ||
                        Ascii.eqb c "+" || Ascii.eqb c "." || Ascii.eqb c " ").

(** [r"^[a-z\d\-_]+$"] *)
Definition system_re : string -> bool :=
  plus_dollar (fun c => lower c || digit c || Ascii.eqb c "-" || Ascii.eqb c "_").

(** The pattern of [platforms] and [frameworks]: the class of [system_re]
    or a lone star. *)
Definition platform_re (s : string) : bool :=
  system_re s ||
  String.eqb s "*" || String.eqb s (String "*" (String newline EmptyString)).

(** ** Fields ([marshmallow.fields]) *)

Record Field : Type := mkField {
  required : bool;
  _deserialize : json -> checked json;
  validators : list validate.validator
}.

(** Every field that [schema.py] declares with [validate=...] is a string
    field, so validators receive the deserialized string; each of them
    raises a text, and the texts are collected in order. *)
Fixpoint run_validators (vs : list validate.validator) (value : string)
    : list string :=
  match vs with
  | [] => []
  | v :: rest =>
      match v value with
      | Return _ => run_validators rest value
      | Raise err =>
          match messages err with
          | MList texts => (texts ++ run_validators rest value)%list
          | MDict _ => run_validators rest value
          end
      end
  end.

(** [Field._validate] *)
Definition _validate (f : Field) (value : json) : checked unit :=
  match value with
  | JStr s =>
      match run_validators (validators f) s with
      | [] => Return tt
      | errors => Raise (mkValidationError (MList errors) None None)
      end
  | _ => Return tt
  end.

(** [Field.deserialize]; [None] is marshmallow's [missing], on input and on
    output.  No field of the schema sets [allow_none] or a load default. *)
Definition deserialize (f : Field) (value : option json) : checked (option json) :=
  match value with
  | None =>
      if required f
      then Raise (ValidationError_text "Missing data for required field.")
      else Return None
  | Some JNull => Raise (ValidationError_text "Field may not be null.")
  | Some v =>
      match _deserialize f v with
      | Raise err => Raise err
      | Return output =>
          match _validate f output with
          | Raise err => Raise err
          | Return _ => Return (Some output)
          end
      end
  end.

Module fields.

(** [String._deserialize]: a value that is no string raises the text that
    the class of the field has under ["invalid"]. *)
Definition String_deserialize (invalid : string) (value : json) : checked json :=
  match value with
  | JStr s => Return (JStr s)
  | _ => Raise (ValidationError_text invalid)
  end.

Definition Str (required : bool) (validate : list validate.validator) : Field :=
  mkField required (String_deserialize "Not a valid string.") validate.

(** [Email] and [Url] are string fields with an ["invalid"] text of their
    own; [Email.__init__] and [Url.__init__] insert their validator, which
    raises the same text, in front of the declared ones. *)
Definition Email (well_formed : string -> bool)
    (validate : list validate.validator) : Field :=
  mkField false (String_deserialize "Not a valid email address.")
    (validate.Email well_formed :: validate).

Definition Url (well_formed : string -> bool)
    (validate : list validate.validator) : Field :=
  mkField false (String_deserialize "Not a valid URL.")
    (validate.URL well_formed :: validate).

Definition truthy_strings : list string :=
  ["t"; "T"; "true"; "True"; "TRUE"; "on"; "On"; "ON";
   "y"; "Y"; "yes"; "Yes"; "YES"; "1"].

Definition falsy_strings : list string :=
  ["f"; "F"; "false"; "False"; "FALSE"; "off"; "Off"; "OFF";
   "n"; "N"; "no"; "No"; "NO"; "0"].

Definition Boolean_deserialize (value : json) : checked json :=
  let invalid := Raise (ValidationError_text "Not a valid boolean.") in
  match value with
  | JBool b => Return (JBool b)
  | JNum 1 => Return (JBool true)
  | JNum 0 => Return (JBool false)
  | JStr s =>
      if existsb (String.eqb s) truthy_strings then Return (JBool true)
      else if existsb (String.eqb s) falsy_strings then Return (JBool false)
      else invalid
  | _ => invalid
  end.

(** [fields.Bool(default=False)]: [default] is the value used when
    dumping, loading has no default. *)
Definition Bool : Field := mkField false Boolean_deserialize [].

(** [List._deserialize]: the loop over the items, index first. *)
Fixpoint List_items (inner : Field) (idx : nat) (value : list json)
    : list json * list (key * msgs) :=
  match value with
  | [] => ([], [])
  | each :: rest =>
      let (result, errors) := List_items inner (S idx) rest in
      match deserialize inner (Some each) with
      | Return (Some v) => (v :: result, errors)
      | Return None => (result, errors)
      | Raise error =>
          (match valid_data error with
           | Some v => v :: result
           | None => result
           end,
           (Index idx, messages error) :: errors)
      end
  end.

Definition List_deserialize (inner : Field) (value : json) : checked json :=
  match value with
  | JList items =>
      let (result, errors) := List_items inner 0 items in
      match errors with
      | [] => Return (JList result)
      | _ => Raise (mkValidationError (MDict errors) None (Some (JList result)))
      end
  | _ => Raise (ValidationError_text "Not a valid list.")
  end.

End fields.

(** ** Schemas ([marshmallow.schema]) *)

Inductive unknown_policy : Type := RAISE | EXCLUDE | INCLUDE.

(** A schema class that can be nested: its fields, its [Meta.unknown], the
    [many] flag of the instance and its [handle_error] method, which reads
    [self.many]. *)
Record Schema : Type := mkSchema {
  load_fields : list (string * Field);
  unknown : unknown_policy;
  many : bool;
  handle_error : bool -> ValidationError -> json -> checked unit
}.

(** [Schema.handle_error] of marshmallow does nothing. *)
Definition default_handle_error (many : bool) (error : ValidationError)
    (data : json) : checked unit :=
  Return tt.

(** [Schema._call_and_store]: [error.valid_data or missing]. *)
Definition _call_and_store (got : checked (option json)) (field_name : string)
    (index : option nat) (errors : msgs) : option json * msgs :=
  match got with
  | Return value => (value, errors)
  | Raise error =>
      (match valid_data error with
       | Some v => if truthy v then Some v else None
       | None => None
       end,
       store_error (messages error) field_name index errors)
  end.

(** The loop of [Schema._deserialize] over [self.load_fields]. *)
Fixpoint deserialize_fields (fs : list (string * Field)) (data : dict)
    (index : option nat) (ret : dict) (errors : msgs) : dict * msgs :=
  match fs with
  | [] => (ret, errors)
  | (attr_name, field_obj) :: rest =>
      let raw_value := dict_get attr_name data in
      let (value, errors) :=
        _call_and_store (deserialize field_obj raw_value) attr_name index errors in
      let ret :=
        match value with
        | Some v => set_value ret attr_name v
        | None => ret
        end in
      deserialize_fields rest data index ret errors
  end.

Definition declared (fs : list (string * Field)) (k : string) : bool :=
  existsb (String.eqb k) (map fst fs).

(** [set(data) - fields], in the order of first occurrence in [data]. *)
Definition unknown_keys (fs : list (string * Field)) (data : dict) : list string :=
  nodup string_dec (filter (fun k => negb (declared fs k)) (map fst data)).

Fixpoint store_unknown (keys : list string) (index : option nat) (errors : msgs)
    : msgs :=
  match keys with
  | [] => errors
  | k :: rest =>
      store_unknown rest index (store_error (MList ["Unknown field."]) k index errors)
  end.

Fixpoint include_unknown (keys : list string) (data ret : dict) : dict :=
  match keys with
  | [] => ret
  | k :: rest =>
      include_unknown rest data
        (match dict_get k data with
         | Some v => set_value ret k v
         | None => ret
         end)
  end.

(** [Schema._deserialize] with [many=False], for the fields and the
    [unknown] policy of the schema. *)
Definition deserialize_one (fs : list (string * Field)) (unknown : unknown_policy)
    (data : json) (index : option nat) (errors : msgs) : json * msgs :=
  match data with
  | JDict d =>
      let (ret, errors) := deserialize_fields fs d index [] errors in
      match unknown with
      | EXCLUDE => (JDict ret, errors)
      | INCLUDE => (JDict (include_unknown (unknown_keys fs d) d ret), errors)
      | RAISE => (JDict ret, store_unknown (unknown_keys fs d) index errors)
      end
  | _ => (JDict [], store_error (MList ["Invalid input type."]) SCHEMA index errors)
  end.

(** [Schema._deserialize] with [many=True]: the items, index first. *)
Fixpoint deserialize_many (fs : list (string * Field)) (unknown : unknown_policy)
    (items : list json) (idx : nat) (errors : msgs) : list json * msgs :=
  match items with
  | [] => ([], errors)
  | d :: rest =>
      let (r, errors) := deserialize_one fs unknown d (Some idx) errors in
      let (rs, errors) := deserialize_many fs unknown rest (S idx) errors in
      (r :: rs, errors)
  end.

Definition Schema_deserialize (sch : Schema) (data : json) (errors : msgs)
    : json * msgs :=
  if many sch then
    match data with
    | JList items =>
        let (ret_l, errors) :=
          deserialize_many (load_fields sch) (unknown sch) items 0 errors in
        (JList ret_l, errors)
    | _ => (JList [], store_error (MList ["Invalid input type."]) SCHEMA None errors)
    end
  else deserialize_one (load_fields sch) (unknown sch) data None errors.

(** The end of [Schema._do_load]: with errors, build the exception, give it
    to [handle_error], and raise it if [handle_error] returned. *)
Definition raise_errors {E : Type} (as_exception : ValidationError -> E)
    (handle : ValidationError -> json -> outcome E unit)
    (data result : json) (errors : msgs) : outcome E json :=
  if no_errors errors then Return result
  else
    let exc := mkValidationError errors (Some data) (Some result) in
    match handle exc data with
    | Raise e => Raise e
    | Return _ => Raise (as_exception exc)
    end.

(** [Schema._do_load] of a schema without hooks. *)
Definition _do_load (sch : Schema) (data : json) : checked json :=
  let (result, errors) := Schema_deserialize sch data (MDict []) in
  raise_errors (fun e => e) (handle_error sch (many sch)) data result errors.

Module Nested.

(** [Nested._deserialize]: [_test_collection], then [_load]. *)
Definition _deserialize (sch : Schema) (value : json) : checked json :=
  if many sch && negb (is_collection value)
  then Raise (ValidationError_text "Invalid type.")
  else
    match _do_load sch value with
    | Return valid => Return valid
    | Raise error =>
        Raise (mkValidationError (messages error) None (valid_data error))
    end.

End Nested.

(** [fields.Nested(schema_class, many=...)]: the instance is created with
    the field's [many]. *)
Definition Nested_field (required : bool) (schema_class : Schema) (many : bool)
    : Field :=
  mkField required
    (Nested._deserialize
       (mkSchema (load_fields schema_class) (unknown schema_class) many
          (handle_error schema_class)))
    [].

(** ** The classes of [schema.py] *)

Module StrictSchema.

(** [idx not in error.messages] *)
Definition not_in_messages (idx : nat) (m : msgs) : bool :=
  match m with
  | MDict d => match msgs_get (Index idx) d with Some _ => false | None => true end
  | MList _ => true
  end.

(** [[item for idx, item in enumerate(data) if idx not in error.messages]] *)
Fixpoint skip_broken (m : msgs) (idx : nat) (data : list json) : list json :=
  match data with
  | [] => []
  | item :: rest =>
      if not_in_messages idx m
      then item :: skip_broken m (S idx) rest
      else skip_broken m (S idx) rest
  end.

(** With [self.many] the method is reached through [Nested], which has
    checked that [data] is a list. *)
Definition handle_error (self_many : bool) (error : ValidationError)
    (data : json) : checked unit :=
  if self_many then
    let data :=
      match data with
      | JList items => JList (skip_broken (messages error) 0 items)
      | _ => JList []
      end in
    Raise (mkValidationError (messages error) (input_of error) (Some data))
  else
    Raise (mkValidationError (messages error) (input_of error) None).

End StrictSchema.

Module StrictListField.

Definition is_not_None (item : json) : bool :=
  match item with JNull => false | _ => true end.

(** [exc.data] of what [List._deserialize] raises is always [None]; the
    filter is written for a list. *)
Definition _deserialize (inner : Field) (value : json) : checked json :=
  match fields.List_deserialize inner value with
  | Return result => Return result
  | Raise exc =>
      match data exc with
      | Some (JList (_ :: _ as items)) =>
          Raise (mkValidationError (messages exc)
                   (Some (JList (filter is_not_None items))) (valid_data exc))
      | _ => Raise exc
      end
  end.

End StrictListField.

Definition StrictListField_field (inner : Field) (required : bool) : Field :=
  mkField required (StrictListField._deserialize inner) [].

(** What the schema takes from other libraries: well-formedness of e-mail
    addresses and URLs ([marshmallow.validate]), and whether
    [semantic_version.Version.coerce] accepts a string. *)
Record Library : Type := mkLibrary {
  email_well_formed : string -> bool;
  url_well_formed : string -> bool;
  coerce_accepts : string -> bool
}.

Definition AuthorSchema (lib : Library) : Schema :=
  mkSchema
    [("name", fields.Str true [validate.Length 1 50]);
     ("email", fields.Email (email_well_formed lib) [validate.Length 1 50]);
     ("maintainer", fields.Bool);
     ("url", fields.Url (url_well_formed lib) [validate.Length 1 255])]
    RAISE false StrictSchema.handle_error.

Definition RepositorySchema : Schema :=
  mkSchema
    [("type", fields.Str true
                [validate.OneOf ["git"; "hg"; "svn"]
                   "Invalid repository type, please use one of [git, hg, svn]"]);
     ("url", fields.Str true [validate.Length 1 255]);
     ("branch", fields.Str false [validate.Length 1 50])]
    RAISE false StrictSchema.handle_error.

Definition ExportSchema : Schema :=
  mkSchema
    [("include", StrictListField_field (fields.Str false []) false);
     ("exclude", StrictListField_field (fields.Str false []) false)]
    RAISE false default_handle_error.

Definition ExampleSchema : Schema :=
  mkSchema
    [("name", fields.Str true
                [validate.Length 1 100;
                 validate.Regexp example_name_re
                   "Only [a-zA-Z0-9-_/] chars are allowed"]);
     ("base", fields.Str true []);
     ("files", StrictListField_field (fields.Str false []) true)]
    RAISE false StrictSchema.handle_error.

(** ** The license registry and its cache

    [load_spdx_licenses] hands on whatever [r.json()] is, the decorator
    keeps it whatever it is, and [validate_license] uses it through its
    methods alone; a failed fetch is told from the others by its class.  So
    the code is written once, for any type [doc] of documents and any type
    [E] of failures of the fetch, and an instance of [Registry] says what
    the handler and the loop of [validate_license] make of them. *)

Inductive RequestException : Type :=
| ConnectionError
| Timeout
| HTTPError (status : nat).

(** One cached dataset: the value and the time it was fetched at. *)
Record snapshot (doc : Type) : Type := mkSnapshot {
  fetched_at : Z;
  value : doc
}.

(** What a validation call shares with the others: the cache of
    [load_spdx_licenses] and the number of requests sent so far. *)
Record shared (doc : Type) : Type := mkWorld {
  cache : option (snapshot doc);
  requests : nat
}.

(** [expire="1h"], in seconds. *)
Definition one_hour : Z := 3600.

(** Modelled from the spec: the decorator [platformio.util.memoized], which
    [schema.py] imports and which is not among the sources.  The spec's
    External Reference Cache keeps, per dataset, the value and its fetch
    time; a lookup is answered from the cache while
    [now - fetch_timestamp < TTL], and otherwise runs the fetch again, keeps
    its result with the current time, and hands a failure of the fetch to
    the caller. *)
Definition memoized {E doc : Type} (expire : Z)
    (func : shared doc -> outcome E doc * shared doc)
    (now : Z) (w : shared doc) : outcome E doc * shared doc :=
  let refetch :=
    let (r, w') := func w in
    match r with
    | Return v => (Return v, mkWorld (Some (mkSnapshot now v)) (requests w'))
    | Raise e => (Raise e, w')
    end in
  match cache w with
  | Some entry =>
      if (now - fetched_at entry <? expire)%Z then (Return (value entry), w)
      else refetch
  | None => refetch
  end.

(** [requests.get(...)], [raise_for_status()] and [r.json()]: one request is
    sent, and [network] is what comes of it, a document or an exception. *)
Definition requests_get {E doc : Type} (network : outcome E doc)
    (w : shared doc) : outcome E doc * shared doc :=
  (network, mkWorld (cache w) (S (requests w))).

(** [item.get("licenseId") == value] *)
Definition has_id (value : string) (item : dict) : bool :=
  match dict_get "licenseId" item with
  | Some (JStr id) => String.eqb id value
  | _ => false
  end.

(** What [validate_license] needs of the registry. *)
Class Registry (E doc : Type) : Type := mkRegistry {
  (** [except requests.exceptions.RequestException]: [None] for a failure
      of that class, which the handler catches, and for any other failure
      the exception that goes on. *)
  not_caught : E -> option exception;
  (** [for item in spdx.get("licenses", []): if item.get("licenseId") ==
      value: return]: whether the loop returns from the function, or the
      exception that comes out of it. *)
  search : string -> doc -> outcome exception bool
}.

(** *** A registry that keeps to its format

    Every failure of the fetch is a [RequestException], and the document of
    the endpoint is an object whose [licenses] member, when present, is an
    array of objects. *)
Record license_list : Type := mkLicenseList {
  licenses : option (list dict)
}.

Definition world : Type := shared license_list.

#[export] Instance typed_registry : Registry RequestException license_list :=
  mkRegistry
    (fun _ => None)
    (fun value spdx =>
       Return (existsb (has_id value)
                 (match licenses spdx with Some l => l | None => [] end))).

(** *** Any registry

    The fetch can fail with an exception of another class (the
    [JSONDecodeError] of the [json] module, a [ValueError], when [r.json()]
    raises that one on a body that is not JSON), and the document is
    whatever JSON value the endpoint sent. *)
Inductive failure : Type :=
| RequestFailed (e : RequestException)
| Failed (e : exception).

(** [spdx.get("licenses", [])]: only a dictionary has [get]. *)
Definition get_licenses (spdx : json) : outcome exception json :=
  match spdx with
  | JDict d =>
      Return (match dict_get "licenses" d with Some v => v | None => JList [] end)
  | _ => Raise AttributeError
  end.

(** [iter(v)]: the items of a list, the characters of a string, the keys of
    a dictionary; nothing else can be iterated. *)
Definition iterate (v : json) : outcome exception (list json) :=
  match v with
  | JList items => Return items
  | JStr s =>
      Return (map (fun c => JStr (String c EmptyString)) (list_ascii_of_string s))
  | JDict d => Return (map (fun p => JStr (fst p)) d)
  | _ => Raise TypeError
  end.

(** The loop: an item that is no dictionary has no [get]. *)
Fixpoint find_id (value : string) (items : list json) : outcome exception bool :=
  match items with
  | [] => Return false
  | JDict item :: rest =>
      if has_id value item then Return true else find_id value rest
  | _ :: _ => Raise AttributeError
  end.

Definition search_document (value : string) (spdx : json)
    : outcome exception bool :=
  match get_licenses spdx with
  | Raise e => Raise e
  | Return v =>
      match iterate v with
      | Raise e => Raise e
      | Return items => find_id value items
      end
  end.

#[export] Instance any_registry : Registry failure json :=
  mkRegistry
    (fun e => match e with RequestFailed _ => None | Failed other => Some other end)
    search_document.

(** ** [ManifestSchema] *)

(** Modelled from the spec: the class [ManifestValidationError] of
    [platformio.package.exception], which [schema.py] imports and which is
    not among the sources.  It is the structured error of strict mode: an
    exception that holds the two arguments it is built from and that is not
    a [ValidationError], so that no handler of [ValidationError] stops
    it. *)
Definition ManifestValidationError := EManifestValidationError.

Module ManifestSchema.

Section Instance.

Variable lib : Library.

(** [self.strict] *)
Variable strict : bool.

(** The clock, and the answer of the registry to a request sent now. *)
Variable now : Z.
Context {E doc : Type} {registry : Registry E doc}.
Variable network : outcome E doc.

Definition constrained (regex_match : string -> bool) (error : string) : Field :=
  StrictListField_field
    (fields.Str false
       [validate.Length 1 50; validate.Regexp regex_match error])
    false.

Definition declared_fields : list (string * Field) :=
  [("name", fields.Str true [validate.Length 1 100]);
   ("version", fields.Str true [validate.Length 1 50]);
   ("authors", Nested_field false (AuthorSchema lib) true);
   ("description", fields.Str false [validate.Length 1 1000]);
   ("homepage", fields.Url (url_well_formed lib) [validate.Length 1 255]);
   ("license", fields.Str false [validate.Length 1 255]);
   ("repository", Nested_field false RepositorySchema false);
   ("export", Nested_field false ExportSchema false);
   ("examples", Nested_field false ExampleSchema true);
   ("keywords", constrained keyword_re "Only [a-z0-9-+. ] chars are allowed");
   ("platforms", constrained platform_re "Only [a-z0-9-_*] chars are allowed");
   ("frameworks", constrained platform_re "Only [a-z0-9-_*] chars are allowed");
   ("title", fields.Str false [validate.Length 1 100]);
   ("system", constrained system_re "Only [a-z0-9-_] chars are allowed")].

Definition handle_error (error : ValidationError) (data : json)
    : outcome exn unit :=
  if strict then Raise (ManifestValidationError error data) else Return tt.

Definition contains_dot (s : string) : bool :=
  existsb (Ascii.eqb ".") (list_ascii_of_string s).

(** [value] is the deserialized string of a [fields.Str], so
    [str(value)] is [value]. *)
Definition validate_version (value : string) : checked unit :=
  if contains_dot value && coerce_accepts lib value then Return tt
  else Raise (ValidationError_text
                "Invalid semantic versioning format, see https://semver.org/").

Definition load_spdx_licenses (w : shared doc)
    : outcome E doc * shared doc :=
  memoized one_hour (requests_get network) now w.

(** The handler catches the failures of the class [RequestException]; any
    other exception of the lookup or of the loop leaves the method. *)
Definition validate_license (value : string) (w : shared doc)
    : outcome exn unit * shared doc :=
  let (got, w) := load_spdx_licenses w in
  match got with
  | Raise e =>
      match not_caught e with
      | None =>
          (Raise (EValidationError
                    (ValidationError_text
                       "Could not load SPDX licenses for validation")), w)
      | Some other => (Raise (EException other), w)
      end
  | Return spdx =>
      match search value spdx with
      | Raise other => (Raise (EException other), w)
      | Return true => (Return tt, w)
      | Return false =>
          (Raise (EValidationError
                    (ValidationError_text
                       ("Invalid SPDX license identifier. See valid identifiers at " ++
                        "https://spdx.org/licenses/"))), w)
      end
  end.

(** One round of [Schema._invoke_field_validators] for a schema with
    [many=False]: the hook runs when the field is in the deserialized
    data, a [ValidationError] is stored and the field removed, and any
    other exception ends the load.  Both hooked fields are [fields.Str],
    so the value at hand is a string. *)
Definition invoke_hook (field_name : string)
    (validator : string -> shared doc -> outcome exn unit * shared doc)
    (data : dict) (errors : msgs) (w : shared doc)
    : outcome exn (dict * msgs) * shared doc :=
  match dict_get field_name data with
  | Some (JStr value) =>
      let (validated, w) := validator value w in
      match validated with
      | Return _ => (Return (data, errors), w)
      | Raise (EValidationError error) =>
          (Return
             (match valid_data error with
              | Some v => if truthy v then data else dict_pop field_name data
              | None => dict_pop field_name data
              end,
              store_error (messages error) field_name None errors), w)
      | Raise other => (Raise other, w)
      end
  | _ => (Return (data, errors), w)
  end.

(** The hooks in the order of [dir(cls)]: [validate_license], then
    [validate_version]. *)
Definition _invoke_field_validators (data : dict) (errors : msgs)
    (w : shared doc) : outcome exn (dict * msgs) * shared doc :=
  match invoke_hook "license" validate_license data errors w with
  | (Return (data, errors), w) =>
      invoke_hook "version" (fun v w => (raising (validate_version v), w))
        data errors w
  | (Raise other, w) => (Raise other, w)
  end.

(** The first half of [Schema._do_load] for this schema
    ([Meta.unknown = EXCLUDE], [many=False]): deserialize, then run
    the hooks on the deserialized data. *)
Definition validated (data : json) (w : shared doc)
    : outcome exn (json * msgs) * shared doc :=
  let (result, errors) :=
    deserialize_one declared_fields EXCLUDE data None (MDict []) in
  match result with
  | JDict d =>
      match _invoke_field_validators d errors w with
      | (Return (d, errors), w) => (Return (JDict d, errors), w)
      | (Raise other, w) => (Raise other, w)
      end
  | _ => (Return (result, errors), w)
  end.

(** [Schema.load] *)
Definition load (data : json) (w : shared doc) : outcome exn json * shared doc :=
  match validated data w with
  | (Return (result, errors), w) =>
      (raise_errors EValidationError handle_error data result errors, w)
  | (Raise other, w) => (Raise other, w)
  end.

Definition load_manifest (manifest : json) (w : shared doc)
    : outcome exn (option json * option msgs) * shared doc :=
  match load manifest w with
  | (Return data, w) => (Return (Some data, None), w)
  | (Raise (EValidationError exc), w) =>
      (Return (valid_data exc, Some (messages exc)), w)
  | (Raise other, w) => (Raise other, w)
  end.

End Instance.

End ManifestSchema.

(** A library for the examples: an address has an [@], a URL starts with
    [http], and a version is coerced when it starts with a digit (the
    numerical component that [Version.coerce] looks for first). *)
Definition sample_lib : Library :=
  mkLibrary (fun s => existsb (Ascii.eqb "@") (list_ascii_of_string s))
    (fun s => prefix "http" s)
    (fun s => match s with String c _ => digit c | EmptyString => false end).

Definition empty_world : world := mkWorld None 0.

(** ** Reading results *)

(** [errors.get(k)] on the messages of an error. *)
Definition errors_get (k : key) (m : msgs) : option msgs :=
  match m with
  | MDict d => msgs_get k d
  | MList _ => None
  end.

(** The field declared under a name. *)
Fixpoint field_of (k : string) (fs : list (string * Field)) : option Field :=
  match fs with
  | [] => None
  | (n, f) :: rest => if String.eqb k n then Some f else field_of k rest
  end.

(** What [_call_and_store] hands back for the outcome of a field. *)
Definition kept (got : checked (option json)) : option json :=
  match got with
  | Return value => value
  | Raise error =>
      match valid_data error with
      | Some v => if truthy v then Some v else None
      | None => None
      end
  end.

(** The messages that [_call_and_store] stores for the outcome of a field. *)
Definition raised {A : Type} (got : checked A) : option msgs :=
  match got with
  | Return _ => None
  | Raise error => Some (messages error)
  end.

Definition succeeds {A : Type} (got : checked A) : bool :=
  match got with
  | Return _ => true
  | Raise _ => false
  end.

(** The calls of [store_error] that deserializing one item makes: the
    messages and the name they are stored under, in order. *)
Fixpoint field_stores (fs : list (string * Field)) (data : dict)
    : list (msgs * string) :=
  match fs with
  | [] => []
  | (n, f) :: rest =>
      match deserialize f (dict_get n data) with
      | Return _ => field_stores rest data
      | Raise error => (messages error, n) :: field_stores rest data
      end
  end.

Definition stores_of (fs : list (string * Field)) (unknown : unknown_policy)
    (item : json) : list (msgs * string) :=
  match item with
  | JDict d =>
      (field_stores fs d ++
       match unknown with
       | RAISE => map (fun k => (MList ["Unknown field."], k)) (unknown_keys fs d)
       | _ => []
       end)%list
  | _ => [(MList ["Invalid input type."], SCHEMA)]
  end.

Definition apply_stores (index : option nat) (stores : list (msgs * string))
    (errors : msgs) : msgs :=
  fold_left (fun e p => store_error (fst p) (snd p) index e) stores errors.

(** The messages are stored under the field name (always, except for a
    dictionary stored under [_schema]). *)
Definition wraps (p : msgs * string) : bool :=
  negb (String.eqb (snd p) SCHEMA) || negb (is_dict (fst p)).

(** The dictionary that the loop of [Schema._deserialize] builds. *)
Fixpoint collect (fs : list (string * Field)) (data ret : dict) : dict :=
  match fs with
  | [] => ret
  | (n, f) :: rest =>
      collect rest data
        (match kept (deserialize f (dict_get n data)) with
         | Some v => set_value ret n v
         | None => ret
         end)
  end.

(** The value that [Schema._deserialize] builds for one item. *)
Definition value_of (fs : list (string * Field)) (unknown : unknown_policy)
    (item : json) : json :=
  match item with
  | JDict d =>
      match unknown with
      | INCLUDE => JDict (include_unknown (unknown_keys fs d) d (collect fs d []))
      | _ => JDict (collect fs d [])
      end
  | _ => JDict []
  end.

(** No field is declared under the name [_schema]. *)
Definition plain_names (fs : list (string * Field)) : bool :=
  forallb (fun n => negb (String.eqb n SCHEMA)) (map fst fs).

Definition no_stores (fs : list (string * Field)) (unknown : unknown_policy)
    (item : json) : bool :=
  match stores_of fs unknown item with [] => true | _ => false end.

(** An element of a nested list passes when loading it alone, with the
    same schema class, returns. *)
Definition element_ok (schema_class : Schema) (item : json) : bool :=
  succeeds
    (_do_load (mkSchema (load_fields schema_class) (unknown schema_class) false
                 (handle_error schema_class)) item).

(** The deserialized form of an element. *)
Definition element_loaded (schema_class : Schema) (item : json) : json :=
  fst (deserialize_one (load_fields schema_class) (unknown schema_class) item
         None (MDict [])).

(** An item of a list of strings passes when the inner field accepts it. *)
Definition item_ok (inner : Field) (item : json) : bool :=
  succeeds (deserialize inner (Some item)).

(** The inner field hands back what it was given. *)
Definition transparent (inner : Field) : Prop :=
  forall item,
    match deserialize inner (Some item) with
    | Return r => r = Some item
    | Raise e => valid_data e = None
    end.

(** A field with a [@validates] hook: the hook runs on the deserialized
    string, and the [ValidationError] it raises replaces the outcome of the
    field. *)
Definition hooked {doc : Type} (field : Field) (raw : option json)
    (validator : string -> shared doc -> outcome exn unit * shared doc)
    (w : shared doc) : checked (option json) * shared doc :=
  match deserialize field raw with
  | Return (Some (JStr v)) =>
      let (r, w1) := validator v w in
      (match stored r with
       | Return _ => Return (Some (JStr v))
       | Raise err => Raise err
       end, w1)
  | other => (other, w)
  end.

Section Outcomes.

Context {E doc : Type} {registry : Registry E doc}.

(** The outcome of each declared field of the manifest, hooks included. *)
Definition field_outcome (lib : Library) (now : Z)
    (network : outcome E doc) (d : dict) (w : shared doc)
    (k : string) : option (checked (option json)) :=
  match field_of k (ManifestSchema.declared_fields lib) with
  | None => None
  | Some f =>
      Some (if String.eqb k "license"
            then fst (hooked f (dict_get k d)
                        (ManifestSchema.validate_license now network) w)
            else if String.eqb k "version"
            then fst (hooked f (dict_get k d)
                        (fun v w =>
                           (raising (ManifestSchema.validate_version lib v), w)) w)
            else deserialize f (dict_get k d))
  end.

(** The world after a validation call: only the license hook touches it. *)
Definition world_after (lib : Library) (now : Z)
    (network : outcome E doc) (d : dict) (w : shared doc)
    : shared doc :=
  snd (hooked (fields.Str false [validate.Length 1 255]) (dict_get "license" d)
         (ManifestSchema.validate_license now network) w).

End Outcomes.

(** [kept] is a subsequence of [items]. *)
Inductive subsequence {A : Type} : list A -> list A -> Prop :=
| subsequence_nil : subsequence [] []
| subsequence_skip : forall x kept items,
    subsequence kept items -> subsequence kept (x :: items)
| subsequence_keep : forall x kept items,
    subsequence kept items -> subsequence (x :: kept) (x :: items).

(** ** Statements *)

(** The two violations of [validate_license]. *)
Definition registry_unavailable : ValidationError :=
  ValidationError_text "Could not load SPDX licenses for validation".

Definition invalid_identifier : ValidationError :=
  ValidationError_text
    "Invalid SPDX license identifier. See valid identifiers at https://spdx.org/licenses/".

(** The cache cannot answer at [now]: it is empty or its entry is as old as
    the time to live. *)
Definition stale {doc : Type} (now : Z) (w : shared doc) : Prop :=
  match cache w with
  | Some entry => (one_hour <= now - fetched_at entry)%Z
  | None => True
  end.

(** [spdx.get("licenses", [])] *)
Definition licenses_of (spdx : license_list) : list dict :=
  match licenses spdx with Some l => l | None => [] end.

Definition sample_registry : license_list :=
  mkLicenseList
    (Some [[("licenseId", JStr "MIT"); ("name", JStr "MIT License")];
           [("licenseId", JStr "Apache-2.0")]]).

(** The classes of the two nested lists of the manifest. *)
Definition nested_list (lib : Library) (k : string) (sch : Schema) : Prop :=
  (k = "authors" /\ sch = AuthorSchema lib) \/
  (k = "examples" /\ sch = ExampleSchema).

(** The four lists of constrained strings: name, pattern, text of the
    pattern's violation. *)
Definition string_lists : list (string * (string -> bool) * string) :=
  [("keywords", keyword_re, "Only [a-z0-9-+. ] chars are allowed");
   ("platforms", platform_re, "Only [a-z0-9-_*] chars are allowed");
   ("frameworks", platform_re, "Only [a-z0-9-_*] chars are allowed");
   ("system", system_re, "Only [a-z0-9-_] chars are allowed")].

(** The field of one item of such a list. *)
Definition constrained_item (re : string -> bool) (error : string) : Field :=
  fields.Str false [validate.Length 1 50; validate.Regexp re error].



(** ** Reading the result of [load_manifest] *)

(** The violation that a result reports for a field: in the messages that
    are returned, or in those of the error that is raised. *)
Definition reported (r : outcome exn (option json * option msgs)) (k : string)
    : option msgs :=
  match r with
  | Return (_, Some m) => errors_get (Name k) m
  | Return (_, None) => None
  | Raise (EValidationError e) => errors_get (Name k) (messages e)
  | Raise (EManifestValidationError e _) => errors_get (Name k) (messages e)
  | Raise (EException _) => None
  end.

(** The value of a field in the document that a result returns. *)
Definition returned_field (r : outcome exn (option json * option msgs))
    (k : string) : option json :=
  match r with
  | Return (Some (JDict document), _) => dict_get k document
  | _ => None
  end.

(** [1 <= len(s) <= max] *)
Definition within (max : nat) (s : string) : bool :=
  (1 <=? String.length s)%nat && (String.length s <=? max)%nat.

Definition length_violation (max : nat) : msgs :=
  MList ["Length must be between 1 and " ++ string_of_nat max ++ "."].

Definition is_dict_value (v : json) : bool :=
  match v with JDict _ => true | _ => false end.

Definition is_list_value (v : json) : bool :=
  match v with JList _ => true | _ => false end.

Definition is_string_value (v : json) : bool :=
  match v with JStr _ => true | _ => false end.

(** The values that [fields.Bool] takes for a boolean. *)
Definition boolean_like (v : json) : bool :=
  match v with
  | JBool _ => true
  | JNum n => Z.eqb n 0 || Z.eqb n 1
  | JStr s =>
      existsb (String.eqb s) fields.truthy_strings ||
      existsb (String.eqb s) fields.falsy_strings
  | _ => false
  end.

(** Every key of a dictionary is one of the given names. *)
Definition keys_among (names : list string) (d : dict) : bool :=
  forallb (fun k => existsb (String.eqb k) names) (map fst d).

(** The document has the shape that [validate_license] expects: an object
    whose [licenses] member, when present, is an array of objects. *)
Definition well_shaped (spdx : json) : bool :=
  match get_licenses spdx with
  | Return (JList items) => forallb is_dict_value items
  | _ => false
  end.

(** The JSON document of a registry that keeps to its format. *)
Definition document_of (spdx : license_list) : json :=
  JDict (match licenses spdx with
         | Some l => [("licenses", JList (map JDict l))]
         | None => []
         end).

(** The lookup that the license hook makes at [now] fails as a
    [RequestException] or yields a document of that shape, from the cache
    or from the network. *)
Definition lookup_sound (now : Z) (network : outcome failure json)
    (w : shared json) : bool :=
  match fst (ManifestSchema.load_spdx_licenses now network w) with
  | Return spdx => well_shaped spdx
  | Raise (RequestFailed _) => true
  | Raise (Failed _) => false
  end.

(** ** The build tool: [platformio/builder/tools/pioplatform.py]

    The module is Python 2: a string is a sequence of bytes, and
    [str.lower] changes the letters [A] to [Z] only. *)

Definition lower_char (c : ascii) : ascii :=
  if upper c then ascii_of_nat (nat_of_ascii c + 32) else c.

(** [s.lower()] *)
Fixpoint str_lower (s : string) : string :=
  match s with
  | EmptyString => EmptyString
  | String c rest => String (lower_char c) (str_lower rest)
  end.

(** The loop of [PioPlatform] over [env['PIOVARIABLES']]:
    [if name in env: variables[name.lower()] = env[name]]. *)
Fixpoint PioPlatform_variables (names : list string) (env variables : dict)
    : dict :=
  match names with
  | [] => variables
  | name :: rest =>
      PioPlatform_variables rest env
        (match dict_get name env with
         | Some v => set_value variables (str_lower name) v
         | None => variables
         end)
  end.

(** [s.split("_", 1)] *)
Fixpoint split_once (s : string) : list string :=
  match s with
  | EmptyString => [EmptyString]
  | String c rest =>
      if Ascii.eqb c "_" then [EmptyString; rest]
      else match split_once rest with
           | head :: tail => String c head :: tail
           | [] => [String c EmptyString]
           end
  end.

Inductive ValueError : Type := mkValueError (message : string).

(** [k in env] *)
Definition has_key (k : string) (env : dict) : bool :=
  match dict_get k env with Some _ => true | None => false end.

(** The loop of [LoadPioPlatform] over the variables, up to the names it
    looks up in the board configuration: [None] when the variable is
    skipped by [continue], the pair [(_opt, _val)] otherwise; unpacking the
    split raises [ValueError] unless it has two parts. *)
Definition board_option (env : dict) (k : string)
    : outcome ValueError (option (string * string)) :=
  if has_key k env || negb (prefix "BOARD_" k || prefix "UPLOAD_" k)
  then Return None
  else
    match split_once (str_lower k) with
    | [_opt; _val] =>
        Return (Some (if String.eqb _opt "board" then "build" else _opt, _val))
    | _ => Raise (mkValueError "need more than 1 value to unpack")
    end.

(** [int(digits)] for a string of decimal digits, which is all the
    caller passes; the empty string raises. *)
Definition int_of_digits (digits : string) : outcome ValueError N :=
  match digits with
  | EmptyString => Raise (mkValueError "invalid literal for int() with base 10: ''")
  | _ =>
      match NilEmpty.uint_of_string digits with
      | Some d => Return (N.of_uint d)
      | None => Raise (mkValueError "invalid literal for int() with base 10")
      end
  end.

(** ["".join([c for c in str(f_cpu) if c.isdigit()])] *)
Definition digits_of (s : string) : string :=
  string_of_list_ascii (filter digit (list_ascii_of_string s)).

(** ["%d" % n] *)
Definition decimal (n : N) : string := NilEmpty.string_of_uint (N.to_uint n).

(** The entry of [PrintSystemInfo] for the clock: nothing for the empty
    [$BOARD_F_CPU], else the digits of it, as a number, divided by a
    million. *)
Definition f_cpu_entry (f_cpu : string) : outcome ValueError (option string) :=
  match f_cpu with
  | EmptyString => Return None
  | _ =>
      match int_of_digits (digits_of f_cpu) with
      | Raise e => Raise e
      | Return n => Return (Some (decimal (n / 1000000) ++ "MHz"))
      end
  end.

(** [s[n:]] *)
Definition after (n : nat) (s : string) : string :=
  substring n (String.length s - n) s.

(** [name in env] for the names of [env['PIOVARIABLES']], with the key
    the loop of [PioPlatform] writes. *)
Definition writes_key (env : dict) (k : string) (name : string) : bool :=
  String.eqb (str_lower name) k && has_key name env.

(** ** Dictionaries and messages *)

Unset Implicit Arguments.
Arguments deserialize : simpl never.

Lemma dict_get_set_same (d : dict) (k : string) (v : json) :
  dict_get k (set_value d k v) = Some v.
Proof.
  induction d as [|[k' v'] d IH]; simpl.
  - now rewrite String.eqb_refl.
  - destruct (String.eqb k k') eqn:E; simpl; rewrite ?String.eqb_refl, ?E; auto.
Qed.

Lemma dict_get_set_other (d : dict) (k k' : string) (v : json) :
  k <> k' -> dict_get k (set_value d k' v) = dict_get k d.
Proof.
  intros Hne. induction d as [|[k0 v0] d IH]; simpl.
  - apply String.eqb_neq in Hne. now rewrite Hne.
  - destruct (String.eqb k' k0) eqn:E; simpl.
    + apply String.eqb_eq in E. subst k0.
      apply String.eqb_neq in Hne. now rewrite Hne.
    + now rewrite IH.
Qed.

Lemma dict_get_pop_same (d : dict) (k : string) :
  dict_get k (dict_pop k d) = None.
Proof.
  induction d as [|[k' v'] d IH]; simpl; auto.
  destruct (String.eqb k k') eqn:E; simpl; rewrite ?E; auto.
Qed.

Lemma dict_get_pop_other (d : dict) (k k' : string) :
  k <> k' -> dict_get k (dict_pop k' d) = dict_get k d.
Proof.
  intros Hne. induction d as [|[k0 v0] d IH]; simpl; auto.
  destruct (String.eqb k' k0) eqn:E; simpl.
  - apply String.eqb_eq in E. subst k0.
    apply String.eqb_neq in Hne. now rewrite Hne.
  - now rewrite IH.
Qed.

Lemma key_eqb_refl (k : key) : key_eqb k k = true.
Proof. destruct k; simpl; [apply String.eqb_refl | apply Nat.eqb_refl]. Qed.

Lemma key_eqb_eq (a b : key) : key_eqb a b = true <-> a = b.
Proof.
  destruct a, b; simpl; split; intros H; try discriminate.
  - apply String.eqb_eq in H. now subst.
  - injection H as ->. apply String.eqb_refl.
  - apply Nat.eqb_eq in H. now subst.
  - injection H as ->. apply Nat.eqb_refl.
Qed.

Lemma key_eqb_neq (a b : key) : key_eqb a b = false <-> a <> b.
Proof.
  split; intros H.
  - intros Heq. apply key_eqb_eq in Heq. congruence.
  - destruct (key_eqb a b) eqn:E; auto. apply key_eqb_eq in E. contradiction.
Qed.

Lemma msgs_get_set_same (d : list (key * msgs)) (k : key) (v : msgs) :
  msgs_get k (msgs_set k v d) = Some v.
Proof.
  induction d as [|[k' v'] d IH]; simpl.
  - now rewrite key_eqb_refl.
  - destruct (key_eqb k k') eqn:E; simpl; rewrite ?key_eqb_refl, ?E; auto.
Qed.

Lemma msgs_get_set_other (d : list (key * msgs)) (k k' : key) (v : msgs) :
  k <> k' -> msgs_get k (msgs_set k' v d) = msgs_get k d.
Proof.
  intros Hne. induction d as [|[k0 v0] d IH]; simpl.
  - apply key_eqb_neq in Hne. now rewrite Hne.
  - destruct (key_eqb k' k0) eqn:E; simpl.
    + apply key_eqb_eq in E. subst k0.
      apply key_eqb_neq in Hne. now rewrite Hne.
    + now rewrite IH.
Qed.

Lemma msgs_get_app (d1 d2 : list (key * msgs)) (k : key) :
  msgs_get k (d1 ++ d2) =
  match msgs_get k d1 with Some v => Some v | None => msgs_get k d2 end.
Proof.
  induction d1 as [|[k' v'] d1 IH]; simpl; auto.
  destruct (key_eqb k k'); auto.
Qed.

(** Merging one new entry into a dictionary of messages. *)
Lemma merge_errors_entry (d : list (key * msgs)) (k : key) (m : msgs) :
  merge_errors (MDict d) (MDict [(k, m)]) =
  MDict (match msgs_get k d with
         | Some old => msgs_set k (merge_errors old m) d
         | None => (d ++ [(k, m)])%list
         end).
Proof. destruct d as [|[k0 v0] d]; reflexivity. Qed.

Lemma merge_errors_entry_get_same (d : list (key * msgs)) (k : key) (m : msgs) :
  errors_get k (merge_errors (MDict d) (MDict [(k, m)])) =
  Some (match msgs_get k d with
        | Some old => merge_errors old m
        | None => m
        end).
Proof.
  rewrite merge_errors_entry. simpl.
  destruct (msgs_get k d) eqn:E.
  - apply msgs_get_set_same.
  - rewrite msgs_get_app, E. simpl. now rewrite key_eqb_refl.
Qed.

Lemma merge_errors_entry_get_other (d : list (key * msgs)) (k k' : key) (m : msgs) :
  k <> k' ->
  errors_get k (merge_errors (MDict d) (MDict [(k', m)])) = msgs_get k d.
Proof.
  intros Hne. rewrite merge_errors_entry. simpl.
  destruct (msgs_get k' d) eqn:E.
  - now apply msgs_get_set_other.
  - rewrite msgs_get_app. destruct (msgs_get k d); auto.
    simpl. apply key_eqb_neq in Hne. now rewrite Hne.
Qed.

Lemma merge_errors_entry_nonempty (d : list (key * msgs)) (k : key) (m : msgs) :
  no_errors (merge_errors (MDict d) (MDict [(k, m)])) = false.
Proof.
  rewrite merge_errors_entry.
  destruct (msgs_get k d) eqn:E.
  - destruct d as [|[k0 v0] d]; simpl in *; [discriminate|].
    destruct (key_eqb k k0); reflexivity.
  - destruct d; reflexivity.
Qed.

(** ** The error store *)

(** Merging one new entry keeps a dictionary, sets that entry and leaves
    the others. *)
Lemma merge_entry_dict (d : list (key * msgs)) (k : key) (m : msgs) :
  exists d1,
    merge_errors (MDict d) (MDict [(k, m)]) = MDict d1 /\
    msgs_get k d1 =
      Some (match msgs_get k d with
            | Some old => merge_errors old m
            | None => m
            end) /\
    (forall k', k' <> k -> msgs_get k' d1 = msgs_get k' d) /\
    no_errors (MDict d1) = false.
Proof.
  pose proof (merge_errors_entry_get_same d k m) as Hsame.
  pose proof (fun k' H => merge_errors_entry_get_other d k' k m H) as Hother.
  pose proof (merge_errors_entry_nonempty d k m) as Hne.
  rewrite merge_errors_entry in Hsame, Hother, Hne |- *.
  eexists. split; [reflexivity|]. split; [exact Hsame|]. split; assumption.
Qed.

Lemma store_error_named (m : msgs) (n : string) (d : list (key * msgs)) :
  wraps (m, n) = true ->
  store_error m n None (MDict d) = merge_errors (MDict d) (MDict [(Name n, m)]).
Proof. unfold wraps, store_error. simpl fst. simpl snd. now intros ->. Qed.

Lemma store_error_indexed (m : msgs) (n : string) (i : nat) (d : list (key * msgs)) :
  exists inner,
    store_error m n (Some i) (MDict d) =
    merge_errors (MDict d) (MDict [(Index i, inner)]).
Proof. unfold store_error. eexists. reflexivity. Qed.

Lemma apply_stores_cons (index : option nat) (p : msgs * string)
    (stores : list (msgs * string)) (errors : msgs) :
  apply_stores index (p :: stores) errors =
  apply_stores index stores (store_error (fst p) (snd p) index errors).
Proof. reflexivity. Qed.

Lemma apply_stores_app (index : option nat) (s1 s2 : list (msgs * string))
    (errors : msgs) :
  apply_stores index (s1 ++ s2) errors =
  apply_stores index s2 (apply_stores index s1 errors).
Proof. unfold apply_stores. apply fold_left_app. Qed.

(** Without an index: a name that no store uses keeps its entry. *)
Lemma apply_stores_get_absent (stores : list (msgs * string)) :
  forall (d : list (key * msgs)) (k : key),
    forallb wraps stores = true ->
    (forall p, In p stores -> k <> Name (snd p)) ->
    exists d',
      apply_stores None stores (MDict d) = MDict d' /\
      msgs_get k d' = msgs_get k d.
Proof.
  induction stores as [|[m n] stores IH]; intros d k Hw Habs.
  - exists d. split; reflexivity.
  - simpl in Hw. apply andb_true_iff in Hw as [Hw1 Hw2].
    rewrite apply_stores_cons. simpl fst. simpl snd.
    rewrite (store_error_named _ _ _ Hw1).
    destruct (merge_entry_dict d (Name n) m) as (d1 & -> & _ & Hother & _).
    destruct (IH d1 k Hw2) as [d' [Hd' Hget]].
    { intros p Hp. apply Habs. now right. }
    exists d'. split; [exact Hd'|]. rewrite Hget.
    apply Hother. apply (Habs (m, n)). now left.
Qed.

(** Without an index and with distinct names: the entry of a name is what
    was stored under it. *)
Lemma apply_stores_get (stores : list (msgs * string)) :
  forall (d : list (key * msgs)) (k : string),
    forallb wraps stores = true ->
    NoDup (map snd stores) ->
    msgs_get (Name k) d = None ->
    errors_get (Name k) (apply_stores None stores (MDict d)) =
    option_map fst (find (fun p => String.eqb (snd p) k) stores).
Proof.
  induction stores as [|[m n] stores IH]; intros d k Hw Hnd Hnone.
  - simpl. exact Hnone.
  - simpl in Hw. apply andb_true_iff in Hw as [Hw1 Hw2].
    inversion Hnd as [|? ? Hnotin Hnd']; subst.
    rewrite apply_stores_cons. simpl fst. simpl snd.
    rewrite (store_error_named _ _ _ Hw1).
    destruct (merge_entry_dict d (Name n) m) as (d1 & -> & Hsame & Hother & _).
    simpl find. simpl snd.
    destruct (String.eqb n k) eqn:E.
    + apply String.eqb_eq in E. subst n.
      rewrite Hnone in Hsame.
      destruct (apply_stores_get_absent stores d1 (Name k) Hw2) as [d' [Hd' Hget]].
      { intros p Hp Heq. injection Heq as Heq. apply Hnotin.
        rewrite Heq. apply in_map. exact Hp. }
      rewrite Hd'. simpl. rewrite Hget. exact Hsame.
    + apply IH; auto. rewrite Hother; auto.
      intros Heq. injection Heq as Heq. subst. rewrite String.eqb_refl in E.
      discriminate.
Qed.

(** Once something is stored, the store is not empty. *)
Lemma apply_stores_nonempty (stores : list (msgs * string)) :
  forall (index : option nat) (d : list (key * msgs)),
    forallb wraps stores = true ->
    no_errors (MDict d) = false ->
    exists d',
      apply_stores index stores (MDict d) = MDict d' /\
      no_errors (MDict d') = false.
Proof.
  induction stores as [|[m n] stores IH]; intros index d Hw Hne.
  - exists d. split; auto.
  - simpl in Hw. apply andb_true_iff in Hw as [Hw1 Hw2].
    rewrite apply_stores_cons. simpl fst. simpl snd.
    destruct index as [i|].
    + destruct (store_error_indexed m n i d) as [inner ->].
      destruct (merge_entry_dict d (Index i) inner) as (d1 & -> & _ & _ & Hn).
      now apply IH.
    + rewrite (store_error_named _ _ _ Hw1).
      destruct (merge_entry_dict d (Name n) m) as (d1 & -> & _ & _ & Hn).
      now apply IH.
Qed.

Lemma apply_stores_no_errors (stores : list (msgs * string)) (index : option nat) :
  forallb wraps stores = true ->
  no_errors (apply_stores index stores (MDict [])) =
  match stores with [] => true | _ => false end.
Proof.
  intros Hw. destruct stores as [|[m n] stores]; [reflexivity|].
  simpl in Hw. apply andb_true_iff in Hw as [Hw1 Hw2].
  rewrite apply_stores_cons. simpl fst. simpl snd.
  destruct index as [i|].
  - destruct (store_error_indexed m n i []) as [inner ->].
    destruct (merge_entry_dict [] (Index i) inner) as (d1 & -> & _ & _ & Hn).
    destruct (apply_stores_nonempty stores (Some i) _ Hw2 Hn) as [d' [-> Hd']].
    exact Hd'.
  - rewrite (store_error_named _ _ _ Hw1).
    destruct (merge_entry_dict [] (Name n) m) as (d1 & -> & _ & _ & Hn).
    destruct (apply_stores_nonempty stores None _ Hw2 Hn) as [d' [-> Hd']].
    exact Hd'.
Qed.

(** With an index [i]: the entry of [i] exists as soon as something is
    stored, and no other entry changes. *)
Lemma apply_stores_indexed (stores : list (msgs * string)) (i : nat) :
  forall d : list (key * msgs),
    exists d',
      apply_stores (Some i) stores (MDict d) = MDict d' /\
      (forall k, k <> Index i -> msgs_get k d' = msgs_get k d) /\
      (stores = [] -> d' = d) /\
      (stores <> [] -> msgs_get (Index i) d' <> None).
Proof.
  induction stores as [|[m n] stores IH]; intros d.
  - exists d. repeat split; auto; intros H; contradiction.
  - rewrite apply_stores_cons. simpl fst. simpl snd.
    destruct (store_error_indexed m n i d) as [inner ->].
    destruct (merge_entry_dict d (Index i) inner) as (d1 & -> & Hsame & Hother & _).
    destruct (IH d1) as [d' [Hd' [Hkeep [Hnil Hnew]]]].
    exists d'. split; [exact Hd'|]. split; [|split].
    + intros k Hk. rewrite (Hkeep k Hk). apply (Hother k Hk).
    + discriminate.
    + intros _. destruct stores as [|p stores].
      * rewrite (Hnil eq_refl), Hsame. discriminate.
      * apply Hnew. discriminate.
Qed.

(** ** The loop over the fields *)

Lemma call_and_store_eq (got : checked (option json)) (n : string)
    (index : option nat) (errors : msgs) :
  _call_and_store got n index errors =
  (kept got,
   match raised got with
   | Some m => store_error m n index errors
   | None => errors
   end).
Proof. destruct got; reflexivity. Qed.

Lemma deserialize_fields_eq (fs : list (string * Field)) (data : dict)
    (index : option nat) :
  forall (ret : dict) (errors : msgs),
    deserialize_fields fs data index ret errors =
    (collect fs data ret, apply_stores index (field_stores fs data) errors).
Proof.
  induction fs as [|[n f] fs IH]; intros ret errors; [reflexivity|].
  cbn [deserialize_fields collect field_stores].
  rewrite call_and_store_eq, IH.
  destruct (deserialize f (dict_get n data)); reflexivity.
Qed.

Lemma field_of_absent (k : string) (fs : list (string * Field)) :
  ~ In k (map fst fs) -> field_of k fs = None.
Proof.
  induction fs as [|[n f] fs IH]; intros H; [reflexivity|].
  simpl in *. destruct (String.eqb k n) eqn:E.
  - apply String.eqb_eq in E. subst. exfalso. apply H. now left.
  - apply IH. intros Hin. apply H. now right.
Qed.

Lemma collect_get_absent (fs : list (string * Field)) (data : dict) (k : string) :
  forall ret, ~ In k (map fst fs) -> dict_get k (collect fs data ret) = dict_get k ret.
Proof.
  induction fs as [|[n f] fs IH]; intros ret H; [reflexivity|].
  simpl in *. rewrite IH by (intros Hin; apply H; now right).
  destruct (kept _); auto.
  apply dict_get_set_other. intros ->. apply H. now left.
Qed.

(** What the deserialized data holds under the name of a field. *)
Lemma collect_get (fs : list (string * Field)) (data : dict) (k : string) :
  forall ret,
    NoDup (map fst fs) ->
    dict_get k (collect fs data ret) =
    match field_of k fs with
    | Some f =>
        match kept (deserialize f (dict_get k data)) with
        | Some v => Some v
        | None => dict_get k ret
        end
    | None => dict_get k ret
    end.
Proof.
  induction fs as [|[n f] fs IH]; intros ret Hnd; [reflexivity|].
  inversion Hnd as [|? ? Hnotin Hnd']; subst.
  cbn [collect field_of]. destruct (String.eqb k n) eqn:E.
  - apply String.eqb_eq in E. subst n.
    rewrite collect_get_absent by exact Hnotin.
    destruct (kept _); auto. apply dict_get_set_same.
  - rewrite IH by exact Hnd'.
    assert (Hset : forall v, dict_get k (set_value ret n v) = dict_get k ret).
    { intros v. apply dict_get_set_other. intros ->.
      rewrite String.eqb_refl in E. discriminate. }
    destruct (kept (deserialize f (dict_get n data))); rewrite ?Hset; reflexivity.
Qed.

Lemma field_stores_names (fs : list (string * Field)) (data : dict)
    (p : msgs * string) :
  In p (field_stores fs data) -> In (snd p) (map fst fs).
Proof.
  induction fs as [|[n f] fs IH]; simpl; [tauto|].
  destruct (deserialize f (dict_get n data)); simpl.
  - intros H. right. now apply IH.
  - intros [<- | H]; [now left | right; now apply IH].
Qed.

Lemma field_stores_NoDup (fs : list (string * Field)) (data : dict) :
  NoDup (map fst fs) -> NoDup (map snd (field_stores fs data)).
Proof.
  induction fs as [|[n f] fs IH]; simpl; intros Hnd; [constructor|].
  inversion Hnd as [|? ? Hnotin Hnd']; subst.
  destruct (deserialize f (dict_get n data)); simpl; auto.
  constructor; auto.
  intros Hin. apply in_map_iff in Hin as [p [Hp Hin]].
  apply Hnotin. rewrite <- Hp. eapply field_stores_names; eauto.
Qed.

Lemma field_stores_wraps (fs : list (string * Field)) (data : dict) :
  plain_names fs = true -> forallb wraps (field_stores fs data) = true.
Proof.
  unfold plain_names.
  induction fs as [|[n f] fs IH]; simpl; intros H; [reflexivity|].
  apply andb_true_iff in H as [H1 H2].
  destruct (deserialize f (dict_get n data)); simpl; auto.
  rewrite IH by exact H2. unfold wraps. simpl. now rewrite H1.
Qed.

Lemma field_stores_find_absent (fs : list (string * Field)) (data : dict)
    (k : string) :
  ~ In k (map fst fs) ->
  find (fun p : msgs * string => String.eqb (snd p) k) (field_stores fs data) = None.
Proof.
  intros H. destruct (find _ _) as [p|] eqn:E; auto.
  apply find_some in E as [Hin Heq]. apply String.eqb_eq in Heq. subst k.
  exfalso. apply H. eapply field_stores_names; eauto.
Qed.

(** What gets stored under the name of a field. *)
Lemma field_stores_find (fs : list (string * Field)) (data : dict) (k : string) :
  NoDup (map fst fs) ->
  option_map fst
    (find (fun p : msgs * string => String.eqb (snd p) k) (field_stores fs data)) =
  match field_of k fs with
  | Some f => raised (deserialize f (dict_get k data))
  | None => None
  end.
Proof.
  induction fs as [|[n f] fs IH]; intros Hnd; [reflexivity|].
  inversion Hnd as [|? ? Hnotin Hnd']; subst.
  cbn [field_stores field_of]. rewrite (String.eqb_sym k n).
  destruct (String.eqb n k) eqn:E.
  - apply String.eqb_eq in E. subst n.
    destruct (deserialize f (dict_get k data)) eqn:D; simpl.
    + now rewrite field_stores_find_absent.
    + now rewrite String.eqb_refl.
  - destruct (deserialize f (dict_get n data)); simpl; rewrite ?E; auto.
Qed.

(** The entry of a declared field in the errors of the loop. *)
Lemma deserialize_fields_errors (fs : list (string * Field)) (data : dict)
    (ret : dict) (k : string) :
  NoDup (map fst fs) -> plain_names fs = true ->
  errors_get (Name k) (snd (deserialize_fields fs data None ret (MDict []))) =
  match field_of k fs with
  | Some f => raised (deserialize f (dict_get k data))
  | None => None
  end.
Proof.
  intros Hnd Hplain. rewrite deserialize_fields_eq. simpl snd.
  rewrite apply_stores_get.
  - now apply field_stores_find.
  - now apply field_stores_wraps.
  - now apply field_stores_NoDup.
  - reflexivity.
Qed.

Lemma store_unknown_eq (keys : list string) (index : option nat) :
  forall errors,
    store_unknown keys index errors =
    apply_stores index (map (fun k => (MList ["Unknown field."], k)) keys) errors.
Proof.
  induction keys as [|k keys IH]; intros errors; [reflexivity|].
  simpl. now rewrite IH.
Qed.

(** One item: the value does not depend on the store, and the store
    receives the stores of the item. *)
Lemma deserialize_one_eq (fs : list (string * Field)) (unknown : unknown_policy)
    (item : json) (index : option nat) (errors : msgs) :
  deserialize_one fs unknown item index errors =
  (value_of fs unknown item, apply_stores index (stores_of fs unknown item) errors).
Proof.
  unfold deserialize_one, value_of, stores_of.
  destruct item; try reflexivity.
  rewrite deserialize_fields_eq.
  destruct unknown; rewrite ?apply_stores_app, ?store_unknown_eq, ?app_nil_r;
    reflexivity.
Qed.

Lemma stores_of_wraps (fs : list (string * Field)) (unknown : unknown_policy)
    (item : json) :
  plain_names fs = true -> forallb wraps (stores_of fs unknown item) = true.
Proof.
  intros Hplain. unfold stores_of. destruct item; try reflexivity.
  rewrite forallb_app, field_stores_wraps by exact Hplain. simpl.
  destruct unknown; try reflexivity.
  induction (unknown_keys fs members) as [|k keys IH]; simpl; auto.
  rewrite IH. unfold wraps. simpl. now rewrite orb_true_r.
Qed.

(** ** Lists of nested objects *)

(** Loading an element alone succeeds exactly when deserializing it stores
    nothing. *)
Lemma element_ok_no_stores (sch : Schema) (item : json) :
  plain_names (load_fields sch) = true ->
  element_ok sch item = no_stores (load_fields sch) (unknown sch) item.
Proof.
  intros Hplain. unfold element_ok, _do_load, Schema_deserialize, no_stores.
  cbn [many load_fields unknown handle_error].
  rewrite deserialize_one_eq. unfold raise_errors.
  rewrite apply_stores_no_errors by (now apply stores_of_wraps).
  destruct (stores_of _ _ item); [reflexivity|].
  destruct (handle_error sch false _ item); reflexivity.
Qed.

Lemma element_loaded_eq (sch : Schema) (item : json) :
  element_loaded sch item = value_of (load_fields sch) (unknown sch) item.
Proof. unfold element_loaded. now rewrite deserialize_one_eq. Qed.

(** The items of a list, from index [i0]: the values are those of the
    items, an item that stores something gets an entry under its index, and
    nothing else changes. *)
Lemma deserialize_many_eq (fs : list (string * Field)) (unknown : unknown_policy)
    (items : list json) :
  forall (i0 : nat) (d : list (key * msgs)),
    exists d',
      deserialize_many fs unknown items i0 (MDict d) =
        (map (value_of fs unknown) items, MDict d') /\
      (forall j, j < i0 -> msgs_get (Index j) d' = msgs_get (Index j) d) /\
      (forall n item, nth_error items n = Some item ->
         if no_stores fs unknown item
         then msgs_get (Index (i0 + n)) d' = msgs_get (Index (i0 + n)) d
         else msgs_get (Index (i0 + n)) d' <> None) /\
      (forallb (no_stores fs unknown) items = true -> d' = d).
Proof.
  induction items as [|item items IH]; intros i0 d.
  - exists d. repeat split; auto. intros [|n] x H; discriminate.
  - cbn [deserialize_many]. rewrite deserialize_one_eq.
    destruct (apply_stores_indexed (stores_of fs unknown item) i0 d)
      as (d1 & -> & Hkeep & Hnil & Hnew).
    destruct (IH (S i0) d1) as (d' & -> & Hbelow & Hat & Hall).
    exists d'. split; [reflexivity|]. split; [|split].
    + intros j Hj. rewrite Hbelow by lia. apply Hkeep.
      intros Heq. injection Heq as ->. lia.
    + intros [|n] x Hx.
      * simpl in Hx. injection Hx as <-. rewrite Nat.add_0_r.
        rewrite Hbelow by lia. unfold no_stores.
        destruct (stores_of fs unknown item) eqn:S.
        -- now rewrite (Hnil eq_refl).
        -- apply Hnew. discriminate.
      * simpl in Hx. specialize (Hat n x Hx).
        replace (i0 + S n) with (S i0 + n) by lia.
        destruct (no_stores fs unknown x); auto.
        rewrite Hat. apply Hkeep. intros Heq. injection Heq as Heq. lia.
    + simpl. intros H. apply andb_true_iff in H as [H1 H2].
      rewrite (Hall H2). apply Hnil. unfold no_stores in H1.
      destruct (stores_of fs unknown item); [reflexivity | discriminate].
Qed.

(** [skip_broken] keeps the items without an entry. *)
Lemma skip_broken_filter (ok : json -> bool) (d : list (key * msgs))
    (items : list json) :
  forall i0,
    (forall n item, nth_error items n = Some item ->
       StrictSchema.not_in_messages (i0 + n) (MDict d) = ok item) ->
    StrictSchema.skip_broken (MDict d) i0 items = filter ok items.
Proof.
  induction items as [|item items IH]; intros i0 H; [reflexivity|].
  cbn [StrictSchema.skip_broken filter].
  pose proof (H 0 item eq_refl) as H0. rewrite Nat.add_0_r in H0. rewrite H0.
  rewrite (IH (S i0)).
  - reflexivity.
  - intros n x Hx. replace (S i0 + n) with (i0 + S n) by lia. now apply H.
Qed.

Lemma filter_all {A : Type} (f : A -> bool) (l : list A) :
  forallb f l = true -> filter f l = l.
Proof.
  induction l as [|x l IH]; simpl; intros H; [reflexivity|].
  apply andb_true_iff in H as [-> H]. now rewrite IH.
Qed.

Lemma forallb_same {A : Type} (f g : A -> bool) (l : list A) :
  (forall x, f x = g x) -> forallb f l = forallb g l.
Proof.
  intros H. induction l as [|x l IH]; simpl; [reflexivity|].
  now rewrite H, IH.
Qed.

Lemma forallb_false_entry (fs : list (string * Field)) (unknown : unknown_policy)
    (items : list json) (d : list (key * msgs)) :
  forallb (no_stores fs unknown) items = false ->
  (forall n item, nth_error items n = Some item ->
     if no_stores fs unknown item
     then msgs_get (Index (0 + n)) d = None
     else msgs_get (Index (0 + n)) d <> None) ->
  no_errors (MDict d) = false.
Proof.
  intros Hf Hat. destruct d; [|reflexivity]. exfalso.
  assert (Hex : exists n item, nth_error items n = Some item /\
                               no_stores fs unknown item = false).
  { clear Hat. induction items as [|x items IH]; simpl in Hf; [discriminate|].
    destruct (no_stores fs unknown x) eqn:E.
    - destruct (IH Hf) as (n & item & Hn & Hi). exists (S n), item. auto.
    - exists 0, x. auto. }
  destruct Hex as (n & item & Hn & Hi).
  specialize (Hat n item Hn). rewrite Hi in Hat. now apply Hat.
Qed.

(** A field [fields.Nested(schema_class, many=True)] of a [StrictSchema]
    class on a list: all elements loaded, or the error that carries the
    elements that pass, as they were given. *)
Lemma Nested_many_deserialize (sch : Schema) (items : list json) :
  plain_names (load_fields sch) = true ->
  handle_error sch = StrictSchema.handle_error ->
  if forallb (element_ok sch) items
  then deserialize (Nested_field false sch true) (Some (JList items)) =
       Return (Some (JList (map (element_loaded sch) items)))
  else exists d,
       deserialize (Nested_field false sch true) (Some (JList items)) =
       Raise (mkValidationError (MDict d) None
                (Some (JList (filter (element_ok sch) items)))) /\
       forall n item, nth_error items n = Some item ->
         element_ok sch item = false -> msgs_get (Index n) d <> None.
Proof.
  intros Hplain Hh.
  assert (Hok : forall item, element_ok sch item =
                             no_stores (load_fields sch) (unknown sch) item).
  { intros item. now apply element_ok_no_stores. }
  assert (Hall : forallb (element_ok sch) items =
                 forallb (no_stores (load_fields sch) (unknown sch)) items).
  { apply forallb_same. intros. apply Hok. }
  assert (Hfil : filter (element_ok sch) items =
                 filter (no_stores (load_fields sch) (unknown sch)) items).
  { apply filter_ext. intros. apply Hok. }
  assert (Hmap : map (element_loaded sch) items =
                 map (value_of (load_fields sch) (unknown sch)) items).
  { apply map_ext. intros. apply element_loaded_eq. }
  rewrite Hall, Hfil, Hmap.
  unfold deserialize, Nested_field. cbn [_deserialize required validators].
  unfold Nested._deserialize, _do_load, Schema_deserialize.
  cbn [many load_fields unknown handle_error is_collection negb andb].
  destruct (deserialize_many_eq (load_fields sch) (unknown sch) items 0 [])
    as (d' & -> & _ & Hat & Hnone).
  unfold raise_errors.
  destruct (forallb (no_stores (load_fields sch) (unknown sch)) items) eqn:E.
  - rewrite (Hnone eq_refl). reflexivity.
  - rewrite (forallb_false_entry _ _ _ _ E) by exact Hat.
    rewrite Hh. cbn [StrictSchema.handle_error messages valid_data input_of data].
    exists d'. split.
    + rewrite (skip_broken_filter (no_stores (load_fields sch) (unknown sch))).
      * reflexivity.
      * intros n item Hn. specialize (Hat n item Hn).
        unfold StrictSchema.not_in_messages.
        destruct (no_stores (load_fields sch) (unknown sch) item).
        -- now rewrite Hat.
        -- destruct (msgs_get (Index (0 + n)) d'); [reflexivity|].
           now exfalso.
    + intros n item Hn Hbad. specialize (Hat n item Hn).
      rewrite Hok in Hbad. rewrite Hbad in Hat. exact Hat.
Qed.

(** ** Lists of strings *)

(** A string field hands back the string it was given, or raises without
    valid data. *)
Lemma Str_deserialize_item (required : bool) (vs : list validate.validator)
    (item : json) :
  match deserialize (fields.Str required vs) (Some item) with
  | Return r => r = Some item
  | Raise e => valid_data e = None
  end.
Proof.
  unfold deserialize, fields.Str. cbn [_deserialize].
  destruct item; try reflexivity.
  cbn [fields.String_deserialize _validate validators].
  destruct (run_validators vs s); reflexivity.
Qed.

Lemma List_items_eq (inner : Field) (items : list json) :
  transparent inner ->
  forall idx,
    fst (fields.List_items inner idx items) = filter (item_ok inner) items /\
    (forallb (item_ok inner) items = true ->
     snd (fields.List_items inner idx items) = []) /\
    (forall n item, nth_error items n = Some item -> item_ok inner item = false ->
       msgs_get (Index (idx + n)) (snd (fields.List_items inner idx items)) <> None).
Proof.
  intros Ht. induction items as [|x items IH]; intros idx.
  - repeat split; auto. intros [|n] item H; discriminate.
  - cbn [fields.List_items filter forallb].
    specialize (IH (S idx)).
    destruct (fields.List_items inner (S idx) items) as [result errors].
    destruct IH as (IH1 & IH2 & IH3). simpl fst in *. simpl snd in *.
    specialize (Ht x).
    assert (Hshift : forall n item, nth_error (x :: items) (S n) = Some item ->
              item_ok inner item = false ->
              msgs_get (Index (idx + S n)) errors <> None).
    { intros n item Hn Hbad. replace (idx + S n) with (S idx + n) by lia.
      now apply (IH3 n item). }
    assert (Hx : item_ok inner x = succeeds (deserialize inner (Some x)))
      by reflexivity.
    destruct (deserialize inner (Some x)) as [r|e] eqn:D; cbn [succeeds] in Hx;
      rewrite Hx.
    + subst r. simpl fst. simpl snd. split; [now rewrite IH1|]. split; [exact IH2|].
      intros [|n] item Hn Hbad.
      * simpl in Hn. injection Hn as <-. congruence.
      * now apply (Hshift n item).
    + rewrite Ht. simpl fst. simpl snd. split; [exact IH1|]. split; [discriminate|].
      intros [|n] item Hn Hbad.
      * rewrite Nat.add_0_r. simpl. rewrite Nat.eqb_refl. discriminate.
      * simpl. replace (idx + S n =? idx)%nat with false.
        2:{ symmetry. apply Nat.eqb_neq. lia. }
        now apply (Hshift n item).
Qed.

(** A [StrictListField] on a list: the list itself when every item passes,
    or the error that carries the items that pass. *)
Lemma StrictListField_deserialize (inner : Field) (req : bool)
    (items : list json) :
  transparent inner ->
  if forallb (item_ok inner) items
  then deserialize (StrictListField_field inner req) (Some (JList items)) =
       Return (Some (JList items))
  else exists d,
       deserialize (StrictListField_field inner req) (Some (JList items)) =
       Raise (mkValidationError (MDict d) None
                (Some (JList (filter (item_ok inner) items)))) /\
       forall n item, nth_error items n = Some item ->
         item_ok inner item = false -> msgs_get (Index n) d <> None.
Proof.
  intros Ht.
  destruct (List_items_eq inner items Ht 0) as (H1 & H2 & H3).
  unfold deserialize, StrictListField_field.
  cbn [_deserialize required validators].
  unfold StrictListField._deserialize, fields.List_deserialize.
  destruct (fields.List_items inner 0 items) as [result errors].
  simpl fst in *. simpl snd in *. subst result.
  destruct (forallb (item_ok inner) items) eqn:E.
  - rewrite (H2 eq_refl). cbn. now rewrite (filter_all _ _ E).
  - destruct errors as [|p errors].
    + exfalso.
      assert (Hex : exists n item, nth_error items n = Some item /\
                                   item_ok inner item = false).
      { clear - E. induction items as [|x items IH]; simpl in E; [discriminate|].
        destruct (item_ok inner x) eqn:Ex.
        - destruct (IH E) as (n & item & Hn & Hi). exists (S n), item. auto.
        - exists 0, x. auto. }
      destruct Hex as (n & item & Hn & Hi). now apply (H3 n item Hn Hi).
    + cbn. exists (p :: errors). split; [reflexivity|]. exact H3.
Qed.




(** ** The hooks *)

Lemma Str_deserialize_cases (req : bool) (vs : list validate.validator)
    (raw : option json) :
  (raw = None /\ deserialize (fields.Str req vs) raw = Return None) \/
  (exists s, raw = Some (JStr s) /\
             deserialize (fields.Str req vs) raw = Return (Some (JStr s))) \/
  (exists e, deserialize (fields.Str req vs) raw = Raise e /\ valid_data e = None).
Proof.
  destruct raw as [item|].
  - pose proof (Str_deserialize_item req vs item) as H.
    destruct (deserialize (fields.Str req vs) (Some item)) as [r|e] eqn:D.
    + subst r. right. left.
      destruct item; try (unfold deserialize in D; simpl in D; discriminate).
      now exists s.
    + right. right. now exists e.
  - unfold deserialize. simpl. destruct req.
    + right. right. eexists. split; reflexivity.
    + left. auto.
Qed.

(** One hook that lets no other exception through: other fields and
    their errors stay; the hooked field stays when the hook returns, and is
    removed with its error stored when the hook raises. *)
Lemma invoke_hook_spec {doc : Type} (n : string)
    (validator : string -> shared doc -> outcome exn unit * shared doc)
    (data : dict) (e : list (key * msgs)) (w : shared doc) :
  String.eqb n SCHEMA = false ->
  (forall v w0 err w1,
     validator v w0 = (Raise (EValidationError err), w1) -> valid_data err = None) ->
  (forall v, goes_through (fst (validator v w)) = None) ->
  exists data' e' w',
    ManifestSchema.invoke_hook n validator data (MDict e) w =
      (Return (data', MDict e'), w') /\
    (forall k, k <> n ->
       dict_get k data' = dict_get k data /\
       msgs_get (Name k) e' = msgs_get (Name k) e) /\
    match dict_get n data with
    | Some (JStr v) =>
        w' = snd (validator v w) /\
        match stored (fst (validator v w)) with
        | Return _ => data' = data /\ e' = e
        | Raise err =>
            dict_get n data' = None /\
            msgs_get (Name n) e' =
              Some (match msgs_get (Name n) e with
                    | Some old => merge_errors old (messages err)
                    | None => messages err
                    end)
        end
    | _ => data' = data /\ e' = e /\ w' = w
    end.
Proof.
  intros Hn Hvalid Hthrough. unfold ManifestSchema.invoke_hook.
  destruct (dict_get n data) as [[| | |v| |]|] eqn:G;
    try solve [exists data, e, w; repeat split; auto].
  specialize (Hthrough v).
  destruct (validator v w) as [[u|[err|err dd|x]] w1] eqn:V;
    cbn [fst snd goes_through stored] in *; try discriminate Hthrough.
  - exists data, e, w1. repeat split; auto.
  - rewrite (Hvalid _ _ _ _ V).
    rewrite store_error_named by (unfold wraps; simpl; now rewrite Hn).
    destruct (merge_entry_dict e (Name n) (messages err))
      as (e1 & -> & Hsame & Hother & _).
    exists (dict_pop n data), e1, w1. split; [reflexivity|]. split.
    + intros k Hk. split.
      * now apply dict_get_pop_other.
      * apply Hother. intros Heq. injection Heq as Heq. contradiction.
    + split; [reflexivity|]. split; [apply dict_get_pop_same | exact Hsame].
Qed.

Lemma validate_license_valid_data {E doc : Type} {registry : Registry E doc}
    (now : Z) (network : outcome E doc) :
  forall v w0 err w1,
    ManifestSchema.validate_license now network v w0 =
      (Raise (EValidationError err), w1) ->
    valid_data err = None.
Proof.
  intros v w0 err w1. unfold ManifestSchema.validate_license.
  destruct (ManifestSchema.load_spdx_licenses now network w0) as [[spdx|x] w2].
  - destruct (search v spdx) as [[|]|other]; intros H; inversion H; reflexivity.
  - destruct (not_caught x); intros H; inversion H; reflexivity.
Qed.

Lemma validate_version_valid_data {doc : Type} (lib : Library) :
  forall v (w0 : shared doc) err w1,
    (raising (ManifestSchema.validate_version lib v), w0) =
      (Raise (EValidationError err), w1) ->
    valid_data err = None.
Proof.
  intros v w0 err w1. unfold ManifestSchema.validate_version.
  destruct (_ && _); intros H; inversion H; reflexivity.
Qed.

Lemma validate_version_never_through {doc : Type} (lib : Library)
    (w : shared doc) :
  forall v,
    goes_through
      (fst (raising (ManifestSchema.validate_version lib v), w)) = None.
Proof.
  intros v. unfold ManifestSchema.validate_version.
  destruct (_ && _); reflexivity.
Qed.

(** With a registry that keeps to its format, the license hook raises
    [ValidationError] or nothing. *)
Lemma validate_license_never_through (now : Z)
    (network : outcome RequestException license_list) (w : world) :
  forall v,
    goes_through (fst (ManifestSchema.validate_license now network v w)) = None.
Proof.
  intros v. unfold ManifestSchema.validate_license.
  destruct (ManifestSchema.load_spdx_licenses now network w) as [[spdx|x] w2].
  - cbn [search typed_registry]. destruct (existsb _ _); reflexivity.
  - reflexivity.
Qed.

Lemma declared_names (lib : Library) :
  map fst (ManifestSchema.declared_fields lib) =
  ["name"; "version"; "authors"; "description"; "homepage"; "license";
   "repository"; "export"; "examples"; "keywords"; "platforms"; "frameworks";
   "title"; "system"].
Proof. reflexivity. Qed.

Lemma declared_NoDup (lib : Library) :
  NoDup (map fst (ManifestSchema.declared_fields lib)).
Proof.
  rewrite declared_names.
  repeat (constructor; [simpl; intuition discriminate|]). constructor.
Qed.

Lemma declared_plain (lib : Library) :
  plain_names (ManifestSchema.declared_fields lib) = true.
Proof. reflexivity. Qed.

(** A hook on a string field, read through [hooked]. *)
Lemma hook_step {doc : Type} (n : string) (req : bool)
    (vs : list validate.validator)
    (validator : string -> shared doc -> outcome exn unit * shared doc)
    (raw : option json) (data : dict) (e : list (key * msgs)) (w : shared doc) :
  String.eqb n SCHEMA = false ->
  (forall v w0 err w1,
     validator v w0 = (Raise (EValidationError err), w1) -> valid_data err = None) ->
  (forall v, goes_through (fst (validator v w)) = None) ->
  dict_get n data = kept (deserialize (fields.Str req vs) raw) ->
  msgs_get (Name n) e = raised (deserialize (fields.Str req vs) raw) ->
  exists data' e',
    ManifestSchema.invoke_hook n validator data (MDict e) w =
      (Return (data', MDict e'),
       snd (hooked (fields.Str req vs) raw validator w)) /\
    (forall k, k <> n ->
       dict_get k data' = dict_get k data /\
       msgs_get (Name k) e' = msgs_get (Name k) e) /\
    dict_get n data' = kept (fst (hooked (fields.Str req vs) raw validator w)) /\
    msgs_get (Name n) e' = raised (fst (hooked (fields.Str req vs) raw validator w)) /\
    (succeeds (fst (hooked (fields.Str req vs) raw validator w)) = true -> e' = e).
Proof.
  intros Hn Hvalid Hthrough Hget Herr.
  destruct (invoke_hook_spec n validator data e w Hn Hvalid Hthrough)
    as (data' & e' & w' & Heq & Hother & Hcase).
  exists data', e'. unfold hooked.
  destruct (Str_deserialize_cases req vs raw)
    as [[_ D] | [(s & _ & D) | (err & D & Hv)]];
    rewrite D in *; simpl in Hget, Herr.
  - rewrite Hget in Hcase. destruct Hcase as (-> & -> & ->).
    rewrite Heq. repeat split; auto; apply Hother; auto.
  - rewrite Hget in Hcase. destruct Hcase as (-> & Hcase).
    destruct (validator s w) as [r w1] eqn:V. cbn [fst snd] in *.
    destruct (stored r) as [u|err] eqn:S.
    + destruct Hcase as (-> & ->). rewrite Heq.
      repeat split; auto; apply Hother; auto.
    + destruct Hcase as (Hpop & Hmsg). rewrite Heq.
      split; [reflexivity|]. split; [exact Hother|]. simpl.
      assert (Hnone : valid_data err = None).
      { destruct r as [u|[x|x dd|x]]; try discriminate S.
        injection S as ->. exact (Hvalid _ _ _ _ V). }
      rewrite Hnone. split; [exact Hpop|]. split; [|discriminate].
      now rewrite Hmsg, Herr.
  - rewrite Hv in Hget. rewrite Hget in Hcase. destruct Hcase as (-> & -> & ->).
    rewrite Heq. simpl. rewrite Hv. repeat split; auto; apply Hother; auto.
Qed.

(** ** Reading a validation call *)

(** For a dictionary, and a license hook that lets no other exception
    through: the validated data and the errors hold, under each name, what
    the outcome of the field of that name leaves there, and there are no
    errors when every outcome is a success. *)
Lemma validated_outcomes {E doc : Type} {registry : Registry E doc}
    (lib : Library) (now : Z) (network : outcome E doc) (d : dict)
    (w : shared doc) :
  (forall v,
     goes_through (fst (ManifestSchema.validate_license now network v w)) = None) ->
  exists out errs,
    ManifestSchema.validated lib now network (JDict d) w =
      (Return (JDict out, MDict errs), world_after lib now network d w) /\
    (forall k,
       dict_get k out =
         match field_outcome lib now network d w k with
         | Some r => kept r
         | None => None
         end /\
       msgs_get (Name k) errs =
         match field_outcome lib now network d w k with
         | Some r => raised r
         | None => None
         end) /\
    ((forall k r, field_outcome lib now network d w k = Some r ->
                  succeeds r = true) ->
     errs = []).
Proof.
  intros Hthrough.
  unfold ManifestSchema.validated. rewrite deserialize_one_eq.
  cbn [value_of stores_of]. rewrite app_nil_r.
  set (fs := ManifestSchema.declared_fields lib).
  assert (C0 : forall k, dict_get k (collect fs d []) =
                match field_of k fs with
                | Some f => kept (deserialize f (dict_get k d))
                | None => None
                end).
  { intros k. rewrite collect_get by apply declared_NoDup.
    destruct (field_of k fs); [|reflexivity]. now destruct (kept _). }
  assert (E0 : exists e0,
             apply_stores None (field_stores fs d) (MDict []) = MDict e0 /\
             (field_stores fs d = [] -> e0 = []) /\
             forall k, msgs_get (Name k) e0 =
                match field_of k fs with
                | Some f => raised (deserialize f (dict_get k d))
                | None => None
                end).
  { destruct (apply_stores_get_absent (field_stores fs d) [] (Index 0))
      as (e0 & He0 & _).
    - apply field_stores_wraps, declared_plain.
    - intros p _. discriminate.
    - exists e0. split; [exact He0|]. split.
      + intros Hnil. rewrite Hnil in He0. cbn in He0. now injection He0.
      + intros k.
        rewrite <- field_stores_find by apply declared_NoDup.
        rewrite <- (apply_stores_get (field_stores fs d) [] k).
        * now rewrite He0.
        * apply field_stores_wraps, declared_plain.
        * apply field_stores_NoDup, declared_NoDup.
        * reflexivity. }
  destruct E0 as (e0 & -> & Hnil & E0).
  unfold ManifestSchema._invoke_field_validators.
  destruct (hook_step "license" false [validate.Length 1 255]
              (ManifestSchema.validate_license now network)
              (dict_get "license" d) (collect fs d []) e0 w)
    as (d1 & e1 & -> & Hother1 & Hget1 & Herr1 & Hsame1).
  { reflexivity. }
  { apply validate_license_valid_data. }
  { exact Hthrough. }
  { apply (C0 "license"). }
  { apply (E0 "license"). }
  destruct (hook_step "version" true [validate.Length 1 50]
              (fun v w => (raising (ManifestSchema.validate_version lib v), w))
              (dict_get "version" d) d1 e1
              (snd (hooked (fields.Str false [validate.Length 1 255])
                      (dict_get "license" d)
                      (ManifestSchema.validate_license now network) w)))
    as (d2 & e2 & -> & Hother2 & Hget2 & Herr2 & Hsame2).
  { reflexivity. }
  { apply validate_version_valid_data. }
  { apply validate_version_never_through. }
  { destruct (Hother1 "version") as [-> _]; [discriminate|]. apply (C0 "version"). }
  { destruct (Hother1 "version") as [_ ->]; [discriminate|]. apply (E0 "version"). }
  assert (Hf : forall w0 w1 : shared doc,
             fst (hooked (fields.Str true [validate.Length 1 50])
                    (dict_get "version" d)
                    (fun v w =>
                       (raising (ManifestSchema.validate_version lib v), w)) w0) =
             fst (hooked (fields.Str true [validate.Length 1 50])
                    (dict_get "version" d)
                    (fun v w =>
                       (raising (ManifestSchema.validate_version lib v), w)) w1)).
  { intros w0 w1. unfold hooked.
    destruct (deserialize _ _) as [[[| | |v| |]|]|]; reflexivity. }
  exists d2, e2. split; [|split].
  - unfold world_after.
    assert (Hw : forall w0 : shared doc,
               snd (hooked (fields.Str true [validate.Length 1 50])
                (dict_get "version" d)
                (fun v w =>
                   (raising (ManifestSchema.validate_version lib v), w)) w0) = w0).
    { intros w0. unfold hooked.
      destruct (deserialize _ _) as [[[| | |v| |]|]|]; reflexivity. }
    now rewrite Hw.
  - intros k. unfold field_outcome. fold fs.
    destruct (String.eqb k "license") eqn:Kl.
    + apply String.eqb_eq in Kl. subst k.
      change (field_of "license" fs)
        with (Some (fields.Str false [validate.Length 1 255])).
      cbn [String.eqb Ascii.eqb Bool.eqb].
      destruct (Hother2 "license") as [-> ->]; [discriminate|]. auto.
    + destruct (String.eqb k "version") eqn:Kv.
      * apply String.eqb_eq in Kv. subst k.
        change (field_of "version" fs)
          with (Some (fields.Str true [validate.Length 1 50])).
        cbn [String.eqb Ascii.eqb Bool.eqb].
        rewrite Hget2, Herr2. split; f_equal; apply Hf.
      * assert (k <> "version")
          by (intros ->; discriminate).
        assert (k <> "license")
          by (intros ->; discriminate).
        destruct (Hother2 k) as [-> ->]; auto.
        destruct (Hother1 k) as [-> ->]; auto.
        rewrite C0, E0. destruct (field_of k fs); auto.
  - intros Hall.
    assert (Hl : succeeds (fst (hooked (fields.Str false [validate.Length 1 255])
                             (dict_get "license" d)
                             (ManifestSchema.validate_license now network) w)) = true).
    { exact (Hall "license" _ eq_refl). }
    assert (Hv : succeeds (fst (hooked (fields.Str true [validate.Length 1 50])
                             (dict_get "version" d)
                             (fun v w =>
                                (raising (ManifestSchema.validate_version lib v), w))
                             w)) = true).
    { exact (Hall "version" _ eq_refl). }
    rewrite (Hsame2 ltac:(rewrite (Hf _ w); exact Hv)), (Hsame1 Hl).
    apply Hnil.
    assert (Hd : forall (f : Field) (raw : option json)
                   (validator : string -> shared doc -> outcome exn unit * shared doc),
               succeeds (fst (hooked f raw validator w)) = true ->
               succeeds (deserialize f raw) = true).
    { intros f raw validator. unfold hooked.
      destruct (deserialize f raw) as [[[| | |v| |]|]|]; auto. }
    assert (Hall' : forallb
                      (fun p => succeeds (deserialize (snd p) (dict_get (fst p) d)))
                      fs = true).
    { cbn [forallb fs ManifestSchema.declared_fields fst snd].
      rewrite (Hd _ _ _ Hl), (Hd _ _ _ Hv).
      rewrite (Hall "name" _ eq_refl), (Hall "authors" _ eq_refl),
        (Hall "description" _ eq_refl), (Hall "homepage" _ eq_refl),
        (Hall "repository" _ eq_refl), (Hall "export" _ eq_refl),
        (Hall "examples" _ eq_refl), (Hall "keywords" _ eq_refl),
        (Hall "platforms" _ eq_refl), (Hall "frameworks" _ eq_refl),
        (Hall "title" _ eq_refl), (Hall "system" _ eq_refl).
      reflexivity. }
    clear - Hall'. induction fs as [|[n f] rest IH]; [reflexivity|].
    cbn [forallb fst snd] in Hall'. apply andb_true_iff in Hall'.
    destruct Hall' as [Hf Hrest]. cbn [field_stores].
    destruct (deserialize f (dict_get n d)); [auto | discriminate].
Qed.

(** The same for a registry that keeps to its format. *)
Lemma validated_reading (lib : Library) (now : Z)
    (network : outcome RequestException license_list) (d : dict) (w : world) :
  exists out errs,
    ManifestSchema.validated lib now network (JDict d) w =
      (Return (JDict out, MDict errs), world_after lib now network d w) /\
    forall k,
      dict_get k out =
        match field_outcome lib now network d w k with
        | Some r => kept r
        | None => None
        end /\
      msgs_get (Name k) errs =
        match field_outcome lib now network d w k with
        | Some r => raised r
        | None => None
        end.
Proof.
  destruct (validated_outcomes lib now network d w
              (validate_license_never_through now network w))
    as (out & errs & Hv & Hread & _).
  now exists out, errs.
Qed.

(** [load_manifest] in terms of the validation pass. *)
Lemma load_manifest_unfold {E doc : Type} {registry : Registry E doc}
    {lib : Library} {strict : bool} {now : Z} {network : outcome E doc}
    {manifest : json} {w : shared doc} {result : json} {errors : msgs}
    {w' : shared doc} :
  ManifestSchema.validated lib now network manifest w =
    (Return (result, errors), w') ->
  ManifestSchema.load_manifest lib strict now network manifest w =
  if no_errors errors then (Return (Some result, None), w')
  else if strict
       then (Raise (ManifestValidationError
                      (mkValidationError errors (Some manifest) (Some result))
                      manifest), w')
       else (Return (Some result, Some errors), w').
Proof.
  intros Hv.
  unfold ManifestSchema.load_manifest, ManifestSchema.load, raise_errors,
    ManifestSchema.handle_error.
  rewrite Hv.
  destruct (no_errors errors); [reflexivity|].
  destruct strict; reflexivity.
Qed.

(** ** Required fields, strictness and totality *)

Lemma entry_not_empty (k : key) (errs : list (key * msgs)) (m : msgs) :
  msgs_get k errs = Some m -> no_errors (MDict errs) = false.
Proof. destruct errs; [discriminate | reflexivity]. Qed.

Lemma required_outcome (lib : Library) (now : Z)
    (network : outcome RequestException license_list) (d : dict) (w : world)
    (k : string) :
  k = "name" \/ k = "version" ->
  dict_get k d = None ->
  field_outcome lib now network d w k =
  Some (Raise (ValidationError_text "Missing data for required field.")).
Proof.
  intros [-> | ->] H; unfold field_outcome, hooked; simpl; rewrite H; reflexivity.
Qed.

(** C7. For every document that lacks [name] or [version]: strict
    validation raises, and the error reports that field as missing;
    best-effort validation returns a repaired document without the field
    and violations with an entry for it. *)
Theorem missing_required_field (lib : Library) (now : Z)
    (network : outcome RequestException license_list) (d : dict) (w : world)
    (k : string) :
  k = "name" \/ k = "version" ->
  dict_get k d = None ->
  (exists error w',
     ManifestSchema.load_manifest lib true now network (JDict d) w =
       (Raise (ManifestValidationError error (JDict d)), w') /\
     errors_get (Name k) (messages error) =
       Some (MList ["Missing data for required field."])) /\
  (exists repaired violations w',
     ManifestSchema.load_manifest lib false now network (JDict d) w =
       (Return (Some (JDict repaired), Some violations), w') /\
     dict_get k repaired = None /\
     errors_get (Name k) violations =
       Some (MList ["Missing data for required field."])).
Proof.
  intros Hk Hmissing.
  destruct (validated_reading lib now network d w) as (out & errs & Hv & Hread).
  destruct (Hread k) as [Hout Herr].
  rewrite (required_outcome lib now network d w k Hk Hmissing) in Hout, Herr.
  simpl in Hout, Herr.
  pose proof (entry_not_empty _ _ _ Herr) as Hne.
  split.
  - eexists. eexists. rewrite (load_manifest_unfold Hv), Hne.
    split; [reflexivity | exact Herr].
  - exists out, (MDict errs). eexists. rewrite (load_manifest_unfold Hv), Hne.
    split; [reflexivity|]. split; [exact Hout | exact Herr].
Qed.

Lemma missing_required_field_witness :
  (exists error w',
     ManifestSchema.load_manifest sample_lib true 0 (Raise ConnectionError)
       (JDict [("name", JStr "pkg")]) empty_world =
       (Raise (ManifestValidationError error (JDict [("name", JStr "pkg")])), w') /\
     errors_get (Name "version") (messages error) =
       Some (MList ["Missing data for required field."])) /\
  (exists repaired violations w',
     ManifestSchema.load_manifest sample_lib false 0 (Raise ConnectionError)
       (JDict [("name", JStr "pkg")]) empty_world =
       (Return (Some (JDict repaired), Some violations), w') /\
     dict_get "version" repaired = None /\
     errors_get (Name "version") violations =
       Some (MList ["Missing data for required field."])).
Proof.
  apply (missing_required_field sample_lib 0 (Raise ConnectionError)
           [("name", JStr "pkg")] empty_world "version").
  - right. reflexivity.
  - reflexivity.
Defined.

Lemma no_errors_nil (errs : list (key * msgs)) :
  no_errors (MDict errs) = true -> errs = [].
Proof. destruct errs; [reflexivity | discriminate]. Qed.

Lemma find_id_dictionaries (value : string) (items : list json) :
  forallb is_dict_value items = true ->
  exists found, find_id value items = Return found.
Proof.
  induction items as [|item rest IH]; intros H.
  - now exists false.
  - cbn [forallb] in H. apply andb_true_iff in H. destruct H as [Hitem Hrest].
    destruct item as [| | | | |d]; try discriminate Hitem. cbn [find_id].
    destruct (has_id value d); [now exists true | now apply IH].
Qed.

Lemma search_well_shaped (value : string) (spdx : json) :
  well_shaped spdx = true ->
  exists found, search_document value spdx = Return found.
Proof.
  unfold well_shaped, search_document.
  destruct (get_licenses spdx) as [[| | | |items|]|]; try discriminate.
  intros H. cbn [iterate]. now apply find_id_dictionaries.
Qed.

(** On the document of a registry that keeps to its format, the loop as it
    goes over any JSON value finds what the loop over the typed registry
    finds. *)
Lemma search_document_of (value : string) (spdx : license_list) :
  well_shaped (document_of spdx) = true /\
  search value (document_of spdx) = search value spdx.
Proof.
  assert (H : forall l,
            forallb is_dict_value (map JDict l) = true /\
            find_id value (map JDict l) = Return (existsb (has_id value) l)).
  { induction l as [|item rest [IH1 IH2]]; [split; reflexivity|].
    split; [exact IH1|]. cbn [map find_id existsb].
    destruct (has_id value item); [reflexivity | exact IH2]. }
  destruct spdx as [[l|]]; [|split; reflexivity].
  destruct (H l) as [H1 H2]. split; [exact H1 | exact H2].
Qed.

(** After a sound lookup the license hook raises [ValidationError] or
    nothing. *)
Lemma sound_never_through (now : Z) (network : outcome failure json)
    (w : shared json) :
  lookup_sound now network w = true ->
  forall v,
    goes_through (fst (ManifestSchema.validate_license now network v w)) = None.
Proof.
  unfold lookup_sound, ManifestSchema.validate_license. intros H v.
  destruct (ManifestSchema.load_spdx_licenses now network w)
    as [[spdx|[x|x]] w2]; cbn [fst] in H; try discriminate H.
  - cbn [search any_registry].
    destruct (search_well_shaped v spdx H) as [[|] ->]; reflexivity.
  - reflexivity.
Qed.

(** C10, as the code has it.  For every input and every registry of which
    the lookup is sound: without [strict], [load_manifest] returns, the
    data and no messages when nothing was stored as an error, the valid
    data and the messages otherwise; with [strict], the second case raises
    [ManifestValidationError], which the handler for [ValidationError] in
    [load_manifest] lets through.  Data and messages are those of the
    input: for a dictionary they hold under each name what the outcome of
    that field leaves, and there are no messages exactly when every
    outcome is a success; anything else is an invalid input type. *)
Theorem load_manifest_raises_only_when_strict (lib : Library) (now : Z)
    (network : outcome failure json) (manifest : json) (w : shared json) :
  lookup_sound now network w = true ->
  exists out errs w',
    ManifestSchema.load_manifest lib false now network manifest w =
      (Return (Some (JDict out),
               if no_errors (MDict errs) then None else Some (MDict errs)), w') /\
    ManifestSchema.load_manifest lib true now network manifest w =
      (if no_errors (MDict errs) then Return (Some (JDict out), None)
       else Raise (ManifestValidationError
                     (mkValidationError (MDict errs) (Some manifest)
                        (Some (JDict out)))
                     manifest), w') /\
    match manifest with
    | JDict d =>
        w' = world_after lib now network d w /\
        (forall k,
           dict_get k out =
             match field_outcome lib now network d w k with
             | Some r => kept r
             | None => None
             end /\
           msgs_get (Name k) errs =
             match field_outcome lib now network d w k with
             | Some r => raised r
             | None => None
             end) /\
        (no_errors (MDict errs) = true <->
         forall k r, field_outcome lib now network d w k = Some r ->
                     succeeds r = true)
    | _ =>
        w' = w /\ out = [] /\
        errs = [(Name SCHEMA, MList ["Invalid input type."])]
    end.
Proof.
  intros Hsound.
  assert (Hother : is_dict_value manifest = false ->
            ManifestSchema.validated lib now network manifest w =
              (Return (JDict [],
                       MDict [(Name SCHEMA, MList ["Invalid input type."])]), w)).
  { destruct manifest; try discriminate; reflexivity. }
  destruct manifest as [|b|n|s|items|d];
    try (exists [], [(Name SCHEMA, MList ["Invalid input type."])], w;
         rewrite !(load_manifest_unfold (Hother eq_refl));
         repeat split; reflexivity).
  destruct (validated_outcomes lib now network d w
              (sound_never_through now network w Hsound))
    as (out & errs & Hv & Hread & Hclean).
  exists out, errs, (world_after lib now network d w).
  rewrite !(load_manifest_unfold Hv).
  split; [now destruct (no_errors (MDict errs))|].
  split; [now destruct (no_errors (MDict errs))|].
  split; [reflexivity|]. split; [exact Hread|]. split.
  - intros Hnone k r Hk. apply no_errors_nil in Hnone. subst errs.
    destruct (Hread k) as [_ Herr]. rewrite Hk in Herr.
    now destruct r.
  - intros Hall. now rewrite (Hclean Hall).
Qed.

Lemma load_manifest_raises_only_when_strict_witness :
  exists out errs w',
    ManifestSchema.load_manifest sample_lib false 0
      (Return (JDict [("licenseListVersion", JStr "3.6");
                      ("licenses", JList [JDict [("licenseId", JStr "MIT")]])]))
      (JDict [("name", JStr "pkg"); ("license", JStr "GPL")])
      (mkWorld None 0) =
      (Return (Some (JDict out),
               if no_errors (MDict errs) then None else Some (MDict errs)), w') /\
    ManifestSchema.load_manifest sample_lib true 0
      (Return (JDict [("licenseListVersion", JStr "3.6");
                      ("licenses", JList [JDict [("licenseId", JStr "MIT")]])]))
      (JDict [("name", JStr "pkg"); ("license", JStr "GPL")])
      (mkWorld None 0) =
      (if no_errors (MDict errs) then Return (Some (JDict out), None)
       else Raise (ManifestValidationError
                     (mkValidationError (MDict errs)
                        (Some (JDict [("name", JStr "pkg"); ("license", JStr "GPL")]))
                        (Some (JDict out)))
                     (JDict [("name", JStr "pkg"); ("license", JStr "GPL")])), w') /\
    (w' = world_after sample_lib 0
            (Return (JDict [("licenseListVersion", JStr "3.6");
                            ("licenses", JList [JDict [("licenseId", JStr "MIT")]])]))
            [("name", JStr "pkg"); ("license", JStr "GPL")] (mkWorld None 0) /\
     (forall k,
        dict_get k out =
          match field_outcome sample_lib 0
                  (Return (JDict [("licenseListVersion", JStr "3.6");
                                  ("licenses",
                                   JList [JDict [("licenseId", JStr "MIT")]])]))
                  [("name", JStr "pkg"); ("license", JStr "GPL")]
                  (mkWorld None 0) k with
          | Some r => kept r
          | None => None
          end /\
        msgs_get (Name k) errs =
          match field_outcome sample_lib 0
                  (Return (JDict [("licenseListVersion", JStr "3.6");
                                  ("licenses",
                                   JList [JDict [("licenseId", JStr "MIT")]])]))
                  [("name", JStr "pkg"); ("license", JStr "GPL")]
                  (mkWorld None 0) k with
          | Some r => raised r
          | None => None
          end) /\
     (no_errors (MDict errs) = true <->
      forall k r,
        field_outcome sample_lib 0
          (Return (JDict [("licenseListVersion", JStr "3.6");
                          ("licenses", JList [JDict [("licenseId", JStr "MIT")]])]))
          [("name", JStr "pkg"); ("license", JStr "GPL")] (mkWorld None 0) k =
          Some r ->
        succeeds r = true)).
Proof.
  apply (load_manifest_raises_only_when_strict sample_lib 0
           (Return (JDict [("licenseListVersion", JStr "3.6");
                           ("licenses", JList [JDict [("licenseId", JStr "MIT")]])]))
           (JDict [("name", JStr "pkg"); ("license", JStr "GPL")])
           (mkWorld None 0)).
  reflexivity.
Defined.

(** C10 as stated fails.  The manifest below has a license, so the hook
    consults the registry.  When the endpoint answers with JSON that is not
    an object, or with a body that is not JSON, the exception that comes
    out of the lookup is no [RequestException] and no [ValidationError]:
    best-effort validation raises it. *)
Lemma best_effort_raises_what_the_registry_raises :
  ManifestSchema.load_manifest sample_lib false 0 (Return (JList []))
    (JDict [("name", JStr "pkg"); ("version", JStr "1.0.0");
            ("license", JStr "MIT")])
    (mkWorld None 0) =
    (Raise (EException AttributeError),
     mkWorld (Some (mkSnapshot 0 (JList []))) 1) /\
  ManifestSchema.load_manifest sample_lib false 0 (Raise (Failed JSONDecodeError))
    (JDict [("name", JStr "pkg"); ("version", JStr "1.0.0");
            ("license", JStr "MIT")])
    (mkWorld None 0) =
    (Raise (EException JSONDecodeError), mkWorld None 1).
Proof. split; reflexivity. Qed.

(** C1, as the code has it.  In strict mode, for every document in which
    the outcome of some declared field is a violation, validation does not
    stop at the first one.  Every declared field is deserialized, whatever
    became of the fields before it; the hook of [version] and the hook of
    [license] each run exactly when their field was deserialized to a
    string, and not when it already failed, in which case the registry is
    left alone.  The call then raises one [ManifestValidationError] that
    carries the input document and the whole violations map, with the entry
    of every field that failed, and returns no document. *)
Theorem strict_raises_with_every_violation (lib : Library) (now : Z)
    (network : outcome RequestException license_list) (d : dict) (w : world) :
  (exists k r, field_outcome lib now network d w k = Some r /\ succeeds r = false) ->
  exists error,
    ManifestSchema.load_manifest lib true now network (JDict d) w =
      (Raise (ManifestValidationError error (JDict d)),
       world_after lib now network d w) /\
    (forall k,
       errors_get (Name k) (messages error) =
       match field_outcome lib now network d w k with
       | Some r => raised r
       | None => None
       end) /\
    (forall k f,
       field_of k (ManifestSchema.declared_fields lib) = Some f ->
       k <> "version" -> k <> "license" ->
       errors_get (Name k) (messages error) =
       raised (deserialize f (dict_get k d))) /\
    match deserialize (fields.Str true [validate.Length 1 50])
            (dict_get "version" d) with
    | Return (Some (JStr v)) =>
        errors_get (Name "version") (messages error) =
        raised (ManifestSchema.validate_version lib v)
    | failed =>
        errors_get (Name "version") (messages error) = raised failed
    end /\
    match deserialize (fields.Str false [validate.Length 1 255])
            (dict_get "license" d) with
    | Return (Some (JStr v)) =>
        errors_get (Name "license") (messages error) =
          raised (stored (fst (ManifestSchema.validate_license now network v w))) /\
        world_after lib now network d w =
          snd (ManifestSchema.validate_license now network v w)
    | failed =>
        errors_get (Name "license") (messages error) = raised failed /\
        world_after lib now network d w = w
    end.
Proof.
  intros (k & r & Hk & Hfail).
  destruct (validated_reading lib now network d w) as (out & errs & Hv & Hread).
  assert (Hne : no_errors (MDict errs) = false).
  { destruct (Hread k) as [_ Herr]. rewrite Hk in Herr.
    destruct r as [v|e]; [discriminate|]. simpl in Herr.
    exact (entry_not_empty _ _ _ Herr). }
  eexists. rewrite (load_manifest_unfold Hv), Hne. split; [reflexivity|].
  cbn [messages errors_get].
  split; [intros k'; apply (Hread k')|]. split; [|split].
  - intros k' f Hf Hversion Hlicense.
    destruct (Hread k') as [_ ->]. unfold field_outcome. rewrite Hf.
    apply String.eqb_neq in Hversion, Hlicense. now rewrite Hversion, Hlicense.
  - destruct (Hread "version") as [_ ->].
    unfold field_outcome, hooked.
    cbn [field_of ManifestSchema.declared_fields String.eqb Ascii.eqb Bool.eqb].
    destruct (deserialize _ _) as [[[| | |v| |]|]|]; try reflexivity.
    cbn [fst]. now destruct (ManifestSchema.validate_version lib v).
  - destruct (Hread "license") as [_ ->].
    unfold world_after, field_outcome, hooked.
    cbn [field_of ManifestSchema.declared_fields String.eqb Ascii.eqb Bool.eqb].
    destruct (deserialize _ _) as [[[| | |v| |]|]|]; try (split; reflexivity).
    destruct (ManifestSchema.validate_license now network v w) as [got w1].
    cbn [fst snd]. split; [|reflexivity]. now destruct (stored got).
Qed.

Lemma strict_raises_with_every_violation_witness :
  exists error,
    ManifestSchema.load_manifest sample_lib true 0 (Return sample_registry)
      (JDict [("version", JStr "1"); ("license", JStr "")]) empty_world =
      (Raise (ManifestValidationError error
                (JDict [("version", JStr "1"); ("license", JStr "")])),
       world_after sample_lib 0 (Return sample_registry)
         [("version", JStr "1"); ("license", JStr "")] empty_world) /\
    (forall k,
       errors_get (Name k) (messages error) =
       match field_outcome sample_lib 0 (Return sample_registry)
               [("version", JStr "1"); ("license", JStr "")] empty_world k with
       | Some r => raised r
       | None => None
       end) /\
    (forall k f,
       field_of k (ManifestSchema.declared_fields sample_lib) = Some f ->
       k <> "version" -> k <> "license" ->
       errors_get (Name k) (messages error) =
       raised (deserialize f
                 (dict_get k [("version", JStr "1"); ("license", JStr "")]))) /\
    errors_get (Name "version") (messages error) =
      raised (ManifestSchema.validate_version sample_lib "1") /\
    errors_get (Name "license") (messages error) =
      raised (deserialize (fields.Str false [validate.Length 1 255])
                (Some (JStr ""))) /\
    world_after sample_lib 0 (Return sample_registry)
      [("version", JStr "1"); ("license", JStr "")] empty_world = empty_world.
Proof.
  apply (strict_raises_with_every_violation sample_lib 0 (Return sample_registry)
           [("version", JStr "1"); ("license", JStr "")] empty_world).
  exists "name", (Raise (ValidationError_text "Missing data for required field.")).
  split; reflexivity.
Defined.

(** C1 as stated fails.  The document below lacks [name], the first
    declared field.  Strict validation does not stop there: the error it
    raises also reports [license] and [version], and the license hook has
    sent a request to the registry. *)
Lemma strict_is_not_fail_fast :
  exists error w',
    ManifestSchema.load_manifest sample_lib true 0
      (Return (mkLicenseList (Some [[("licenseId", JStr "MIT")]])))
      (JDict [("version", JStr "1"); ("license", JStr "GPL")]) empty_world =
      (Raise (ManifestValidationError error
                (JDict [("version", JStr "1"); ("license", JStr "GPL")])), w') /\
    messages error =
      MDict
        [(Name "name", MList ["Missing data for required field."]);
         (Name "license",
          MList ["Invalid SPDX license identifier. See valid identifiers at https://spdx.org/licenses/"]);
         (Name "version",
          MList ["Invalid semantic versioning format, see https://semver.org/"])] /\
    requests w' = 1.
Proof.
  eexists. eexists. split; [vm_compute; reflexivity|]. split; reflexivity.
Qed.

(** ** The version hook *)

(** C5. [validate_version] accepts exactly the strings that contain a dot
    and that [Version.coerce] accepts, and raises the one violation
    otherwise: with a library that coerces ["1.2"], that version passes;
    ["abc"] and ["1"] have no dot and fail. *)
Theorem validate_version_accepts (lib : Library) :
  coerce_accepts lib "1.2" = true ->
  (forall value,
     ManifestSchema.validate_version lib value = Return tt <->
     ManifestSchema.contains_dot value = true /\ coerce_accepts lib value = true) /\
  (forall value,
     ManifestSchema.validate_version lib value = Return tt \/
     ManifestSchema.validate_version lib value =
       Raise (ValidationError_text
                "Invalid semantic versioning format, see https://semver.org/")) /\
  ManifestSchema.validate_version lib "1.2" = Return tt /\
  ManifestSchema.validate_version lib "abc" =
    Raise (ValidationError_text
             "Invalid semantic versioning format, see https://semver.org/") /\
  ManifestSchema.validate_version lib "1" =
    Raise (ValidationError_text
             "Invalid semantic versioning format, see https://semver.org/").
Proof.
  intros Hcoerce. unfold ManifestSchema.validate_version.
  split; [|split; [|split; [|split]]].
  - intros value. rewrite <- andb_true_iff.
    destruct (_ && _); split; intros H; try reflexivity; discriminate.
  - intros value. destruct (_ && _); auto.
  - rewrite Hcoerce. reflexivity.
  - reflexivity.
  - reflexivity.
Qed.

Lemma validate_version_accepts_witness :
  ManifestSchema.validate_version sample_lib "1.2" = Return tt.
Proof.
  apply (validate_version_accepts sample_lib). reflexivity.
Defined.

(** ** The license hook and the registry *)

Lemma load_spdx_licenses_stale (now : Z)
    (network : outcome RequestException license_list) (w : world) :
  stale now w ->
  ManifestSchema.load_spdx_licenses now network w =
  match network with
  | Return v => (Return v, mkWorld (Some (mkSnapshot now v)) (S (requests w)))
  | Raise e => (Raise e, mkWorld (cache w) (S (requests w)))
  end.
Proof.
  unfold stale, ManifestSchema.load_spdx_licenses, memoized, requests_get.
  destruct (cache w) as [entry|]; intros H.
  - replace (now - fetched_at entry <? one_hour)%Z with false.
    + destruct network; reflexivity.
    + symmetry. apply Z.ltb_ge. exact H.
  - destruct network; reflexivity.
Qed.

Lemma has_id_iff (value : string) (item : dict) :
  has_id value item = true <->
  dict_get "licenseId" item = Some (JStr value).
Proof.
  unfold has_id.
  destruct (dict_get "licenseId" item) as [[| | |id| |]|];
    split; intros H; try discriminate.
  - apply String.eqb_eq in H. now subst.
  - injection H as ->. apply String.eqb_refl.
Qed.

(** C8. When the registry can be loaded, [validate_license] passes a value
    exactly when some entry of [licenses] has that very string as its
    [licenseId]; every other value is an invalid identifier. *)
Theorem validate_license_membership (now : Z)
    (network : outcome RequestException license_list) (w w' : world)
    (spdx : license_list) (value : string) :
  ManifestSchema.load_spdx_licenses now network w = (Return spdx, w') ->
  (ManifestSchema.validate_license now network value w = (Return tt, w') <->
   exists item,
     In item (licenses_of spdx) /\
     dict_get "licenseId" item = Some (JStr value)) /\
  (ManifestSchema.validate_license now network value w = (Return tt, w') \/
   ManifestSchema.validate_license now network value w =
     (Raise (EValidationError invalid_identifier), w')).
Proof.
  intros Hload. unfold ManifestSchema.validate_license. rewrite Hload.
  cbn [search typed_registry]. fold (licenses_of spdx).
  destruct (existsb (has_id value) (licenses_of spdx)) eqn:E.
  - split; [|now left]. split; [intros _|reflexivity].
    apply existsb_exists in E as (item & Hin & Hid).
    exists item. split; [exact Hin | now apply has_id_iff].
  - split; [|now right]. split; [discriminate|].
    intros (item & Hin & Hid). exfalso.
    assert (existsb (has_id value) (licenses_of spdx) = true).
    { apply existsb_exists. exists item. split; [exact Hin | now apply has_id_iff]. }
    congruence.
Qed.

Lemma validate_license_membership_witness :
  (ManifestSchema.validate_license 0 (Return sample_registry) "mit" empty_world =
     (Return tt, mkWorld (Some (mkSnapshot 0 sample_registry)) 1) <->
   exists item,
     In item (licenses_of sample_registry) /\
     dict_get "licenseId" item = Some (JStr "mit")) /\
  (ManifestSchema.validate_license 0 (Return sample_registry) "mit" empty_world =
     (Return tt, mkWorld (Some (mkSnapshot 0 sample_registry)) 1) \/
   ManifestSchema.validate_license 0 (Return sample_registry) "mit" empty_world =
     (Raise (EValidationError invalid_identifier),
      mkWorld (Some (mkSnapshot 0 sample_registry)) 1)).
Proof.
  apply (validate_license_membership 0 (Return sample_registry) empty_world
           (mkWorld (Some (mkSnapshot 0 sample_registry)) 1) sample_registry "mit").
  reflexivity.
Defined.

(** The match is case-sensitive: ["MIT"] is in the sample registry,
    ["mit"] is not. *)
Example license_case_sensitive :
  fst (ManifestSchema.validate_license 0 (Return sample_registry) "MIT" empty_world) =
    Return tt /\
  fst (ManifestSchema.validate_license 0 (Return sample_registry) "mit" empty_world) =
    Raise (EValidationError invalid_identifier).
Proof. split; reflexivity. Qed.

Lemma Str_in_bounds (req : bool) (min max : nat) (v : string) :
  min <= String.length v <= max ->
  deserialize (fields.Str req [validate.Length min max]) (Some (JStr v)) =
  Return (Some (JStr v)).
Proof.
  intros [Hmin Hmax]. unfold deserialize. simpl. unfold validate.Length.
  replace (String.length v <? min)%nat with false
    by (symmetry; apply Nat.ltb_ge; exact Hmin).
  replace (max <? String.length v)%nat with false
    by (symmetry; apply Nat.ltb_ge; exact Hmax).
  reflexivity.
Qed.

Lemma validate_license_unavailable (now : Z) (e : RequestException)
    (value : string) (w : world) :
  stale now w ->
  ManifestSchema.validate_license now (Raise e) value w =
  (Raise (EValidationError registry_unavailable),
   mkWorld (cache w) (S (requests w))).
Proof.
  intros Hs. unfold ManifestSchema.validate_license.
  now rewrite (load_spdx_licenses_stale now (Raise e) w Hs).
Qed.

(** C4. When the fetch of the registry fails, the license field is
    reported with the violation "Could not load SPDX licenses for
    validation", which is not the violation of an invalid identifier; this
    holds for the error raised in strict mode and for the violations
    returned in best-effort mode, where the repaired document has no
    license. *)
Theorem license_registry_unavailable (lib : Library) (now : Z)
    (e : RequestException) (d : dict) (w : world) (value : string) :
  dict_get "license" d = Some (JStr value) ->
  1 <= String.length value <= 255 ->
  stale now w ->
  (exists error w',
     ManifestSchema.load_manifest lib true now (Raise e) (JDict d) w =
       (Raise (ManifestValidationError error (JDict d)), w') /\
     errors_get (Name "license") (messages error) =
       Some (messages registry_unavailable)) /\
  (exists repaired violations w',
     ManifestSchema.load_manifest lib false now (Raise e) (JDict d) w =
       (Return (Some (JDict repaired), Some violations), w') /\
     dict_get "license" repaired = None /\
     errors_get (Name "license") violations =
       Some (messages registry_unavailable)) /\
  messages registry_unavailable <> messages invalid_identifier.
Proof.
  intros Hlic Hlen Hstale.
  destruct (validated_reading lib now (Raise e) d w) as (out & errs & Hv & Hread).
  destruct (Hread "license") as [Hout Herr].
  assert (Hf : field_outcome lib now (Raise e) d w "license" =
               Some (Raise registry_unavailable)).
  { unfold field_outcome, hooked. cbn [field_of ManifestSchema.declared_fields
      String.eqb Ascii.eqb Bool.eqb]. rewrite Hlic, (Str_in_bounds _ _ _ _ Hlen).
    now rewrite (validate_license_unavailable now e value w Hstale). }
  rewrite Hf in Hout, Herr. simpl in Hout, Herr.
  pose proof (entry_not_empty _ _ _ Herr) as Hne.
  split; [|split].
  - eexists. eexists. rewrite (load_manifest_unfold Hv), Hne.
    split; [reflexivity | exact Herr].
  - exists out, (MDict errs). eexists. rewrite (load_manifest_unfold Hv), Hne.
    split; [reflexivity|]. split; [exact Hout | exact Herr].
  - discriminate.
Qed.

Lemma license_registry_unavailable_witness :
  (exists error w',
     ManifestSchema.load_manifest sample_lib true 10 (Raise Timeout)
       (JDict [("name", JStr "pkg"); ("version", JStr "1.0.0");
               ("license", JStr "MIT")]) empty_world =
       (Raise (ManifestValidationError error
                 (JDict [("name", JStr "pkg"); ("version", JStr "1.0.0");
                         ("license", JStr "MIT")])), w') /\
     errors_get (Name "license") (messages error) =
       Some (messages registry_unavailable)) /\
  (exists repaired violations w',
     ManifestSchema.load_manifest sample_lib false 10 (Raise Timeout)
       (JDict [("name", JStr "pkg"); ("version", JStr "1.0.0");
               ("license", JStr "MIT")]) empty_world =
       (Return (Some (JDict repaired), Some violations), w') /\
     dict_get "license" repaired = None /\
     errors_get (Name "license") violations =
       Some (messages registry_unavailable)) /\
  messages registry_unavailable <> messages invalid_identifier.
Proof.
  apply (license_registry_unavailable sample_lib 10 Timeout
           [("name", JStr "pkg"); ("version", JStr "1.0.0"); ("license", JStr "MIT")]
           empty_world "MIT").
  - reflexivity.
  - simpl. lia.
  - exact I.
Defined.

(** C6.  With the cache as the spec describes it: while
    [now - fetched_at < one_hour] a lookup is answered from the cache and
    sends no request; so after a lookup that returned, every later lookup
    within the hour of its entry returns the same registry and leaves the
    world, request count included, as it was; once the entry is as old as
    an hour, the lookup sends one request and answers with its result,
    which it caches with the current time. *)
Theorem lookup_within_ttl_sends_no_request (now : Z)
    (network : outcome RequestException license_list) (w : world) :
  (forall entry,
     cache w = Some entry ->
     (now - fetched_at entry < one_hour)%Z ->
     ManifestSchema.load_spdx_licenses now network w = (Return (value entry), w)) /\
  (forall spdx w1,
     ManifestSchema.load_spdx_licenses now network w = (Return spdx, w1) ->
     exists entry,
       cache w1 = Some entry /\ value entry = spdx /\
       forall later (network' : outcome RequestException license_list),
         (later - fetched_at entry < one_hour)%Z ->
         ManifestSchema.load_spdx_licenses later network' w1 = (Return spdx, w1)) /\
  (stale now w ->
   ManifestSchema.load_spdx_licenses now network w =
   match network with
   | Return v => (Return v, mkWorld (Some (mkSnapshot now v)) (S (requests w)))
   | Raise e => (Raise e, mkWorld (cache w) (S (requests w)))
   end).
Proof.
  assert (Hhit : forall t (n : outcome RequestException license_list)
                   (w0 : world) entry,
            cache w0 = Some entry ->
            (t - fetched_at entry < one_hour)%Z ->
            ManifestSchema.load_spdx_licenses t n w0 = (Return (value entry), w0)).
  { intros t n w0 entry Hc Hlt.
    unfold ManifestSchema.load_spdx_licenses, memoized. rewrite Hc.
    apply Z.ltb_lt in Hlt. now rewrite Hlt. }
  split; [apply Hhit|]. split; [|apply load_spdx_licenses_stale].
  intros spdx w1.
  unfold ManifestSchema.load_spdx_licenses, memoized, requests_get.
  destruct (cache w) as [entry|] eqn:Hc.
  - destruct (now - fetched_at entry <? one_hour)%Z eqn:Hlt.
    + intros H. injection H as <- <-. exists entry.
      split; [exact Hc|]. split; [reflexivity|].
      intros later network' Hl. now apply Hhit.
    + destruct network as [v|x]; intros H; [|discriminate].
      injection H as <- <-. exists (mkSnapshot now v).
      split; [reflexivity|]. split; [reflexivity|].
      intros later network' Hl. now apply (Hhit later network' _ (mkSnapshot now v)).
  - destruct network as [v|x]; intros H; [|discriminate].
    injection H as <- <-. exists (mkSnapshot now v).
    split; [reflexivity|]. split; [reflexivity|].
    intros later network' Hl. now apply (Hhit later network' _ (mkSnapshot now v)).
Qed.

Lemma lookup_within_ttl_sends_no_request_witness :
  ManifestSchema.load_spdx_licenses 3599 (Raise Timeout)
    (mkWorld (Some (mkSnapshot 0 sample_registry)) 1) =
  (Return sample_registry, mkWorld (Some (mkSnapshot 0 sample_registry)) 1).
Proof.
  apply (proj1 (lookup_within_ttl_sends_no_request 3599 (Raise Timeout)
                  (mkWorld (Some (mkSnapshot 0 sample_registry)) 1))
           (mkSnapshot 0 sample_registry)).
  - reflexivity.
  - reflexivity.
Defined.

(** ** Lists in the repaired document *)

Lemma nested_list_outcome (lib : Library) (now : Z)
    (network : outcome RequestException license_list) (d : dict) (w : world)
    (k : string) (sch : Schema) :
  nested_list lib k sch ->
  field_outcome lib now network d w k =
    Some (deserialize (Nested_field false sch true) (dict_get k d)) /\
  plain_names (load_fields sch) = true /\
  handle_error sch = StrictSchema.handle_error.
Proof. intros [[-> ->] | [-> ->]]; repeat split. Qed.

Lemma forallb_nth {A : Type} (f : A -> bool) (l : list A) (n : nat) (x : A) :
  forallb f l = true -> nth_error l n = Some x -> f x = true.
Proof.
  intros H Hn. apply nth_error_In in Hn.
  rewrite forallb_forall in H. now apply H.
Qed.

(** The first author of the example of the spec passes, the second does
    not, whatever the library says about ["bad"]. *)
Lemma example_authors (lib : Library) :
  element_ok (AuthorSchema lib) (JDict [("name", JStr "A")]) = true /\
  element_ok (AuthorSchema lib) (JDict [("email", JStr "bad")]) = false.
Proof.
  split.
  - reflexivity.
  - rewrite element_ok_no_stores by reflexivity. reflexivity.
Qed.

(** C3. In best-effort mode, for [authors] and [examples] given as a
    list: when every element passes, the repaired list holds the loaded
    elements; otherwise it holds the passing elements only, each whole and
    as given (and the field is left out when none passes), and the
    violations have an entry under the index of every element that fails.
    For [authors = [{name: "A"}, {email: "bad"}]] the repaired list is
    [[{name: "A"}]] and the violations have an entry at [authors], index
    1. *)
Theorem broken_elements_dropped (lib : Library) (now : Z)
    (network : outcome RequestException license_list) (d : dict) (w : world) :
  (forall k sch items,
     nested_list lib k sch ->
     dict_get k d = Some (JList items) ->
     exists repaired violations w',
       ManifestSchema.load_manifest lib false now network (JDict d) w =
         (Return (Some (JDict repaired), violations), w') /\
       dict_get k repaired =
         (if forallb (element_ok sch) items
          then Some (JList (map (element_loaded sch) items))
          else match filter (element_ok sch) items with
               | [] => None
               | passing => Some (JList passing)
               end) /\
       forall n item,
         nth_error items n = Some item -> element_ok sch item = false ->
         exists found at_field,
           violations = Some found /\
           errors_get (Name k) found = Some (MDict at_field) /\
           msgs_get (Index n) at_field <> None) /\
  (dict_get "authors" d =
     Some (JList [JDict [("name", JStr "A")]; JDict [("email", JStr "bad")]]) ->
   exists repaired found at_authors w',
     ManifestSchema.load_manifest lib false now network (JDict d) w =
       (Return (Some (JDict repaired), Some found), w') /\
     dict_get "authors" repaired = Some (JList [JDict [("name", JStr "A")]]) /\
     errors_get (Name "authors") found = Some (MDict at_authors) /\
     msgs_get (Index 1) at_authors <> None).
Proof.
  assert (General : forall k sch items,
     nested_list lib k sch ->
     dict_get k d = Some (JList items) ->
     exists repaired violations w',
       ManifestSchema.load_manifest lib false now network (JDict d) w =
         (Return (Some (JDict repaired), violations), w') /\
       dict_get k repaired =
         (if forallb (element_ok sch) items
          then Some (JList (map (element_loaded sch) items))
          else match filter (element_ok sch) items with
               | [] => None
               | passing => Some (JList passing)
               end) /\
       forall n item,
         nth_error items n = Some item -> element_ok sch item = false ->
         exists found at_field,
           violations = Some found /\
           errors_get (Name k) found = Some (MDict at_field) /\
           msgs_get (Index n) at_field <> None).
  { intros k sch items Hk Hitems.
    destruct (nested_list_outcome lib now network d w k sch Hk)
      as (Hf & Hplain & Hh).
    destruct (validated_reading lib now network d w) as (out & errs & Hv & Hread).
    destruct (Hread k) as [Hout Herr]. rewrite Hf, Hitems in Hout, Herr.
    pose proof (Nested_many_deserialize sch items Hplain Hh) as Hd.
    rewrite (load_manifest_unfold Hv).
    destruct (forallb (element_ok sch) items) eqn:E.
    - rewrite Hd in Hout, Herr. simpl in Hout, Herr.
      exists out. destruct (no_errors (MDict errs)); eexists; eexists;
        (split; [reflexivity|]); (split; [exact Hout|]);
        intros n item Hn Hbad; rewrite (forallb_nth _ _ _ _ E Hn) in Hbad;
        discriminate.
    - destruct Hd as (dd & Hd & Hidx). rewrite Hd in Hout, Herr.
      simpl in Hout, Herr.
      rewrite (entry_not_empty _ _ _ Herr).
      exists out, (Some (MDict errs)). eexists. split; [reflexivity|]. split.
      + rewrite Hout. now destruct (filter (element_ok sch) items).
      + intros n item Hn Hbad. exists (MDict errs), dd.
        split; [reflexivity|]. split; [exact Herr|]. now apply (Hidx n item). }
  split; [exact General|].
  intros Hauthors.
  destruct (General "authors" (AuthorSchema lib) _ (or_introl (conj eq_refl eq_refl))
              Hauthors) as (repaired & violations & w' & Hload & Hget & Hidx).
  destruct (example_authors lib) as [Hok Hbad].
  cbn [forallb filter] in Hget. rewrite Hok, Hbad in Hget. cbn in Hget.
  destruct (Hidx 1 (JDict [("email", JStr "bad")]) eq_refl Hbad)
    as (found & at_field & -> & Hfound & Hat).
  exists repaired, found, at_field, w'. auto.
Qed.

Lemma broken_elements_dropped_witness :
  exists repaired found at_authors w',
    ManifestSchema.load_manifest sample_lib false 0 (Raise ConnectionError)
      (JDict [("name", JStr "pkg"); ("version", JStr "1.0.0");
              ("authors", JList [JDict [("name", JStr "A")];
                                 JDict [("email", JStr "bad")]])])
      empty_world =
      (Return (Some (JDict repaired), Some found), w') /\
    dict_get "authors" repaired = Some (JList [JDict [("name", JStr "A")]]) /\
    errors_get (Name "authors") found = Some (MDict at_authors) /\
    msgs_get (Index 1) at_authors <> None.
Proof.
  apply (proj2 (broken_elements_dropped sample_lib 0 (Raise ConnectionError)
                  [("name", JStr "pkg"); ("version", JStr "1.0.0");
                   ("authors", JList [JDict [("name", JStr "A")];
                                      JDict [("email", JStr "bad")]])]
                  empty_world)).
  reflexivity.
Defined.

(** An item passes when it is a string of 1 to 50 characters that matches
    the pattern. *)
Lemma item_ok_constrained (re : string -> bool) (error : string) (item : json) :
  item_ok (constrained_item re error) item =
  match item with
  | JStr s => (1 <=? String.length s)%nat && (String.length s <=? 50)%nat && re s
  | _ => false
  end.
Proof.
  unfold item_ok, constrained_item, deserialize. destruct item; try reflexivity.
  unfold fields.Str.
  cbn [_deserialize fields.String_deserialize _validate validators run_validators].
  unfold validate.Length, validate.Regexp.
  destruct (Nat.ltb_spec (String.length s) 1), (Nat.ltb_spec 50 (String.length s)),
    (Nat.leb_spec 1 (String.length s)), (Nat.leb_spec (String.length s) 50);
    try lia; destruct (re s); reflexivity.
Qed.

Lemma string_list_outcome (lib : Library) (now : Z)
    (network : outcome RequestException license_list) (d : dict) (w : world)
    (k : string) (re : string -> bool) (error : string) :
  In (k, re, error) string_lists ->
  field_outcome lib now network d w k =
  Some (deserialize (StrictListField_field (constrained_item re error) false)
          (dict_get k d)).
Proof.
  intros [H | [H | [H | [H | []]]]]; injection H as <- <- <-; reflexivity.
Qed.




(** ** Unknown keys and declared fields *)












(** * Further properties of the schema *)

(** ** [StrictListField] under marshmallow 3 *)

(** X1. The handler of [StrictListField._deserialize] filters [exc.data], which
    [List._deserialize] never sets: the field behaves as [fields.List]
    does, for every inner field and every value. *)
Theorem StrictListField_is_List (inner : Field) (value : json) :
  StrictListField._deserialize inner value = fields.List_deserialize inner value.
Proof.
  unfold StrictListField._deserialize, fields.List_deserialize.
  destruct value; try reflexivity.
  destruct (fields.List_items inner 0 items) as [result [|p errors]]; reflexivity.
Qed.

(** ** Results of [load_manifest], field by field *)

Lemma load_manifest_reported (lib : Library) (strict : bool) (now : Z)
    (network : outcome RequestException license_list) (d : dict) (w : world)
    (k : string) :
  reported (fst (ManifestSchema.load_manifest lib strict now network (JDict d) w)) k =
  match field_outcome lib now network d w k with
  | Some r => raised r
  | None => None
  end.
Proof.
  destruct (validated_reading lib now network d w) as (out & errs & Hv & Hread).
  destruct (Hread k) as [_ Herr]. rewrite <- Herr.
  rewrite (load_manifest_unfold Hv).
  destruct (no_errors (MDict errs)) eqn:E.
  - apply no_errors_nil in E. subst errs. reflexivity.
  - destruct strict; reflexivity.
Qed.

Lemma load_manifest_returned (lib : Library) (now : Z)
    (network : outcome RequestException license_list) (d : dict) (w : world)
    (k : string) :
  returned_field
    (fst (ManifestSchema.load_manifest lib false now network (JDict d) w)) k =
  match field_outcome lib now network d w k with
  | Some r => kept r
  | None => None
  end.
Proof.
  destruct (validated_reading lib now network d w) as (out & errs & Hv & Hread).
  destruct (Hread k) as [Hout _]. rewrite <- Hout.
  rewrite (load_manifest_unfold Hv).
  destruct (no_errors (MDict errs)); reflexivity.
Qed.

Lemma load_manifest_world (lib : Library) (strict : bool) (now : Z)
    (network : outcome RequestException license_list) (d : dict) (w : world) :
  snd (ManifestSchema.load_manifest lib strict now network (JDict d) w) =
  world_after lib now network d w.
Proof.
  destruct (validated_reading lib now network d w) as (out & errs & Hv & _).
  rewrite (load_manifest_unfold Hv).
  destruct (no_errors (MDict errs)); [|destruct strict]; reflexivity.
Qed.

(** A string field with the one validator [Length(min=1, max=...)]. *)
Lemma Str_Length_deserialize (req : bool) (max : nat) (s : string) :
  deserialize (fields.Str req [validate.Length 1 max]) (Some (JStr s)) =
  if within max s then Return (Some (JStr s))
  else Raise (mkValidationError (length_violation max) None None).
Proof.
  unfold deserialize, within, length_violation, fields.Str.
  cbn [_deserialize fields.String_deserialize _validate validators run_validators].
  unfold validate.Length, ValidationError_text.
  destruct (Nat.ltb_spec (String.length s) 1), (Nat.ltb_spec max (String.length s)),
    (Nat.leb_spec 1 (String.length s)), (Nat.leb_spec (String.length s) max);
    try lia; reflexivity.
Qed.

Lemma Str_not_a_string (req : bool) (vs : list validate.validator) (v : json) :
  is_string_value v = false ->
  deserialize (fields.Str req vs) (Some v) =
  Raise (ValidationError_text
           (match v with
            | JNull => "Field may not be null."
            | _ => "Not a valid string."
            end)).
Proof. destruct v; try reflexivity. discriminate. Qed.

(** ** Scalar fields *)

Lemma version_outcome (lib : Library) (now : Z)
    (network : outcome RequestException license_list) (d : dict) (w : world)
    (s : string) :
  dict_get "version" d = Some (JStr s) ->
  field_outcome lib now network d w "version" =
  Some (if within 50 s
        then match ManifestSchema.validate_version lib s with
             | Return _ => Return (Some (JStr s))
             | Raise err => Raise err
             end
        else Raise (mkValidationError (length_violation 50) None None)).
Proof.
  intros H. unfold field_outcome, hooked.
  cbn [field_of ManifestSchema.declared_fields String.eqb Ascii.eqb Bool.eqb].
  rewrite H, Str_Length_deserialize. destruct (within 50 s); [|reflexivity].
  cbn [fst]. now destruct (ManifestSchema.validate_version lib s).
Qed.

(** X2. A version given as a string has at most one violation, in both modes:
    the length violation when it is not 1 to 50 characters long, and only
    otherwise the semantic-versioning one of the hook; it stays in the
    repaired document exactly when it has none. *)
Theorem version_report (lib : Library) (strict : bool) (now : Z)
    (network : outcome RequestException license_list) (d : dict) (w : world)
    (s : string) :
  dict_get "version" d = Some (JStr s) ->
  reported (fst (ManifestSchema.load_manifest lib strict now network (JDict d) w))
    "version" =
    (if within 50 s
     then if ManifestSchema.contains_dot s && coerce_accepts lib s then None
          else Some (MList ["Invalid semantic versioning format, see https://semver.org/"])
     else Some (length_violation 50)) /\
  returned_field
    (fst (ManifestSchema.load_manifest lib false now network (JDict d) w))
    "version" =
    (if within 50 s && (ManifestSchema.contains_dot s && coerce_accepts lib s)
     then Some (JStr s) else None).
Proof.
  intros H. rewrite load_manifest_reported, load_manifest_returned.
  rewrite (version_outcome lib now network d w s H).
  unfold ManifestSchema.validate_version.
  destruct (within 50 s); [|split; reflexivity].
  destruct (ManifestSchema.contains_dot s && coerce_accepts lib s);
    split; reflexivity.
Qed.

Lemma version_report_witness :
  reported (fst (ManifestSchema.load_manifest sample_lib true 0 (Raise Timeout)
                   (JDict [("name", JStr "pkg"); ("version", JStr "1")])
                   empty_world)) "version" =
    Some (MList ["Invalid semantic versioning format, see https://semver.org/"]) /\
  returned_field
    (fst (ManifestSchema.load_manifest sample_lib false 0 (Raise Timeout)
            (JDict [("name", JStr "pkg"); ("version", JStr "1")]) empty_world))
    "version" = None.
Proof.
  apply (version_report sample_lib true 0 (Raise Timeout)
           [("name", JStr "pkg"); ("version", JStr "1")] empty_world "1").
  reflexivity.
Defined.

Lemma license_outcome (lib : Library) (now : Z)
    (network : outcome RequestException license_list) (d : dict) (w : world)
    (s : string) :
  dict_get "license" d = Some (JStr s) ->
  field_outcome lib now network d w "license" =
    Some (if within 255 s
          then match stored (fst (ManifestSchema.validate_license now network s w)) with
               | Return _ => Return (Some (JStr s))
               | Raise err => Raise err
               end
          else Raise (mkValidationError (length_violation 255) None None)) /\
  world_after lib now network d w =
    (if within 255 s
     then snd (ManifestSchema.validate_license now network s w)
     else w).
Proof.
  intros H. unfold field_outcome, world_after, hooked.
  cbn [field_of ManifestSchema.declared_fields String.eqb Ascii.eqb Bool.eqb].
  rewrite H, Str_Length_deserialize. destruct (within 255 s); [|split; reflexivity].
  destruct (ManifestSchema.validate_license now network s w) as [got w1].
  split; reflexivity.
Qed.

(** X3. A license given as a string is reported, in both modes, with the
    length violation when it is not 1 to 255 characters long, and
    otherwise with what [validate_license] raises for it, if it raises. *)
Theorem license_report (lib : Library) (strict : bool) (now : Z)
    (network : outcome RequestException license_list) (d : dict) (w : world)
    (s : string) :
  dict_get "license" d = Some (JStr s) ->
  reported (fst (ManifestSchema.load_manifest lib strict now network (JDict d) w))
    "license" =
  (if within 255 s
   then raised (stored (fst (ManifestSchema.validate_license now network s w)))
   else Some (length_violation 255)).
Proof.
  intros H. rewrite load_manifest_reported.
  destruct (license_outcome lib now network d w s H) as [-> _].
  destruct (within 255 s); [|reflexivity].
  destruct (stored (fst (ManifestSchema.validate_license now network s w)));
    reflexivity.
Qed.

Lemma license_report_witness :
  reported (fst (ManifestSchema.load_manifest sample_lib false 0
                   (Return sample_registry)
                   (JDict [("name", JStr "pkg"); ("version", JStr "1.0.0");
                           ("license", JStr "")]) empty_world)) "license" =
  Some (length_violation 255).
Proof.
  apply (license_report sample_lib false 0 (Return sample_registry)
           [("name", JStr "pkg"); ("version", JStr "1.0.0"); ("license", JStr "")]
           empty_world "").
  reflexivity.
Defined.

(** X4. The registry is consulted only for a license that is a string of 1 to
    255 characters: for every other document, in both modes, a validation
    call leaves the cache and the request count as they were. *)
Theorem registry_consulted_only_for_a_license (lib : Library) (strict : bool)
    (now : Z) (network : outcome RequestException license_list) (d : dict)
    (w : world) :
  snd (ManifestSchema.load_manifest lib strict now network (JDict d) w) =
  match dict_get "license" d with
  | Some (JStr s) =>
      if within 255 s
      then snd (ManifestSchema.validate_license now network s w)
      else w
  | _ => w
  end.
Proof.
  rewrite load_manifest_world.
  destruct (dict_get "license" d) as [v|] eqn:H.
  - destruct v; try (unfold world_after, hooked; rewrite H; reflexivity).
    now destruct (license_outcome lib now network d w s H) as [_ ->].
  - unfold world_after, hooked. rewrite H. reflexivity.
Qed.

Lemma plain_outcome (lib : Library) (now : Z)
    (network : outcome RequestException license_list) (d : dict) (w : world)
    (k : string) (req : bool) (max : nat) :
  In (k, req, max) [("name", true, 100); ("description", false, 1000);
                    ("title", false, 100)] ->
  field_outcome lib now network d w k =
  Some (deserialize (fields.Str req [validate.Length 1 max]) (dict_get k d)).
Proof.
  intros [H | [H | [H | []]]]; injection H as <- <- <-; reflexivity.
Qed.

(** X5. [name], [description] and [title], given as a string: the string is
    kept when it is 1 to [max] characters long (100, 1000 and 100), and
    otherwise dropped with the length violation; this is also what the
    empty string gets, for the required [name] too. *)
Theorem plain_string_report (lib : Library) (strict : bool) (now : Z)
    (network : outcome RequestException license_list) (d : dict) (w : world)
    (k : string) (req : bool) (max : nat) (s : string) :
  In (k, req, max) [("name", true, 100); ("description", false, 1000);
                    ("title", false, 100)] ->
  dict_get k d = Some (JStr s) ->
  reported (fst (ManifestSchema.load_manifest lib strict now network (JDict d) w)) k =
    (if within max s then None else Some (length_violation max)) /\
  returned_field
    (fst (ManifestSchema.load_manifest lib false now network (JDict d) w)) k =
    (if within max s then Some (JStr s) else None).
Proof.
  intros Hk H. rewrite load_manifest_reported, load_manifest_returned.
  rewrite (plain_outcome lib now network d w k req max Hk), H.
  rewrite Str_Length_deserialize. destruct (within max s); split; reflexivity.
Qed.

Lemma plain_string_report_witness :
  reported (fst (ManifestSchema.load_manifest sample_lib true 0 (Raise Timeout)
                   (JDict [("name", JStr ""); ("version", JStr "1.0.0")])
                   empty_world)) "name" =
    Some (length_violation 100) /\
  returned_field
    (fst (ManifestSchema.load_manifest sample_lib false 0 (Raise Timeout)
            (JDict [("name", JStr ""); ("version", JStr "1.0.0")]) empty_world))
    "name" = None.
Proof.
  apply (plain_string_report sample_lib true 0 (Raise Timeout)
           [("name", JStr ""); ("version", JStr "1.0.0")] empty_world
           "name" true 100 "").
  - left. reflexivity.
  - reflexivity.
Defined.

(** X6. A homepage given as a string is checked for being a URL and for its
    length, and both violations are reported together, the URL one
    first. *)
Theorem homepage_report (lib : Library) (strict : bool) (now : Z)
    (network : outcome RequestException license_list) (d : dict) (w : world)
    (s : string) :
  dict_get "homepage" d = Some (JStr s) ->
  reported (fst (ManifestSchema.load_manifest lib strict now network (JDict d) w))
    "homepage" =
  match url_well_formed lib s, within 255 s with
  | true, true => None
  | false, true => Some (MList ["Not a valid URL."])
  | true, false => Some (length_violation 255)
  | false, false =>
      Some (MList ["Not a valid URL."; "Length must be between 1 and 255."])
  end.
Proof.
  intros H. rewrite load_manifest_reported.
  unfold field_outcome.
  cbn [field_of ManifestSchema.declared_fields String.eqb Ascii.eqb Bool.eqb].
  rewrite H. unfold deserialize, within, fields.Url.
  cbn [_deserialize fields.String_deserialize _validate validators run_validators].
  unfold validate.URL, validate.Length.
  destruct (url_well_formed lib s);
    destruct (Nat.ltb_spec (String.length s) 1),
      (Nat.ltb_spec 255 (String.length s)),
      (Nat.leb_spec 1 (String.length s)), (Nat.leb_spec (String.length s) 255);
    try lia; reflexivity.
Qed.

Lemma homepage_report_witness :
  reported (fst (ManifestSchema.load_manifest sample_lib false 0 (Raise Timeout)
                   (JDict [("homepage", JStr "")]) empty_world)) "homepage" =
  Some (MList ["Not a valid URL."; "Length must be between 1 and 255."]).
Proof.
  apply (homepage_report sample_lib false 0 (Raise Timeout)
           [("homepage", JStr "")] empty_world "").
  reflexivity.
Defined.

(** X27. A homepage that is no string is left out and reported with the
    text of its own class, "Not a valid URL." (with "Field may not be
    null." for null), not with the text of a plain string field; an
    address that is no string gets "Not a valid email address." in the same
    way. *)
Theorem homepage_not_a_string (lib : Library) (strict : bool) (now : Z)
    (network : outcome RequestException license_list) (d : dict) (w : world)
    (v : json) :
  dict_get "homepage" d = Some v ->
  is_string_value v = false ->
  reported (fst (ManifestSchema.load_manifest lib strict now network (JDict d) w))
    "homepage" =
    Some (MList [match v with
                 | JNull => "Field may not be null."
                 | _ => "Not a valid URL."
                 end]) /\
  returned_field
    (fst (ManifestSchema.load_manifest lib false now network (JDict d) w))
    "homepage" = None /\
  deserialize (fields.Email (email_well_formed lib) [validate.Length 1 50])
    (Some v) =
    Raise (ValidationError_text
             match v with
             | JNull => "Field may not be null."
             | _ => "Not a valid email address."
             end).
Proof.
  intros H Hv. rewrite load_manifest_reported, load_manifest_returned.
  unfold field_outcome.
  cbn [field_of ManifestSchema.declared_fields String.eqb Ascii.eqb Bool.eqb].
  rewrite H. destruct v; try discriminate Hv; repeat split; reflexivity.
Qed.

Lemma homepage_not_a_string_witness :
  reported (fst (ManifestSchema.load_manifest sample_lib true 0 (Raise Timeout)
                   (JDict [("homepage", JNum 1)]) empty_world)) "homepage" =
    Some (MList ["Not a valid URL."]) /\
  returned_field
    (fst (ManifestSchema.load_manifest sample_lib false 0 (Raise Timeout)
            (JDict [("homepage", JNum 1)]) empty_world)) "homepage" = None /\
  deserialize
    (fields.Email (email_well_formed sample_lib) [validate.Length 1 50])
    (Some (JNum 1)) =
    Raise (ValidationError_text "Not a valid email address.").
Proof.
  apply (homepage_not_a_string sample_lib true 0 (Raise Timeout)
           [("homepage", JNum 1)] empty_world (JNum 1)); reflexivity.
Defined.

(** ** Inputs that are not a dictionary, and what a clean result holds *)

(** X7. A manifest that is not a dictionary (a list, a string, a number, null)
    has the one violation "Invalid input type." under [_schema]: without
    [strict] the call returns the empty document with it, with [strict] it
    raises; no hook runs and the world is as it was. *)
Theorem not_a_dictionary (lib : Library) (now : Z)
    (network : outcome RequestException license_list) (manifest : json)
    (w : world) :
  is_dict_value manifest = false ->
  ManifestSchema.load_manifest lib false now network manifest w =
    (Return (Some (JDict []),
             Some (MDict [(Name SCHEMA, MList ["Invalid input type."])])), w) /\
  ManifestSchema.load_manifest lib true now network manifest w =
    (Raise (ManifestValidationError
              (mkValidationError
                 (MDict [(Name SCHEMA, MList ["Invalid input type."])])
                 (Some manifest) (Some (JDict [])))
              manifest), w).
Proof.
  intros H. destruct manifest; try discriminate; split; reflexivity.
Qed.

Lemma not_a_dictionary_witness :
  ManifestSchema.load_manifest sample_lib false 0 (Raise Timeout)
    (JList [JDict [("name", JStr "pkg")]]) empty_world =
    (Return (Some (JDict []),
             Some (MDict [(Name SCHEMA, MList ["Invalid input type."])])),
     empty_world) /\
  ManifestSchema.load_manifest sample_lib true 0 (Raise Timeout)
    (JList [JDict [("name", JStr "pkg")]]) empty_world =
    (Raise (ManifestValidationError
              (mkValidationError
                 (MDict [(Name SCHEMA, MList ["Invalid input type."])])
                 (Some (JList [JDict [("name", JStr "pkg")]])) (Some (JDict [])))
              (JList [JDict [("name", JStr "pkg")]])), empty_world).
Proof.
  apply (not_a_dictionary sample_lib 0 (Raise Timeout)
           (JList [JDict [("name", JStr "pkg")]]) empty_world).
  reflexivity.
Defined.

(** X8. When [load_manifest] returns without messages, in either mode, the
    document it returns has a name of 1 to 100 characters and a version of
    1 to 50 characters that contains a dot and that [Version.coerce]
    accepts, both as they were given. *)
Theorem clean_result_has_name_and_version (lib : Library) (strict : bool)
    (now : Z) (network : outcome RequestException license_list)
    (manifest : json) (w w' : world) (data : option json) :
  ManifestSchema.load_manifest lib strict now network manifest w =
    (Return (data, None), w') ->
  exists d document name version,
    manifest = JDict d /\ data = Some (JDict document) /\
    dict_get "name" d = Some (JStr name) /\
    dict_get "name" document = Some (JStr name) /\
    within 100 name = true /\
    dict_get "version" d = Some (JStr version) /\
    dict_get "version" document = Some (JStr version) /\
    within 50 version = true /\
    ManifestSchema.contains_dot version = true /\
    coerce_accepts lib version = true.
Proof.
  intros Hload.
  assert (Hd : is_dict_value manifest = true).
  { destruct manifest; try reflexivity; destruct strict; discriminate Hload. }
  destruct manifest as [|b|n|s|items|d]; try discriminate. clear Hd.
  destruct (validated_reading lib now network d w) as (out & errs & Hv & Hread).
  rewrite (load_manifest_unfold Hv) in Hload.
  destruct (no_errors (MDict errs)) eqn:E.
  2:{ destruct strict; discriminate. }
  injection Hload as <- _. apply no_errors_nil in E. subst errs.
  destruct (Hread "name") as [Hn_out Hn_err].
  destruct (Hread "version") as [Hv_out Hv_err].
  cbn [msgs_get] in Hn_err, Hv_err.
  rewrite (plain_outcome lib now network d w "name" true 100) in Hn_out, Hn_err
    by (left; reflexivity).
  destruct (Str_deserialize_cases true [validate.Length 1 100] (dict_get "name" d))
    as [[Hraw D] | [(name & Hname & D) | (e & D & _)]].
  { rewrite Hraw in D. discriminate. }
  2:{ rewrite D in Hn_err. discriminate. }
  rewrite Hname in *.
  rewrite Str_Length_deserialize in Hn_out, Hn_err.
  destruct (within 100 name) eqn:Wn; [|discriminate].
  destruct (dict_get "version" d) as [v|] eqn:Hversion.
  2:{ rewrite (required_outcome lib now network d w "version") in Hv_err
        by auto. discriminate. }
  destruct v as [| | |version| |];
    try (unfold field_outcome, hooked in Hv_err;
         cbn [field_of ManifestSchema.declared_fields String.eqb Ascii.eqb Bool.eqb]
           in Hv_err;
         rewrite Hversion in Hv_err; discriminate).
  rewrite (version_outcome lib now network d w version Hversion) in Hv_out, Hv_err.
  destruct (within 50 version) eqn:Wv; [|discriminate].
  unfold ManifestSchema.validate_version in Hv_out, Hv_err.
  destruct (ManifestSchema.contains_dot version && coerce_accepts lib version)
    eqn:Ok; [|discriminate].
  apply andb_true_iff in Ok as [Hdot Hco].
  exists d, out, name, version. repeat split; auto.
Qed.

Lemma clean_result_has_name_and_version_witness :
  exists d document name version,
    JDict [("version", JStr "1.2"); ("name", JStr "pkg"); ("extra", JNull)] =
      JDict d /\
    Some (JDict [("name", JStr "pkg"); ("version", JStr "1.2")]) =
      Some (JDict document) /\
    dict_get "name" d = Some (JStr name) /\
    dict_get "name" document = Some (JStr name) /\
    within 100 name = true /\
    dict_get "version" d = Some (JStr version) /\
    dict_get "version" document = Some (JStr version) /\
    within 50 version = true /\
    ManifestSchema.contains_dot version = true /\
    coerce_accepts sample_lib version = true.
Proof.
  apply (clean_result_has_name_and_version sample_lib true 0 (Raise Timeout)
           (JDict [("version", JStr "1.2"); ("name", JStr "pkg"); ("extra", JNull)])
           empty_world empty_world).
  reflexivity.
Defined.

(** ** Lists of strings, in full *)

(** The errors of [List._deserialize] are keyed by the position of the
    item in the given list. *)
Lemma List_items_errors (inner : Field) (items : list json) :
  forall idx,
    (forall j, j < idx ->
       msgs_get (Index j) (snd (fields.List_items inner idx items)) = None) /\
    (forall n item, nth_error items n = Some item ->
       msgs_get (Index (idx + n)) (snd (fields.List_items inner idx items)) =
       raised (deserialize inner (Some item))).
Proof.
  induction items as [|x items IH]; intros idx.
  - split; [reflexivity|]. intros [|n] item H; discriminate.
  - cbn [fields.List_items]. specialize (IH (S idx)).
    destruct (fields.List_items inner (S idx) items) as [result errors].
    destruct IH as [IH1 IH2]. simpl snd in *.
    assert (Hskip : forall j m, j <> idx ->
              msgs_get (Index j) ((Index idx, m) :: errors) =
              msgs_get (Index j) errors).
    { intros j m Hj. simpl. apply Nat.eqb_neq in Hj. now rewrite Hj. }
    split.
    + intros j Hj.
      destruct (deserialize inner (Some x)) as [[v|]|e]; simpl snd;
        rewrite ?Hskip by lia; apply IH1; lia.
    + intros [|n] item Hn.
      * simpl in Hn. injection Hn as <-. rewrite Nat.add_0_r.
        destruct (deserialize inner (Some x)) as [[v|]|e]; simpl snd.
        -- apply IH1. lia.
        -- apply IH1. lia.
        -- simpl. now rewrite Nat.eqb_refl.
      * simpl in Hn. replace (idx + S n) with (S idx + n) by lia.
        destruct (deserialize inner (Some x)) as [[v|]|e]; simpl snd;
          rewrite ?Hskip by lia; now apply IH2.
Qed.

Lemma StrictListField_raised (inner : Field) (req : bool) (items : list json) :
  raised (deserialize (StrictListField_field inner req) (Some (JList items))) =
  match snd (fields.List_items inner 0 items) with
  | [] => None
  | errors => Some (MDict errors)
  end.
Proof.
  unfold deserialize, StrictListField_field.
  cbn [_deserialize required validators].
  unfold StrictListField._deserialize, fields.List_deserialize.
  destruct (fields.List_items inner 0 items) as [result [|p errors]]; reflexivity.
Qed.

(** X9. The repaired value of [keywords], [platforms], [frameworks] and
    [system], for every input: a given list is replaced by the list of its
    items that pass, except that a non-empty list of which no item passes
    is left out like a value that is no list; the empty list stays. *)
Theorem string_list_returned (lib : Library) (now : Z)
    (network : outcome RequestException license_list) (d : dict) (w : world)
    (k : string) (re : string -> bool) (error : string) :
  In (k, re, error) string_lists ->
  returned_field
    (fst (ManifestSchema.load_manifest lib false now network (JDict d) w)) k =
  match dict_get k d with
  | Some (JList items) =>
      match filter (item_ok (constrained_item re error)) items, items with
      | [], [] => Some (JList [])
      | [], _ :: _ => None
      | passing, _ => Some (JList passing)
      end
  | _ => None
  end.
Proof.
  intros Hk. rewrite load_manifest_returned.
  rewrite (string_list_outcome lib now network d w k re error Hk).
  destruct (dict_get k d) as [[| | | |items|]|]; try reflexivity.
  pose proof (StrictListField_deserialize (constrained_item re error) false items
                (fun item => Str_deserialize_item _ _ item)) as Hd.
  destruct (forallb (item_ok (constrained_item re error)) items) eqn:E.
  - rewrite Hd, (filter_all _ _ E). destruct items; reflexivity.
  - destruct Hd as (dd & -> & _). simpl.
    destruct (filter (item_ok (constrained_item re error)) items) eqn:F.
    + destruct items; [discriminate | reflexivity].
    + destruct items; [discriminate | reflexivity].
Qed.

Lemma string_list_returned_witness :
  returned_field
    (fst (ManifestSchema.load_manifest sample_lib false 0 (Raise Timeout)
            (JDict [("keywords", JList [JStr "Invalid Caps!"])]) empty_world))
    "keywords" = None.
Proof.
  apply (string_list_returned sample_lib 0 (Raise Timeout)
           [("keywords", JList [JStr "Invalid Caps!"])] empty_world
           "keywords" keyword_re "Only [a-z0-9-+. ] chars are allowed").
  left. reflexivity.
Defined.

(** X10. The violations of such a list are keyed by the position of each
    failing item in the given list, and hold what the item's own
    validation raised; items that pass have no entry. *)
Theorem string_list_violations (lib : Library) (strict : bool) (now : Z)
    (network : outcome RequestException license_list) (d : dict) (w : world)
    (k : string) (re : string -> bool) (error : string) (items : list json) :
  In (k, re, error) string_lists ->
  dict_get k d = Some (JList items) ->
  exists at_field,
    reported (fst (ManifestSchema.load_manifest lib strict now network (JDict d) w))
      k =
      (if forallb (item_ok (constrained_item re error)) items then None
       else Some (MDict at_field)) /\
    forall n item,
      nth_error items n = Some item ->
      msgs_get (Index n) at_field =
      raised (deserialize (constrained_item re error) (Some item)).
Proof.
  intros Hk Hitems.
  exists (snd (fields.List_items (constrained_item re error) 0 items)).
  split.
  - rewrite load_manifest_reported.
    rewrite (string_list_outcome lib now network d w k re error Hk), Hitems.
    rewrite StrictListField_raised.
    destruct (List_items_eq (constrained_item re error) items
                (fun item => Str_deserialize_item _ _ item) 0) as (_ & H2 & H3).
    destruct (forallb (item_ok (constrained_item re error)) items) eqn:E.
    + now rewrite (H2 eq_refl).
    + destruct (snd (fields.List_items (constrained_item re error) 0 items))
        eqn:S; [|reflexivity].
      exfalso.
      assert (Hex : exists n item, nth_error items n = Some item /\
                      item_ok (constrained_item re error) item = false).
      { clear - E. induction items as [|x items IH]; simpl in E; [discriminate|].
        destruct (item_ok (constrained_item re error) x) eqn:Ex.
        - destruct (IH E) as (n & item & Hn & Hi). exists (S n), item. auto.
        - exists 0, x. auto. }
      destruct Hex as (n & item & Hn & Hi). now apply (H3 n item Hn Hi).
  - intros n item Hn.
    exact (proj2 (List_items_errors (constrained_item re error) items 0) n item Hn).
Qed.

Lemma string_list_violations_witness :
  exists at_field,
    reported (fst (ManifestSchema.load_manifest sample_lib true 0 (Raise Timeout)
                     (JDict [("name", JStr "pkg"); ("version", JStr "1.0.0");
                             ("system", JList [JStr "linux"; JStr "Mac OS"])])
                     empty_world)) "system" =
      (if forallb (item_ok (constrained_item system_re
                              "Only [a-z0-9-_] chars are allowed"))
            [JStr "linux"; JStr "Mac OS"]
       then None else Some (MDict at_field)) /\
    forall n item,
      nth_error [JStr "linux"; JStr "Mac OS"] n = Some item ->
      msgs_get (Index n) at_field =
      raised (deserialize (constrained_item system_re
                             "Only [a-z0-9-_] chars are allowed") (Some item)).
Proof.
  apply (string_list_violations sample_lib true 0 (Raise Timeout)
           [("name", JStr "pkg"); ("version", JStr "1.0.0");
            ("system", JList [JStr "linux"; JStr "Mac OS"])] empty_world
           "system" system_re "Only [a-z0-9-_] chars are allowed").
  - right. right. right. left. reflexivity.
  - reflexivity.
Defined.

(** X11. A value of such a field that is not a list is left out and reported
    as "Not a valid list." (as "Field may not be null." for null). *)
Theorem string_list_not_a_list (lib : Library) (strict : bool) (now : Z)
    (network : outcome RequestException license_list) (d : dict) (w : world)
    (k : string) (re : string -> bool) (error : string) (v : json) :
  In (k, re, error) string_lists ->
  dict_get k d = Some v ->
  is_list_value v = false ->
  reported (fst (ManifestSchema.load_manifest lib strict now network (JDict d) w)) k =
    Some (MList [match v with
                 | JNull => "Field may not be null."
                 | _ => "Not a valid list."
                 end]) /\
  returned_field
    (fst (ManifestSchema.load_manifest lib false now network (JDict d) w)) k = None.
Proof.
  intros Hk Hv Hl. rewrite load_manifest_reported, load_manifest_returned.
  rewrite (string_list_outcome lib now network d w k re error Hk), Hv.
  destruct v; try discriminate; split; reflexivity.
Qed.

Lemma string_list_not_a_list_witness :
  reported (fst (ManifestSchema.load_manifest sample_lib false 0 (Raise Timeout)
                   (JDict [("keywords", JStr "a,b")]) empty_world)) "keywords" =
    Some (MList ["Not a valid list."]) /\
  returned_field
    (fst (ManifestSchema.load_manifest sample_lib false 0 (Raise Timeout)
            (JDict [("keywords", JStr "a,b")]) empty_world)) "keywords" = None.
Proof.
  apply (string_list_not_a_list sample_lib false 0 (Raise Timeout)
           [("keywords", JStr "a,b")] empty_world
           "keywords" keyword_re "Only [a-z0-9-+. ] chars are allowed" (JStr "a,b")).
  - left. reflexivity.
  - reflexivity.
  - reflexivity.
Defined.

(** ** Nested objects: [repository] and [export] *)

Lemma json_eq_null (v : json) : v = JNull \/ v <> JNull.
Proof. destruct v; [now left | right; discriminate ..]. Qed.

Lemma value_of_dict (fs : list (string * Field)) (unknown : unknown_policy)
    (v : json) :
  exists c, value_of fs unknown v = JDict c.
Proof. destruct v, unknown; simpl; eexists; reflexivity. Qed.

Lemma do_load_single (sch : Schema) (v : json) :
  many sch = false ->
  _do_load sch v =
  raise_errors (fun e => e) (handle_error sch false) v
    (value_of (load_fields sch) (unknown sch) v)
    (apply_stores None (stores_of (load_fields sch) (unknown sch) v) (MDict [])).
Proof.
  intros Hm. unfold _do_load, Schema_deserialize. rewrite Hm.
  now rewrite deserialize_one_eq.
Qed.

(** A field [fields.Nested(schema_class)] on one object. *)
Lemma Nested_single_deserialize (sch : Schema) (v : json) :
  plain_names (load_fields sch) = true ->
  v <> JNull ->
  deserialize (Nested_field false sch false) (Some v) =
  if element_ok sch v then Return (Some (element_loaded sch v))
  else
    match handle_error sch false
            (mkValidationError
               (apply_stores None (stores_of (load_fields sch) (unknown sch) v)
                  (MDict []))
               (Some v) (Some (element_loaded sch v))) v with
    | Raise error => Raise (mkValidationError (messages error) None (valid_data error))
    | Return _ =>
        Raise (mkValidationError
                 (apply_stores None (stores_of (load_fields sch) (unknown sch) v)
                    (MDict []))
                 None (Some (element_loaded sch v)))
    end.
Proof.
  intros Hplain Hnull.
  rewrite element_ok_no_stores by exact Hplain. rewrite element_loaded_eq.
  unfold no_stores.
  pose proof (apply_stores_no_errors (stores_of (load_fields sch) (unknown sch) v)
                None (stores_of_wraps _ _ v Hplain)) as Hne.
  unfold deserialize, Nested_field. cbn [_deserialize required validators].
  unfold Nested._deserialize. cbn [many andb].
  rewrite do_load_single by reflexivity. cbn [load_fields unknown handle_error].
  unfold raise_errors. rewrite Hne.
  destruct (value_of_dict (load_fields sch) (unknown sch) v) as [c ->].
  destruct v; try contradiction;
    (destruct (stores_of (load_fields sch) (unknown sch) _);
     [reflexivity | destruct (handle_error sch false _ _); reflexivity]).
Qed.

(** X12. A repository is kept whole or not at all: the repaired document has
    the loaded repository when the given one passes [RepositorySchema],
    and no repository otherwise; it is reported exactly when it does not
    pass. *)
Theorem repository_all_or_nothing (lib : Library) (strict : bool) (now : Z)
    (network : outcome RequestException license_list) (d : dict) (w : world)
    (v : json) :
  dict_get "repository" d = Some v ->
  returned_field
    (fst (ManifestSchema.load_manifest lib false now network (JDict d) w))
    "repository" =
    (if element_ok RepositorySchema v
     then Some (element_loaded RepositorySchema v) else None) /\
  (reported (fst (ManifestSchema.load_manifest lib strict now network (JDict d) w))
     "repository" = None <->
   element_ok RepositorySchema v = true).
Proof.
  intros Hv. rewrite load_manifest_reported, load_manifest_returned.
  unfold field_outcome.
  cbn [field_of ManifestSchema.declared_fields String.eqb Ascii.eqb Bool.eqb].
  rewrite Hv.
  destruct (json_eq_null v) as [-> | Hnull].
  - split; [reflexivity|]. split; discriminate.
  - rewrite (Nested_single_deserialize RepositorySchema v eq_refl Hnull).
    destruct (element_ok RepositorySchema v).
    + split; [reflexivity|]. split; reflexivity.
    + cbn [handle_error RepositorySchema StrictSchema.handle_error
           messages valid_data kept raised].
      split; [reflexivity|]. split; discriminate.
Qed.

(** ** What the nested schemas accept *)

Lemma field_stores_nil (fs : list (string * Field)) (d : dict) :
  match field_stores fs d with [] => true | _ => false end =
  forallb (fun p => succeeds (deserialize (snd p) (dict_get (fst p) d))) fs.
Proof.
  induction fs as [|[n f] fs IH]; [reflexivity|].
  cbn [field_stores forallb fst snd].
  destruct (deserialize f (dict_get n d)); [exact IH | reflexivity].
Qed.

Lemma nodup_nil (l : list string) : nodup string_dec l = [] -> l = [].
Proof.
  induction l as [|x l IH]; [reflexivity|]. simpl.
  destruct (in_dec string_dec x l) as [Hin|]; [|discriminate].
  intros H. rewrite (IH H) in Hin. contradiction.
Qed.

Lemma unknown_keys_nil (fs : list (string * Field)) (d : dict) :
  match unknown_keys fs d with [] => true | _ => false end =
  forallb (declared fs) (map fst d).
Proof.
  unfold unknown_keys.
  induction (map fst d) as [|k keys IH]; [reflexivity|].
  cbn [filter forallb]. destruct (declared fs k) eqn:E; cbn [negb andb].
  - exact IH.
  - destruct (nodup string_dec (k :: _)) eqn:N; [|reflexivity].
    apply nodup_nil in N. discriminate.
Qed.

(** A schema with [unknown = RAISE] lets a dictionary pass exactly when
    each declared field accepts what is given under its name and no other
    key is given. *)
Lemma no_stores_RAISE (fs : list (string * Field)) (d : dict) :
  no_stores fs RAISE (JDict d) =
  forallb (fun p => succeeds (deserialize (snd p) (dict_get (fst p) d))) fs &&
  forallb (declared fs) (map fst d).
Proof.
  unfold no_stores, stores_of.
  rewrite <- field_stores_nil, <- unknown_keys_nil.
  destruct (field_stores fs d); [|reflexivity].
  cbn [app andb]. destruct (unknown_keys fs d); reflexivity.
Qed.

Lemma accepts_Length (req : bool) (max : nat) (raw : option json) :
  succeeds (deserialize (fields.Str req [validate.Length 1 max]) raw) =
  match raw with
  | None => negb req
  | Some (JStr s) => within max s
  | Some _ => false
  end.
Proof.
  destruct raw as [[| | |s| |]|]; try reflexivity.
  - rewrite Str_Length_deserialize. now destruct (within max s).
  - unfold deserialize. simpl. now destruct req.
Qed.

Lemma accepts_OneOf (req : bool) (choices : list string) (error : string)
    (raw : option json) :
  succeeds (deserialize (fields.Str req [validate.OneOf choices error]) raw) =
  match raw with
  | None => negb req
  | Some (JStr s) => existsb (String.eqb s) choices
  | Some _ => false
  end.
Proof.
  destruct raw as [[| | |s| |]|]; try reflexivity.
  - unfold deserialize, fields.Str.
    cbn [_deserialize fields.String_deserialize _validate validators run_validators].
    unfold validate.OneOf. now destruct (existsb (String.eqb s) choices).
  - unfold deserialize. simpl. now destruct req.
Qed.

Lemma accepts_pattern (req : bool) (max : nat) (re : string -> bool)
    (error : string) (raw : option json) :
  succeeds (deserialize
              (fields.Str req [validate.Length 1 max; validate.Regexp re error])
              raw) =
  match raw with
  | None => negb req
  | Some (JStr s) => within max s && re s
  | Some _ => false
  end.
Proof.
  destruct raw as [[| | |s| |]|]; try reflexivity.
  - unfold deserialize, within, fields.Str.
    cbn [_deserialize fields.String_deserialize _validate validators run_validators].
    unfold validate.Length, validate.Regexp.
    destruct (Nat.ltb_spec (String.length s) 1), (Nat.ltb_spec max (String.length s)),
      (Nat.leb_spec 1 (String.length s)), (Nat.leb_spec (String.length s) max);
      try lia; destruct (re s); reflexivity.
  - unfold deserialize. simpl. now destruct req.
Qed.

Lemma accepts_well_formed (f : Field) (wf : string -> bool) (text : string)
    (max : nat) (raw : option json) :
  required f = false ->
  _deserialize f = fields.String_deserialize text ->
  validators f =
    [(fun value => if wf value then Return tt
                   else Raise (ValidationError_text text));
     validate.Length 1 max] ->
  succeeds (deserialize f raw) =
  match raw with
  | None => true
  | Some (JStr s) => wf s && within max s
  | Some _ => false
  end.
Proof.
  intros Hr Hd Hv. unfold deserialize, _validate. rewrite Hr, Hd, Hv.
  destruct raw as [[| | |s| |]|]; try reflexivity.
  cbn [fields.String_deserialize run_validators]. unfold within, validate.Length.
  destruct (wf s);
    destruct (Nat.ltb_spec (String.length s) 1), (Nat.ltb_spec max (String.length s)),
      (Nat.leb_spec 1 (String.length s)), (Nat.leb_spec (String.length s) max);
    try lia; reflexivity.
Qed.

Lemma accepts_Bool (raw : option json) :
  succeeds (deserialize fields.Bool raw) =
  match raw with
  | None => true
  | Some v => boolean_like v
  end.
Proof.
  destruct raw as [v|]; [|reflexivity].
  unfold deserialize, fields.Bool. cbn [_deserialize _validate validators].
  destruct v as [|b|n|s|l|m]; try reflexivity.
  - destruct n as [|[p|p|]|p]; reflexivity.
  - cbn [fields.Boolean_deserialize boolean_like].
    destruct (existsb (String.eqb s) fields.truthy_strings); [reflexivity|].
    destruct (existsb (String.eqb s) fields.falsy_strings); reflexivity.
Qed.

Lemma item_ok_any_string (item : json) :
  item_ok (fields.Str false []) item = is_string_value item.
Proof. destruct item; reflexivity. Qed.

Lemma accepts_strings (req : bool) (raw : option json) :
  succeeds (deserialize (StrictListField_field (fields.Str false []) req) raw) =
  match raw with
  | None => negb req
  | Some (JList items) => forallb is_string_value items
  | Some _ => false
  end.
Proof.
  destruct raw as [[| | | |items|]|]; try reflexivity.
  - pose proof (StrictListField_deserialize (fields.Str false []) req items
                  (fun item => Str_deserialize_item _ _ item)) as Hd.
    rewrite (forallb_same _ _ items item_ok_any_string) in Hd.
    destruct (forallb is_string_value items).
    + now rewrite Hd.
    + destruct Hd as (dd & -> & _). reflexivity.
  - unfold deserialize. simpl. now destruct req.
Qed.

(** X13. [RepositorySchema] accepts a dictionary exactly when its [type] is
    one of git, hg and svn, its [url] a string of 1 to 255 characters, its
    [branch], if given, a string of 1 to 50 characters, and it has no other
    key. *)
Theorem repository_accepted (r : dict) :
  element_ok RepositorySchema (JDict r) =
  match dict_get "type" r with
  | Some (JStr t) => existsb (String.eqb t) ["git"; "hg"; "svn"]
  | _ => false
  end &&
  match dict_get "url" r with
  | Some (JStr u) => within 255 u
  | _ => false
  end &&
  match dict_get "branch" r with
  | None => true
  | Some (JStr b) => within 50 b
  | Some _ => false
  end &&
  keys_among ["type"; "url"; "branch"] r.
Proof.
  rewrite element_ok_no_stores by reflexivity. rewrite no_stores_RAISE.
  cbn [load_fields RepositorySchema forallb fst snd].
  rewrite accepts_OneOf, !accepts_Length, andb_true_r, <- !andb_assoc.
  reflexivity.
Qed.

(** X14. [AuthorSchema] accepts a dictionary exactly when its [name] is a
    string of 1 to 50 characters, its [email], if given, a well-formed
    address of 1 to 50 characters, its [maintainer], if given, a value
    that stands for a boolean, its [url], if given, a well-formed URL of 1
    to 255 characters, and it has no other key. *)
Theorem author_accepted (lib : Library) (a : dict) :
  element_ok (AuthorSchema lib) (JDict a) =
  match dict_get "name" a with
  | Some (JStr n) => within 50 n
  | _ => false
  end &&
  match dict_get "email" a with
  | None => true
  | Some (JStr e) => email_well_formed lib e && within 50 e
  | Some _ => false
  end &&
  match dict_get "maintainer" a with
  | None => true
  | Some v => boolean_like v
  end &&
  match dict_get "url" a with
  | None => true
  | Some (JStr u) => url_well_formed lib u && within 255 u
  | Some _ => false
  end &&
  keys_among ["name"; "email"; "maintainer"; "url"] a.
Proof.
  rewrite element_ok_no_stores by reflexivity. rewrite no_stores_RAISE.
  cbn [load_fields AuthorSchema forallb fst snd].
  rewrite accepts_Length, accepts_Bool.
  rewrite (accepts_well_formed _ (email_well_formed lib)
             "Not a valid email address." 50) by reflexivity.
  rewrite (accepts_well_formed _ (url_well_formed lib) "Not a valid URL." 255)
    by reflexivity.
  rewrite andb_true_r, <- !andb_assoc. reflexivity.
Qed.

(** X15. [ExampleSchema] accepts a dictionary exactly when its [name] is a
    string of 1 to 100 characters that matches the pattern, its [base] a
    string, its [files] a list of strings, and it has no other key. *)
Theorem example_accepted (x : dict) :
  element_ok ExampleSchema (JDict x) =
  match dict_get "name" x with
  | Some (JStr n) => within 100 n && example_name_re n
  | _ => false
  end &&
  match dict_get "base" x with
  | Some (JStr _) => true
  | _ => false
  end &&
  match dict_get "files" x with
  | Some (JList files) => forallb is_string_value files
  | _ => false
  end &&
  keys_among ["name"; "base"; "files"] x.
Proof.
  rewrite element_ok_no_stores by reflexivity. rewrite no_stores_RAISE.
  cbn [load_fields ExampleSchema forallb fst snd].
  rewrite accepts_pattern, accepts_strings, andb_true_r, <- !andb_assoc.
  assert (Hbase : succeeds (deserialize (fields.Str true []) (dict_get "base" x)) =
                  match dict_get "base" x with
                  | Some (JStr _) => true
                  | _ => false
                  end).
  { destruct (dict_get "base" x) as [[| | | | |]|]; reflexivity. }
  rewrite Hbase. reflexivity.
Qed.

(** X16. [ExportSchema] accepts a dictionary exactly when its [include] and
    its [exclude], each if given, are lists of strings, and it has no other
    key; the empty dictionary passes. *)
Theorem export_accepted (e : dict) :
  element_ok ExportSchema (JDict e) =
  match dict_get "include" e with
  | None => true
  | Some (JList items) => forallb is_string_value items
  | Some _ => false
  end &&
  match dict_get "exclude" e with
  | None => true
  | Some (JList items) => forallb is_string_value items
  | Some _ => false
  end &&
  keys_among ["include"; "exclude"] e.
Proof.
  rewrite element_ok_no_stores by reflexivity. rewrite no_stores_RAISE.
  cbn [load_fields ExportSchema forallb fst snd].
  rewrite !accepts_strings, andb_true_r, <- !andb_assoc.
  reflexivity.
Qed.

(** X17. Unlike the manifest itself, a nested object with a key that its
    schema does not declare does not pass: this holds for every schema
    class that keeps the default [unknown] and declares no field named
    [_schema], so for authors, repositories, examples and exports. *)
Theorem nested_unknown_key_rejected (sch : Schema) (item : dict) (k : string) :
  unknown sch = RAISE ->
  plain_names (load_fields sch) = true ->
  In k (map fst item) ->
  declared (load_fields sch) k = false ->
  element_ok sch (JDict item) = false.
Proof.
  intros Hu Hplain Hin Hk.
  rewrite element_ok_no_stores by exact Hplain. rewrite Hu, no_stores_RAISE.
  apply andb_false_iff. right.
  destruct (forallb (declared (load_fields sch)) (map fst item)) eqn:E;
    [|reflexivity].
  rewrite forallb_forall in E. rewrite (E k Hin) in Hk. discriminate.
Qed.

Lemma nested_unknown_key_rejected_witness :
  element_ok (AuthorSchema sample_lib)
    (JDict [("name", JStr "A"); ("twitter", JStr "@a")]) = false.
Proof.
  apply (nested_unknown_key_rejected (AuthorSchema sample_lib)
           [("name", JStr "A"); ("twitter", JStr "@a")] "twitter").
  - reflexivity.
  - reflexivity.
  - right. left. reflexivity.
  - reflexivity.
Defined.

Lemma repository_all_or_nothing_witness :
  returned_field
    (fst (ManifestSchema.load_manifest sample_lib false 0 (Raise Timeout)
            (JDict [("repository",
                     JDict [("type", JStr "cvs"); ("url", JStr "u")])])
            empty_world)) "repository" =
    (if element_ok RepositorySchema
          (JDict [("type", JStr "cvs"); ("url", JStr "u")])
     then Some (element_loaded RepositorySchema
                  (JDict [("type", JStr "cvs"); ("url", JStr "u")]))
     else None) /\
  (reported
     (fst (ManifestSchema.load_manifest sample_lib true 0 (Raise Timeout)
             (JDict [("repository",
                      JDict [("type", JStr "cvs"); ("url", JStr "u")])])
             empty_world)) "repository" = None <->
   element_ok RepositorySchema
     (JDict [("type", JStr "cvs"); ("url", JStr "u")]) = true).
Proof.
  apply (repository_all_or_nothing sample_lib true 0 (Raise Timeout)
           [("repository", JDict [("type", JStr "cvs"); ("url", JStr "u")])]
           empty_world (JDict [("type", JStr "cvs"); ("url", JStr "u")])).
  reflexivity.
Defined.

Lemma strings_kept (req : bool) (items : list json) :
  filter is_string_value items <> [] ->
  kept (deserialize (StrictListField_field (fields.Str false []) req)
          (Some (JList items))) =
  Some (JList (filter is_string_value items)).
Proof.
  intros Hne.
  pose proof (StrictListField_deserialize (fields.Str false []) req items
                (fun item => Str_deserialize_item _ _ item)) as Hd.
  rewrite (forallb_same _ _ items item_ok_any_string) in Hd.
  rewrite (filter_ext _ _ item_ok_any_string) in Hd.
  destruct (forallb is_string_value items) eqn:E.
  - rewrite Hd. simpl. now rewrite (filter_all _ _ E).
  - destruct Hd as (dd & -> & _). simpl.
    destruct (filter is_string_value items); [contradiction | reflexivity].
Qed.

(** X18. An export is repaired rather than dropped: whatever else is wrong
    with it (other items, the other list, unknown keys), when [include] or
    [exclude] is a list with at least one string, the repaired document
    has an export whose list holds exactly those strings, in order. *)
Theorem export_salvaged (lib : Library) (now : Z)
    (network : outcome RequestException license_list) (d : dict) (w : world)
    (e : dict) (k : string) (items : list json) :
  k = "include" \/ k = "exclude" ->
  dict_get "export" d = Some (JDict e) ->
  dict_get k e = Some (JList items) ->
  filter is_string_value items <> [] ->
  exists c,
    returned_field
      (fst (ManifestSchema.load_manifest lib false now network (JDict d) w))
      "export" = Some (JDict c) /\
    dict_get k c = Some (JList (filter is_string_value items)).
Proof.
  intros Hk He Hitems Hne.
  set (c := collect (load_fields ExportSchema) e []).
  exists c.
  assert (Hc : dict_get k c = Some (JList (filter is_string_value items))).
  { unfold c. rewrite collect_get.
    - destruct Hk as [-> | ->]; cbn [field_of load_fields ExportSchema String.eqb
        Ascii.eqb Bool.eqb]; rewrite Hitems, (strings_kept false items Hne);
        reflexivity.
    - repeat (constructor; [simpl; intuition discriminate|]). constructor. }
  split; [|exact Hc].
  rewrite load_manifest_returned. unfold field_outcome.
  cbn [field_of ManifestSchema.declared_fields String.eqb Ascii.eqb Bool.eqb].
  rewrite He.
  rewrite (Nested_single_deserialize ExportSchema (JDict e) eq_refl)
    by discriminate.
  rewrite element_loaded_eq.
  change (value_of (load_fields ExportSchema) (unknown ExportSchema) (JDict e))
    with (JDict c).
  destruct (element_ok ExportSchema (JDict e)); [reflexivity|].
  cbn [handle_error ExportSchema default_handle_error kept valid_data truthy].
  destruct c; [discriminate | reflexivity].
Qed.

Lemma export_salvaged_witness :
  exists c,
    returned_field
      (fst (ManifestSchema.load_manifest sample_lib false 0 (Raise Timeout)
              (JDict [("export",
                       JDict [("include", JList [JStr "src"; JNum 3]);
                              ("flatten", JBool true)])])
              empty_world)) "export" = Some (JDict c) /\
    dict_get "include" c =
      Some (JList (filter is_string_value [JStr "src"; JNum 3])).
Proof.
  apply (export_salvaged sample_lib 0 (Raise Timeout)
           [("export", JDict [("include", JList [JStr "src"; JNum 3]);
                              ("flatten", JBool true)])]
           empty_world
           [("include", JList [JStr "src"; JNum 3]); ("flatten", JBool true)]
           "include" [JStr "src"; JNum 3]).
  - left. reflexivity.
  - reflexivity.
  - reflexivity.
  - discriminate.
Defined.

(** ** Nested lists that are no lists, and [StrictSchema.handle_error] *)

(** X19. [authors] or [examples] given as anything but a list (one object, a
    string) is left out and reported as "Invalid type." (as "Field may not
    be null." for null): no element is looked at. *)
Theorem nested_list_not_a_list (lib : Library) (strict : bool) (now : Z)
    (network : outcome RequestException license_list) (d : dict) (w : world)
    (k : string) (sch : Schema) (v : json) :
  nested_list lib k sch ->
  dict_get k d = Some v ->
  is_list_value v = false ->
  reported (fst (ManifestSchema.load_manifest lib strict now network (JDict d) w)) k =
    Some (MList [match v with
                 | JNull => "Field may not be null."
                 | _ => "Invalid type."
                 end]) /\
  returned_field
    (fst (ManifestSchema.load_manifest lib false now network (JDict d) w)) k = None.
Proof.
  intros Hk Hv Hl. rewrite load_manifest_reported, load_manifest_returned.
  destruct (nested_list_outcome lib now network d w k sch Hk) as (-> & _ & _).
  rewrite Hv. destruct v; try discriminate; split; reflexivity.
Qed.

Lemma nested_list_not_a_list_witness :
  reported (fst (ManifestSchema.load_manifest sample_lib true 0 (Raise Timeout)
                   (JDict [("authors", JDict [("name", JStr "A")])])
                   empty_world)) "authors" =
    Some (MList ["Invalid type."]) /\
  returned_field
    (fst (ManifestSchema.load_manifest sample_lib false 0 (Raise Timeout)
            (JDict [("authors", JDict [("name", JStr "A")])]) empty_world))
    "authors" = None.
Proof.
  apply (nested_list_not_a_list sample_lib true 0 (Raise Timeout)
           [("authors", JDict [("name", JStr "A")])] empty_world
           "authors" (AuthorSchema sample_lib) (JDict [("name", JStr "A")])).
  - left. split; reflexivity.
  - reflexivity.
  - reflexivity.
Defined.

Lemma skip_broken_spec (m : msgs) (items : list json) :
  forall idx,
    subsequence (StrictSchema.skip_broken m idx items) items /\
    (forall n item, nth_error items n = Some item ->
       StrictSchema.not_in_messages (idx + n) m = true ->
       In item (StrictSchema.skip_broken m idx items)) /\
    ((forall n, n < length items ->
        StrictSchema.not_in_messages (idx + n) m = true) ->
     StrictSchema.skip_broken m idx items = items).
Proof.
  induction items as [|x items IH]; intros idx.
  - split; [constructor|]. split; [|reflexivity]. intros [|n] item H; discriminate.
  - destruct (IH (S idx)) as (IH1 & IH2 & IH3).
    cbn [StrictSchema.skip_broken]. split; [|split].
    + destruct (StrictSchema.not_in_messages idx m); now constructor.
    + intros [|n] item Hn Hok.
      * simpl in Hn. injection Hn as <-. rewrite Nat.add_0_r in Hok.
        rewrite Hok. now left.
      * simpl in Hn. replace (idx + S n) with (S idx + n) in Hok by lia.
        destruct (StrictSchema.not_in_messages idx m);
          [right|]; now apply (IH2 n item).
    + intros Hall. pose proof (Hall 0 (Nat.lt_0_succ _)) as H0.
      rewrite Nat.add_0_r in H0. rewrite H0. f_equal. apply IH3.
      intros n Hn. replace (S idx + n) with (idx + S n) by lia.
      apply Hall. simpl. lia.
Qed.

(** X20. [StrictSchema.handle_error] with [many]: it always raises, with the
    messages it was given, and the valid data it attaches is a
    subsequence of the given list that holds every item whose index is no
    key of the messages; it is the whole list when no index is. *)
Theorem handle_error_skips_broken (error : ValidationError) (items : list json) :
  exists valid,
    StrictSchema.handle_error true error (JList items) =
      Raise (mkValidationError (messages error) (data error) (Some (JList valid))) /\
    subsequence valid items /\
    (forall n item, nth_error items n = Some item ->
       StrictSchema.not_in_messages n (messages error) = true -> In item valid) /\
    ((forall n, n < length items ->
        StrictSchema.not_in_messages n (messages error) = true) ->
     valid = items).
Proof.
  exists (StrictSchema.skip_broken (messages error) 0 items).
  split; [reflexivity|].
  exact (skip_broken_spec (messages error) items 0).
Qed.

Lemma handle_error_skips_broken_witness :
  In (JStr "b")
    (StrictSchema.skip_broken (MDict [(Index 0, MList ["bad"])]) 0
       [JStr "a"; JStr "b"]).
Proof.
  destruct (handle_error_skips_broken
              (mkValidationError (MDict [(Index 0, MList ["bad"])]) None None)
              [JStr "a"; JStr "b"]) as (valid & Hraise & _ & Hin & _).
  injection Hraise as <-.
  apply (Hin 1 (JStr "b")); reflexivity.
Defined.

(** ** The patterns *)

Lemma plus_dollar_body (class : ascii -> bool) (body : string) :
  body <> EmptyString ->
  forallb class (list_ascii_of_string body) = true ->
  plus_dollar class body = true /\
  plus_dollar class (body ++ String newline EmptyString) = true.
Proof.
  induction body as [|c body IH]; [contradiction|]. intros _ Hall.
  simpl in Hall. apply andb_true_iff in Hall as [Hc Hall].
  destruct body as [|c2 body].
  - simpl. rewrite Hc. split; reflexivity.
  - destruct (IH ltac:(discriminate) Hall) as [IH1 IH2].
    split.
    + cbn [plus_dollar]. rewrite Hc. cbn [andb].
      destruct body; [|exact IH1].
      simpl in Hall. apply andb_true_iff in Hall as [-> _]. apply orb_true_r.
    + cbn [append plus_dollar] in *. rewrite Hc. cbn [andb].
      destruct body; exact IH2.
Qed.

(** X21. Each pattern of the schema is matched as Python's [re.match] does with
    [$]: by a non-empty run of characters of the class, and also by such a
    run followed by one newline. *)
Theorem pattern_accepts (class : ascii -> bool) (s : string) :
  plus_dollar class s = true <->
  exists body,
    body <> EmptyString /\
    forallb class (list_ascii_of_string body) = true /\
    (s = body \/ s = body ++ String newline EmptyString).
Proof.
  split.
  - induction s as [|c rest IH]; [discriminate|].
    cbn [plus_dollar]. intros H. apply andb_true_iff in H as [Hc H].
    destruct rest as [|n rest'].
    + exists (String c EmptyString). simpl. rewrite Hc. repeat split; auto.
      discriminate.
    + destruct rest' as [|n2 rest''].
      * destruct (class n) eqn:Hn.
        -- exists (String c (String n EmptyString)). simpl. rewrite Hc, Hn.
           repeat split; auto. discriminate.
        -- rewrite orb_false_r in H. apply Ascii.eqb_eq in H. subst n.
           exists (String c EmptyString). simpl. rewrite Hc.
           repeat split; auto. discriminate.
      * destruct (IH H) as (body & _ & Hall & Hs).
        exists (String c body). simpl. rewrite Hc, Hall.
        split; [discriminate|]. split; [reflexivity|].
        destruct Hs as [-> | ->]; auto.
  - intros (body & Hne & Hall & [-> | ->]);
      now apply (plus_dollar_body class body Hne Hall).
Qed.

Lemma pattern_accepts_witness :
  exists body,
    body <> EmptyString /\
    forallb (fun c => lower c || digit c || Ascii.eqb c "-" || Ascii.eqb c "_")
      (list_ascii_of_string body) = true /\
    (String "x" (String "8" (String "6" (String newline EmptyString))) = body \/
     String "x" (String "8" (String "6" (String newline EmptyString))) =
       body ++ String newline EmptyString).
Proof.
  apply (proj1 (pattern_accepts
                  (fun c => lower c || digit c || Ascii.eqb c "-" || Ascii.eqb c "_")
                  (String "x" (String "8" (String "6" (String newline EmptyString)))))).
  reflexivity.
Defined.

(** * The build tool *)

(** ** Lower case and the variables of [PioPlatform] *)

Lemma find_app_first {A : Type} (f : A -> bool) (l1 l2 : list A) :
  find f (l1 ++ l2)%list =
  match find f l1 with Some x => Some x | None => find f l2 end.
Proof.
  induction l1 as [|x l1 IH]; simpl; [reflexivity|].
  destruct (f x); auto.
Qed.

Lemma lower_char_idempotent (c : ascii) :
  lower_char (lower_char c) = lower_char c.
Proof.
  destruct c as [[] [] [] [] [] [] [] []]; reflexivity.
Qed.

Lemma str_lower_idempotent (s : string) : str_lower (str_lower s) = str_lower s.
Proof.
  induction s as [|c s IH]; simpl; [reflexivity|].
  now rewrite lower_char_idempotent, IH.
Qed.

Lemma PioPlatform_variables_get (names : list string) (env acc : dict)
    (k : string) :
  dict_get k (PioPlatform_variables names env acc) =
  match find (writes_key env k) (rev names) with
  | Some name => dict_get name env
  | None => dict_get k acc
  end.
Proof.
  revert acc; induction names as [|name rest IH]; intros acc; simpl.
  - reflexivity.
  - rewrite IH, find_app_first.
    destruct (find (writes_key env k) (rev rest)) as [n|]; [reflexivity|].
    simpl. unfold writes_key, has_key.
    destruct (dict_get name env) as [v|] eqn:Hv.
    + destruct (String.eqb (str_lower name) k) eqn:E; simpl.
      * apply String.eqb_eq in E. subst k. now rewrite dict_get_set_same.
      * apply dict_get_set_other. intros ->.
        now rewrite String.eqb_refl in E.
    + now rewrite andb_false_r.
Qed.

(** X22. The variables handed to [configure_default_packages]: the value under a
    key is the value in [env] of the last name of [env['PIOVARIABLES']]
    that is in [env] and whose lower case is the key; there is none when no
    name is such. *)
Theorem PioPlatform_last_name_wins (names : list string) (env : dict)
    (k : string) :
  dict_get k (PioPlatform_variables names env []) =
  match find (writes_key env k) (rev names) with
  | Some name => dict_get name env
  | None => None
  end.
Proof.
  apply PioPlatform_variables_get.
Qed.

(** X23. Every key of the variables of [PioPlatform] is in lower case, and is
    the lower case of a name of [env['PIOVARIABLES']] that is in [env]. *)
Theorem PioPlatform_keys_lower_case (names : list string) (env : dict)
    (k : string) :
  has_key k (PioPlatform_variables names env []) = true ->
  str_lower k = k /\
  exists name,
    In name names /\ str_lower name = k /\ has_key name env = true.
Proof.
  unfold has_key at 1. rewrite PioPlatform_variables_get.
  destruct (find (writes_key env k) (rev names)) as [name|] eqn:F;
    [|discriminate].
  intros _. apply find_some in F. destruct F as [Hin Hw].
  unfold writes_key in Hw. apply andb_true_iff in Hw.
  destruct Hw as [Hk Henv]. apply String.eqb_eq in Hk.
  split.
  - rewrite <- Hk. apply str_lower_idempotent.
  - exists name. split; [now apply in_rev|]. now split.
Qed.

Lemma PioPlatform_keys_lower_case_witness :
  str_lower "build_type" = "build_type" /\
  exists name,
    In name ["BUILD_TYPE"; "BOARD"] /\ str_lower name = "build_type" /\
    has_key name [("BUILD_TYPE", JStr "debug")] = true.
Proof.
  apply (PioPlatform_keys_lower_case ["BUILD_TYPE"; "BOARD"]
           [("BUILD_TYPE", JStr "debug")] "build_type").
  reflexivity.
Defined.

(** ** The board variables of [LoadPioPlatform] *)

Lemma substring_all (s : string) : substring 0 (String.length s) s = s.
Proof.
  induction s as [|c s IH]; simpl; [reflexivity|]. now rewrite IH.
Qed.

Lemma split_once_lower_board (rest : string) :
  split_once (str_lower ("BOARD_" ++ rest)) = ["board"; str_lower rest].
Proof. reflexivity. Qed.

Lemma split_once_lower_upload (rest : string) :
  split_once (str_lower ("UPLOAD_" ++ rest)) = ["upload"; str_lower rest].
Proof. reflexivity. Qed.

Ltac peel k H :=
  let c := fresh "c" in
  destruct k as [|c k]; [discriminate H|];
  cbn [prefix] in H;
  match type of H with
  | context [ascii_dec ?a c] =>
      destruct (ascii_dec a c) as [<-|_]; [|discriminate H]
  end.

Lemma prefix_board (k : string) :
  prefix "BOARD_" k = true -> k = "BOARD_" ++ after 6 k.
Proof.
  intros H. do 6 peel k H.
  unfold after. simpl. rewrite Nat.sub_0_r, substring_all. reflexivity.
Qed.

Lemma prefix_upload (k : string) :
  prefix "UPLOAD_" k = true -> k = "UPLOAD_" ++ after 7 k.
Proof.
  intros H. do 7 peel k H.
  unfold after. simpl. rewrite Nat.sub_0_r, substring_all. reflexivity.
Qed.

(** X24. The loop of [LoadPioPlatform] over the variables never fails at
    unpacking the split name.  A variable that is in [env] is skipped; of
    the others, [BOARD_X] is looked up in the section [build] of the board
    configuration under the lower case of [X], [UPLOAD_X] in the section
    [upload], and every other variable is skipped. *)
Theorem board_option_sections (env : dict) (k : string) :
  board_option env k =
  Return
    (if has_key k env then None
     else if prefix "BOARD_" k then Some ("build", str_lower (after 6 k))
     else if prefix "UPLOAD_" k then Some ("upload", str_lower (after 7 k))
     else None).
Proof.
  unfold board_option.
  destruct (has_key k env); [reflexivity|]. simpl.
  destruct (prefix "BOARD_" k) eqn:B.
  - simpl. rewrite (prefix_board k B) at 1.
    now rewrite split_once_lower_board.
  - destruct (prefix "UPLOAD_" k) eqn:U; simpl; [|reflexivity].
    rewrite (prefix_upload k U) at 1.
    now rewrite split_once_lower_upload.
Qed.

(** ** The clock of [PrintSystemInfo] *)

Lemma digit_char (c : ascii) (d : Decimal.uint) :
  digit c = true -> uint_of_char c (Some d) <> None.
Proof.
  destruct c as [[] [] [] [] [] [] [] []]; intros H;
    try discriminate H; discriminate.
Qed.

Lemma digits_are_a_number (l : list ascii) :
  forallb digit l = true ->
  exists d, NilEmpty.uint_of_string (string_of_list_ascii l) = Some d.
Proof.
  induction l as [|c l IH]; simpl; intros H.
  - now exists Decimal.Nil.
  - apply andb_true_iff in H. destruct H as [Hc Hl].
    destruct (IH Hl) as [d ->].
    destruct (uint_of_char c (Some d)) as [d'|] eqn:E.
    + now exists d'.
    + now apply digit_char in E.
Qed.

Lemma filter_kept (A : Type) (f : A -> bool) (l : list A) :
  forallb f (filter f l) = true.
Proof.
  induction l as [|x l IH]; simpl; [reflexivity|].
  destruct (f x) eqn:E; simpl; [now rewrite E|assumption].
Qed.

Lemma filter_nil_iff (A : Type) (f : A -> bool) (l : list A) :
  filter f l = [] <-> forallb (fun x => negb (f x)) l = true.
Proof.
  induction l as [|x l IH]; simpl; [tauto|].
  destruct (f x); simpl; [split; discriminate|exact IH].
Qed.

Lemma int_of_digits_cases (l : list ascii) :
  forallb digit l = true ->
  match l with
  | [] => exists e, int_of_digits (string_of_list_ascii l) = Raise e
  | _ => exists n, int_of_digits (string_of_list_ascii l) = Return n
  end.
Proof.
  intros H. destruct l as [|c l].
  - simpl. eexists; reflexivity.
  - destruct (digits_are_a_number (c :: l) H) as [d Hd].
    unfold int_of_digits. rewrite Hd. simpl. now exists (N.of_uint d).
Qed.

(** X25. The clock entry of [PrintSystemInfo] raises [ValueError] exactly when
    [$BOARD_F_CPU] is not empty and has no digit in it. *)
Theorem f_cpu_entry_raises (f_cpu : string) :
  (exists e, f_cpu_entry f_cpu = Raise e) <->
  f_cpu <> EmptyString /\
  forallb (fun c => negb (digit c)) (list_ascii_of_string f_cpu) = true.
Proof.
  rewrite <- filter_nil_iff.
  destruct f_cpu as [|c s].
  - simpl. split.
    + intros [e H]. discriminate H.
    + intros [H _]. now destruct H.
  - assert (D := int_of_digits_cases
                   (filter digit (list_ascii_of_string (String c s)))
                   (filter_kept _ digit _)).
    unfold f_cpu_entry, digits_of.
    destruct (filter digit (list_ascii_of_string (String c s))) as [|x l].
    + destruct D as [e ->]. split.
      * intros _. split; [discriminate|reflexivity].
      * intros _. now exists e.
    + destruct D as [n ->]. split.
      * intros [e H]. discriminate H.
      * intros [_ H]. discriminate H.
Qed.

Lemma decimal_not_empty (n : N) : decimal n <> EmptyString.
Proof.
  unfold decimal. destruct n as [|p]; simpl; [discriminate|].
  assert (H := DecimalPos.Unsigned.to_uint_nonnil p).
  destruct (Pos.to_uint p); simpl; try discriminate. now destruct H.
Qed.

Lemma int_of_digits_decimal (n : N) : int_of_digits (decimal n) = Return n.
Proof.
  assert (H := decimal_not_empty n).
  unfold int_of_digits. destruct (decimal n) eqn:E; [now destruct H|].
  rewrite <- E. unfold decimal.
  now rewrite NilEmpty.usu, DecimalN.Unsigned.of_to.
Qed.

(** X26. When the digits of [$BOARD_F_CPU], in their order, are the decimal
    writing of [n], the clock entry of [PrintSystemInfo] is the decimal
    writing of the quotient of [n] by a million, followed by [MHz]. *)
Theorem f_cpu_entry_megahertz (f_cpu : string) (n : N) :
  digits_of f_cpu = decimal n ->
  f_cpu_entry f_cpu = Return (Some (decimal (n / 1000000) ++ "MHz")).
Proof.
  intros H. unfold f_cpu_entry.
  destruct f_cpu as [|c s].
  - exfalso. apply (decimal_not_empty n). now rewrite <- H.
  - now rewrite H, int_of_digits_decimal.
Qed.

Lemma f_cpu_entry_megahertz_witness :
  f_cpu_entry "16000000L" = Return (Some (decimal (16000000 / 1000000) ++ "MHz")).
Proof.
  apply (f_cpu_entry_megahertz "16000000L" 16000000). reflexivity.
Defined.
